(** * chilliLCARS: sensor logger, calibration and irrigation control

    A shallow embedding of the Python sources [sensors.py], [logger.py],
    [relays.py], [config.py] and the relay routes of [webserver.py],
    together with the properties of the soil-moisture conversion, the
    watering decision, the sensor readers and the relay audit trail. *)

From Stdlib Require Import ZArith Lia Bool List.
From Stdlib Require Import Ascii String.
From Stdlib Require SpecFloat.
From stdpp Require Import base option strings pretty gmap.
From stdpp Require Import list list_numbers sorting.

Local Open Scope Z_scope.

(** ** Python floats

    A Python [float] is an IEEE-754 binary64 number.  Every finite binary64
    value is an integer multiple of [2^-1074]; [Fin k] stands for
    [k * 2^-1074].  The two zeros are identified: they compare equal, and
    the only operation that tells them apart, division by zero, raises in
    Python.  Arithmetic is the exact result followed by round-to-nearest,
    ties-to-even, with the rounding written out on integers. *)
Module Float.

Inductive float : Type :=
  | NaN
  | Inf (neg : bool)
  | Fin (k : Z).

(** Exponent of the unit in the last place of the subnormals. *)
Definition emin : Z := 1074.
(** [2^1024] in units of [2^-1074]: the first magnitude that overflows. *)
Definition overflow_threshold : Z := 2 ^ 2098.

(** Round-half-even of the non-negative rational [a / b] to an integer. *)
Definition rne (a b : Z) : Z :=
  let q := a / b in
  let r := a mod b in
  if 2 * r <? b then q
  else if b <? 2 * r then q + 1
  else if Z.even q then q else q + 1.

(** Nearest binary64 magnitude to the non-negative rational [a / b]
    (everything in units of [2^-1074]): below [2^53] units the grid has
    step 1 (subnormals and the first binade), above it the step is chosen
    so that 53 significant bits remain. *)
Definition round_pos (a b : Z) : Z :=
  let s := Z.max 0 (Z.log2 (a / b) - 52) in
  rne a (b * 2 ^ s) * 2 ^ s.

(** Nearest binary64 to the rational [a / b], [b > 0]. *)
Definition rnd (a b : Z) : float :=
  if 0 <=? a then
    let k := round_pos a b in
    if overflow_threshold <=? k then Inf false else Fin k
  else
    let k := round_pos (- a) b in
    if overflow_threshold <=? k then Inf true else Fin (- k).

(** A decimal literal [a / b], correctly rounded as Python reads it. *)
Definition lit (a b : Z) : float := rnd (a * 2 ^ emin) b.

Definition of_Z (z : Z) : float := lit z 1.

(** *** Comparison: [NaN] is unordered *)
Definition fcompare (x y : float) : option comparison :=
  match x, y with
  | NaN, _ | _, NaN => None
  | Inf s1, Inf s2 =>
      Some (match s1, s2 with
            | true, false => Lt
            | false, true => Gt
            | _, _ => Eq
            end)
  | Inf s, Fin _ => Some (if s then Lt else Gt)
  | Fin _, Inf s => Some (if s then Gt else Lt)
  | Fin a, Fin b => Some (a ?= b)
  end.

Definition flt (x y : float) : bool :=
  match fcompare x y with Some Lt => true | _ => false end.
Definition fle (x y : float) : bool :=
  match fcompare x y with Some Lt | Some Eq => true | _ => false end.
Definition fgt (x y : float) : bool := flt y x.
Definition fge (x y : float) : bool := fle y x.
Definition feq (x y : float) : bool :=
  match fcompare x y with Some Eq => true | _ => false end.

(** *** Arithmetic *)
Definition fsub (x y : float) : float :=
  match x, y with
  | NaN, _ | _, NaN => NaN
  | Inf s1, Inf s2 => if Bool.eqb s1 s2 then NaN else Inf s1
  | Inf s, Fin _ => Inf s
  | Fin _, Inf s => Inf (negb s)
  | Fin a, Fin b => rnd (a - b) 1
  end.

Definition fmul (x y : float) : float :=
  match x, y with
  | NaN, _ | _, NaN => NaN
  | Inf s1, Inf s2 => Inf (xorb s1 s2)
  | Inf s, Fin k | Fin k, Inf s =>
      if k =? 0 then NaN else Inf (xorb s (k <? 0))
  | Fin a, Fin b => rnd (a * b) (2 ^ emin)
  end.

(** Division proper; Python's [/] first raises on a zero divisor, see
    [Py.float_div]. *)
Definition fdiv (x y : float) : float :=
  match x, y with
  | NaN, _ | _, NaN => NaN
  | Inf _, Inf _ => NaN
  | Inf s, Fin k => Inf (xorb s (k <? 0))
  | Fin _, Inf _ => Fin 0
  | Fin a, Fin b =>
      if b =? 0 then NaN
      else if 0 <? b then rnd (a * 2 ^ emin) b
      else rnd (- a * 2 ^ emin) (- b)
  end.

(** Python's two-argument [min] and [max] keep the first argument unless
    the second compares strictly smaller (larger). *)
Definition py_min (a b : float) : float := if flt b a then b else a.
Definition py_max (a b : float) : float := if fgt b a then b else a.

(** [round(x, ndigits)] for a small [ndigits >= 0]: the exact value is
    rounded half-even to a multiple of [10^-ndigits], which is then read
    back as the nearest binary64 (CPython goes through the correctly
    rounded decimal string).  [NaN] and the infinities round to
    themselves. *)
Definition round_int (ndigits k : Z) : Z :=
  if 0 <=? k then rne (k * 10 ^ ndigits) (2 ^ emin)
  else - rne (- k * 10 ^ ndigits) (2 ^ emin).

Definition round (x : float) (ndigits : Z) : float :=
  match x with
  | Fin k => lit (round_int ndigits k) (10 ^ ndigits)
  | _ => x
  end.

(** [int(x)]: truncation toward zero of a finite float. *)
Definition trunc (k : Z) : Z := Z.quot k (2 ^ emin).

(** The same value in the Standard Library's specification of binary64,
    against which the arithmetic above is compared. *)
Definition to_spec (x : float) : SpecFloat.spec_float :=
  match x with
  | NaN => SpecFloat.S754_nan
  | Inf s => SpecFloat.S754_infinity s
  | Fin k => SpecFloat.binary_normalize 53 1024 k (- emin) false
  end.

Definition spec_sub := SpecFloat.SFsub 53 1024.
Definition spec_mul := SpecFloat.SFmul 53 1024.
Definition spec_div := SpecFloat.SFdiv 53 1024.

(** The two models give the same difference, product, quotient and
    order on [x] and [y]. *)
Definition agree (x y : float) : bool :=
  let eqb a b :=
    match SpecFloat.SFcompare a b with
    | Some Eq => true
    | None =>
        match a, b with
        | SpecFloat.S754_nan, SpecFloat.S754_nan => true
        | _, _ => false
        end
    | _ => false
    end in
  eqb (to_spec (fsub x y)) (spec_sub (to_spec x) (to_spec y)) &&
  eqb (to_spec (fmul x y)) (spec_mul (to_spec x) (to_spec y)) &&
  eqb (to_spec (fdiv x y)) (spec_div (to_spec x) (to_spec y)) &&
  Bool.eqb (flt x y) (SpecFloat.SFltb (to_spec x) (to_spec y)) &&
  Bool.eqb (fle x y) (SpecFloat.SFleb (to_spec x) (to_spec y)).

End Float.

(** ** Python results, exceptions and the two monads of the model *)
Module Py.
Import Float.

(** Exceptions that derive from [Exception]: what [except Exception]
    catches. *)
Inductive exception : Type :=
  | OSError
  | ValueError
  | TypeError
  | KeyError
  | IndexError
  | AttributeError
  | NameError (name : string)
  | ZeroDivisionError
  | OverflowError
  | RuntimeError
  | ImportError.

(** Everything a statement can raise; the last two derive from
    [BaseException] only. *)
Inductive raised : Type :=
  | Exc (e : exception)
  | KeyboardInterrupt
  | SystemExit.

Inductive result (A : Type) : Type :=
  | Ok (a : A)
  | Raise (r : raised).
Arguments Ok {A} a.
Arguments Raise {A} r.

(** What a call into a driver, the file system or a library does: it
    returns, or throws an [Exception]. *)
Inductive outcome (A : Type) : Type :=
  | Returns (a : A)
  | Throws (e : exception).
Arguments Returns {A} a.
Arguments Throws {A} e.

Definition call {A} (o : outcome A) : result A :=
  match o with
  | Returns a => Ok a
  | Throws e => Raise (Exc e)
  end.

(** A file as the program sees it: [os.path.exists] is false, or opening
    and reading it has an outcome. *)
Inductive file (A : Type) : Type :=
  | Absent
  | Present (o : outcome A).
Arguments Absent {A}.
Arguments Present {A} o.

Definition exists_ {A} (f : file A) : bool :=
  match f with Absent => false | Present _ => true end.

Definition read_file {A} (f : file A) : result A :=
  match f with
  | Absent => Raise (Exc OSError)
  | Present o => call o
  end.

(** *** Code without side effects: the error monad *)
Definition bind {A B} (m : result A) (k : A -> result B) : result B :=
  match m with
  | Ok a => k a
  | Raise r => Raise r
  end.

(** [try: body / except Exception: handler] *)
Definition try_except {A} (body : result A) (handler : exception -> result A)
  : result A :=
  match body with
  | Raise (Exc e) => handler e
  | other => other
  end.

Declare Scope res_scope.
Delimit Scope res_scope with res.
Notation "x <- e ;; k" := (bind e (fun x => k))
  (at level 100, e at next level, k at level 200, right associativity)
  : res_scope.

(** *** Code with side effects: state and errors.  The state reached when
    an exception is raised is kept, as in Python. *)
Definition M (S A : Type) : Type := S -> result A * S.

Definition ret {S A} (a : A) : M S A := fun s => (Ok a, s).
Definition throw {S A} (r : raised) : M S A := fun s => (Raise r, s).
Definition lift {S A} (m : result A) : M S A := fun s => (m, s).
Definition get {S} : M S S := fun s => (Ok s, s).
Definition modify {S} (f : S -> S) : M S unit := fun s => (Ok tt, f s).

Definition bindM {S A B} (m : M S A) (k : A -> M S B) : M S B :=
  fun s =>
    match m s with
    | (Ok a, s') => k a s'
    | (Raise r, s') => (Raise r, s')
    end.

(** [try: body / except Exception: handler] *)
Definition try_exceptM {S A} (body : M S A) (handler : exception -> M S A)
  : M S A :=
  fun s =>
    match body s with
    | (Raise (Exc e), s') => handler e s'
    | other => other
    end.

(** [try: body / except KeyboardInterrupt: handler] *)
Definition try_except_interrupt {S A} (body : M S A) (handler : M S A)
  : M S A :=
  fun s =>
    match body s with
    | (Raise KeyboardInterrupt, s') => handler s'
    | other => other
    end.

(** [try: body / finally: cleanup]: the cleanup always runs; an exception
    of the cleanup replaces the pending one. *)
Definition try_finally {S A} (body : M S A) (cleanup : M S unit) : M S A :=
  fun s =>
    let '(r, s') := body s in
    match cleanup s' with
    | (Ok _, s'') => (r, s'')
    | (Raise e, s'') => (Raise e, s'')
    end.

Declare Scope prog_scope.
Delimit Scope prog_scope with prog.
Notation "x <- e ;; k" := (bindM e (fun x => k))
  (at level 100, e at next level, k at level 200, right associativity)
  : prog_scope.
Notation "e ;; k" := (bindM e (fun _ => k))
  (at level 100, k at level 200, right associativity) : prog_scope.

(** *** Builtins *)

(** [float(s)] and [str(x)] on strings, and [int(s)]: the decimal parsers
    and printer of the interpreter are taken as given. *)
Class Builtins : Type := {
  float_of_str : string -> option float;
  int_of_str : string -> option Z;
  str_of_float : float -> string;
}.

(** [float(n)] for an [int]: the nearest float, [OverflowError] when there
    is none. *)
Definition float_of_int (z : Z) : result float :=
  match of_Z z with
  | Inf _ => Raise (Exc OverflowError)
  | x => Ok x
  end.

(** [x / y] on floats: a zero divisor raises. *)
Definition float_div (x y : float) : result float :=
  if feq y (Fin 0) then Raise (Exc ZeroDivisionError) else Ok (fdiv x y).

(** [int(x)] for a float. *)
Definition int_of_float (x : float) : result Z :=
  match x with
  | NaN => Raise (Exc ValueError)
  | Inf _ => Raise (Exc OverflowError)
  | Fin k => Ok (trunc k)
  end.

(** *** Strings *)

(** ASCII whitespace, as [str.strip()] removes it. *)
Definition is_space (c : ascii) : bool :=
  let n := nat_of_ascii c in
  ((9 <=? n) && (n <=? 13) || (28 <=? n) && (n <=? 32))%nat.

Fixpoint lstrip (s : string) : string :=
  match s with
  | String c s' => if is_space c then lstrip s' else s
  | EmptyString => EmptyString
  end.

Definition strip (s : string) : string :=
  String.rev (lstrip (String.rev (lstrip s))).

(** [s[n:]] *)
Fixpoint drop (n : nat) (s : string) : string :=
  match n, s with
  | O, _ => s
  | S n', String _ s' => drop n' s'
  | S _, EmptyString => EmptyString
  end.

(** [s[-n:]] *)
Definition suffix (n : nat) (s : string) : string :=
  drop (String.length s - n) s.

(** [s.find(sub)], [None] for Python's [-1]. *)
Definition find (sub s : string) : option nat := index 0 sub s.

(** [sub in s] *)
Definition contains (sub s : string) : bool :=
  match find sub s with Some _ => true | None => false end.

(** *** Values read by [json.load] and the operators applied to them *)
Unset Elimination Schemes.
Inductive json : Type :=
  | JNull
  | JBool (b : bool)
  | JInt (z : Z)
  | JFloat (x : float)
  | JStr (s : string)
  | JList (l : list json)
  | JDict (d : gmap string json).
Set Elimination Schemes.

Definition is_str (key : string) (v : json) : bool :=
  match v with JStr s => String.eqb s key | _ => false end.

(** [key in obj] for a string [key]. *)
Definition py_in (key : string) (obj : json) : result bool :=
  match obj with
  | JDict d => Ok (bool_decide (is_Some (d !! key)))
  | JList l => Ok (existsb (is_str key) l)
  | JStr s => Ok (contains key s)
  | _ => Raise (Exc TypeError)
  end.

(** [obj[key]] for a string [key]. *)
Definition getitem (obj : json) (key : string) : result json :=
  match obj with
  | JDict d =>
      match d !! key with
      | Some v => Ok v
      | None => Raise (Exc KeyError)
      end
  | _ => Raise (Exc TypeError)
  end.

(** [obj.get(key)] *)
Definition dict_get (obj : json) (key : string) : result json :=
  match obj with
  | JDict d => Ok (default JNull (d !! key))
  | _ => Raise (Exc AttributeError)
  end.

Section WithBuiltins.
Context `{Builtins}.

(** [float(v)] *)
Definition py_float (v : json) : result float :=
  match v with
  | JFloat x => Ok x
  | JInt z => float_of_int z
  | JBool b => Ok (of_Z (if b then 1 else 0))
  | JStr s =>
      match float_of_str s with
      | Some x => Ok x
      | None => Raise (Exc ValueError)
      end
  | _ => Raise (Exc TypeError)
  end.

(** [int(v)] *)
Definition py_int (v : json) : result Z :=
  match v with
  | JInt z => Ok z
  | JFloat x => int_of_float x
  | JBool b => Ok (if b then 1 else 0)
  | JStr s =>
      match int_of_str s with
      | Some z => Ok z
      | None => Raise (Exc ValueError)
      end
  | _ => Raise (Exc TypeError)
  end.

End WithBuiltins.

(** [bool(v)] *)
Definition py_bool (v : json) : bool :=
  match v with
  | JNull => false
  | JBool b => b
  | JInt z => negb (z =? 0)
  | JFloat x => negb (feq x (Fin 0))
  | JStr s => negb (String.eqb s "")
  | JList l => match l with [] => false | _ => true end
  | JDict d => negb (bool_decide (d = ∅))
  end.

End Py.

(** ** The state the program acts on *)
Module World.
Import Float Py.

(** Logical level of a GPIO pin. *)
Inductive level : Type := LOW | HIGH.

#[export] Instance level_eq_dec : EqDecision level.
Proof. solve_decision. Defined.

(** A row of the table [logs]. *)
Record log_row : Type := LogRow {
  timestamp : string;
  dht22_air_temp : option float;
  dht22_humidity : option float;
  ds18b20_soil_temp : option float;
  soil_raw : option Z;
  soil_voltage : option float;
  soil_percent : option float;
  lux : option float;
  stable : Z;
}.

(** A row of the table [relay_log]. *)
Record relay_event : Type := RelayEvent {
  ev_timestamp : string;
  relay_name : string;
  action : string;
  source : string;
}.

Record world : Type := MkWorld {
  (** pins set up as outputs, with their level *)
  gpio : gmap Z level;
  (** every [GPIO.output] call so far, oldest first *)
  gpio_writes : list (Z * level);
  (** [soil_calibration.json], as [json.load] reads it *)
  calib_file : file json;
  (** [last_watering.txt] *)
  last_watering_file : file string;
  (** [logger_status.txt] *)
  status_file : file string;
  logs : list log_row;
  relay_log : list relay_event;
}.

Definition with_gpio (g : gmap Z level) (out : list (Z * level)) (w : world)
  : world :=
  MkWorld g out (calib_file w) (last_watering_file w) (status_file w)
          (logs w) (relay_log w).

Definition with_last_watering (f : file string) (w : world) : world :=
  MkWorld (gpio w) (gpio_writes w) (calib_file w) f (status_file w)
          (logs w) (relay_log w).

Definition with_status (f : file string) (w : world) : world :=
  MkWorld (gpio w) (gpio_writes w) (calib_file w) (last_watering_file w) f
          (logs w) (relay_log w).

Definition with_logs (l : list log_row) (w : world) : world :=
  MkWorld (gpio w) (gpio_writes w) (calib_file w) (last_watering_file w)
          (status_file w) l (relay_log w).

Definition with_relay_log (l : list relay_event) (w : world) : world :=
  MkWorld (gpio w) (gpio_writes w) (calib_file w) (last_watering_file w)
          (status_file w) (logs w) l.

(** *** RPi.GPIO *)

(** [GPIO.output(pin, lvl)]: the pin must have been set up as an output. *)
Definition GPIO_output (pin : Z) (lvl : level) : M world unit :=
  fun w =>
    match gpio w !! pin with
    | Some _ =>
        (Ok tt, with_gpio (<[pin := lvl]> (gpio w))
                          (gpio_writes w ++ [(pin, lvl)]) w)
    | None => (Raise (Exc RuntimeError), w)
    end.

(** [GPIO.input(pin)] *)
Definition GPIO_input (pin : Z) : M world level :=
  fun w =>
    match gpio w !! pin with
    | Some lvl => (Ok lvl, w)
    | None => (Raise (Exc RuntimeError), w)
    end.

(** [GPIO.cleanup()]: every channel goes back to an input. *)
Definition GPIO_cleanup : M world unit :=
  modify (fun w => with_gpio ∅ (gpio_writes w) w).

End World.

(** ** config.py *)
Module Config.
Import World.

Definition RELAY1 : Z := 12.
Definition RELAY2 : Z := 16.
Definition DHT_PIN : Z := 27.

(** The attributes of the module whose name is [RELAY] followed by a
    number, as [getattr(config, f"RELAY{n}")] finds them. *)
Definition relay_attributes : gmap string Z :=
  {[ "RELAY1" := RELAY1; "RELAY2" := RELAY2 ]}.

(** [GPIO.setup(RELAYn, GPIO.OUT, initial=GPIO.HIGH)] for both relays. *)
Definition gpio_after_setup : gmap Z level :=
  {[ RELAY1 := HIGH; RELAY2 := HIGH ]}.

End Config.

(** ** relays.py *)
Module Relays.
Import Py World.
Local Open Scope prog_scope.

(** Low-trigger logic: LOW is ON, HIGH is OFF. *)
Definition set_relay_state (relay : Z) (state : bool) : M world unit :=
  GPIO_output relay (if state then LOW else HIGH).

Definition get_relay_state (relay : Z) : M world bool :=
  lvl <- GPIO_input relay ;;
  ret (bool_decide (lvl = LOW)).

Definition init_relays : M world unit :=
  set_relay_state Config.RELAY1 false ;;
  set_relay_state Config.RELAY2 false.

Definition set_all_relays (state : bool) : M world unit :=
  set_relay_state Config.RELAY1 state ;;
  set_relay_state Config.RELAY2 state.

End Relays.

(** ** database.py *)
Module Database.
Import Py World.

(** [insert_relay_event]: [store] is what [ensure_relay_log_table],
    [sqlite3.connect], the [INSERT] and the [commit] do together; when
    they succeed one row is appended to [relay_log], when one of them
    raises no row is. *)
Definition insert_relay_event (store : outcome unit)
    (ts relay_name action : string) (source : string) : M world unit :=
  bindM (lift (call store)) (fun _ =>
  modify (fun w =>
    with_relay_log (relay_log w ++ [RelayEvent ts relay_name action source])
                   w)).

(** The row that [INSERT INTO logs ...] followed by [commit] stores,
    once they have succeeded. *)
Definition insert_log (row : log_row) : M world unit :=
  modify (fun w => with_logs (logs w ++ [row]) w).

End Database.

(** ** sensors.py *)
Module Sensors.
Import Float Py World.
Local Open Scope res_scope.

(** What the ADS1115 behind a bus handle does during one read. *)
Record ads1115 : Type := {
  (** [ADS.ADS1115(i2c)] and [ads.gain = 1] *)
  ads_open : outcome unit;
  (** the first [chan.value], discarded *)
  ads_value_first : outcome Z;
  (** the second [chan.value] *)
  ads_value : outcome Z;
  (** [chan.voltage] *)
  ads_voltage : outcome float;
}.

(** What the hardware does during one acquisition cycle. *)
Record hardware : Type := {
  (** [config.i2c] is a bus, not [None] *)
  shared_i2c : bool;
  (** [import board, busio] and [busio.I2C(board.SCL, board.SDA)] *)
  bus_open : outcome unit;
  adc : ads1115;
  (** [config.device_file] *)
  device_file : option string;
  (** [open(device_file).readlines()] *)
  w1_slave : outcome (list string);
  (** [smbus2.SMBus(1)] *)
  smbus_open : outcome unit;
  (** [bus.write_byte(BH1750_ADDR, BH1750_MODE)] *)
  bh1750_write : outcome unit;
  (** [bus.read_i2c_block_data(BH1750_ADDR, BH1750_MODE, 2)] *)
  bh1750_read : outcome (list Z);
  (** [Adafruit_DHT.read_retry(DHT_SENSOR, DHT_PIN)]: humidity, temperature *)
  dht_read_retry : outcome (option float * option float);
}.

(** [_read_ads_once]: the double sample. *)
Definition _read_ads_once (ads : ads1115) : result (Z * float) :=
  _ <- call (ads_value_first ads) ;;
  raw <- call (ads_value ads) ;;
  voltage <- call (ads_voltage ads) ;;
  Ok (raw, voltage).

Definition read_soil_raw_shared (hw : hardware)
  : result (option Z * option float) :=
  if negb (shared_i2c hw) then Ok (None, None)
  else
    _ <- call (ads_open (adc hw)) ;;
    rv <- _read_ads_once (adc hw) ;;
    Ok (Some (fst rv), Some (snd rv)).

Definition read_soil_raw_fresh (hw : hardware)
  : result (option Z * option float) :=
  try_except
    (_ <- call (bus_open hw) ;;
     _ <- call (ads_open (adc hw)) ;;
     rv <- _read_ads_once (adc hw) ;;
     Ok (Some (fst rv), Some (snd rv)))
    (fun _ => Ok (None, None)).

(** [read_soil_raw]: as the fresh read, used by the calibration routine
    and the dashboard. *)
Definition read_soil_raw (hw : hardware) : result (option Z * option float) :=
  try_except
    (_ <- call (bus_open hw) ;;
     _ <- call (ads_open (adc hw)) ;;
     rv <- _read_ads_once (adc hw) ;;
     Ok (Some (fst rv), Some (snd rv)))
    (fun _ => Ok (None, None)).

(** [lines[i]] *)
Definition line (lines : list string) (i : nat) : result string :=
  match lines !! i with
  | Some l => Ok l
  | None => Raise (Exc IndexError)
  end.

(** [data[i]] *)
Definition byte_at (data : list Z) (i : nat) : result Z :=
  match data !! i with
  | Some b => Ok b
  | None => Raise (Exc IndexError)
  end.

Definition BH1750_ADDR : Z := 35.
Definition BH1750_MODE : Z := 16.

Section WithBuiltins.
Context `{Builtins}.

Definition read_ds18b20_temp (hw : hardware) : result (option float) :=
  match device_file hw with
  | None | Some EmptyString => Ok None
  | Some _ =>
      try_except
        (lines <- call (w1_slave hw) ;;
         l0 <- line lines 0 ;;
         if negb (String.eqb (suffix 3 (strip l0)) "YES") then Ok None
         else
           l1 <- line lines 1 ;;
           match find "t=" l1 with
           | Some equals_pos =>
               let temp_string := drop (equals_pos + 2) l1 in
               match float_of_str temp_string with
               | Some t =>
                   c <- float_div t (of_Z 1000) ;;
                   Ok (Some c)
               | None => Raise (Exc ValueError)
               end
           | None => Ok None
           end)
        (fun _ => Ok None)
  end.

(** The documented defaults. *)
Definition defDryV : float := lit 160 100.
Definition defWetV : float := lit 20 100.

(** The dict [load_calibration] returns has exactly these two keys. *)
Record calibration : Type := Calibration {
  dry_v : float;
  wet_v : float;
}.

Definition default_calibration : calibration := Calibration defDryV defWetV.

Definition load_calibration (calib : file json) : result calibration :=
  if negb (exists_ calib) then Ok default_calibration
  else
    try_except
      (obj <- read_file calib ;;
       has_dry_v <- py_in "dry_v" obj ;;
       has_both <- (if has_dry_v then py_in "wet_v" obj else Ok false) ;;
       if has_both then
         d <- (v <- getitem obj "dry_v" ;; py_float v) ;;
         w <- (v <- getitem obj "wet_v" ;; py_float v) ;;
         Ok (Calibration d w)
       else
         (* the legacy raw-count format only prints a warning *)
         has_dry <- py_in "dry" obj ;;
         _ <- (if has_dry then py_in "wet" obj else Ok false) ;;
         Ok default_calibration)
      (fun _ => Ok default_calibration).

(** The body of [read_soil_percent_from_voltage] once the calibration is
    loaded. *)
Definition percent_of (calib : calibration) (voltage : option float)
  : result float :=
  let dry := dry_v calib in
  let wet := wet_v calib in
  let '(dry, wet) := if flt dry wet then (wet, dry) else (dry, wet) in
  let span := fsub dry wet in
  if fle span (Fin 0) then Ok (Fin 0)
  else
    match voltage with
    | None => Ok (Fin 0)
    | Some voltage =>
        percent <-
          (if fge voltage dry then Ok (Fin 0)
           else if fle voltage wet then Ok (of_Z 100)
           else float_div (fmul (fsub dry voltage) (of_Z 100)) span) ;;
        let percent := py_max (Fin 0) (py_min (of_Z 100) percent) in
        Ok (round percent 3)
    end.

Definition read_soil_percent_from_voltage (calib : file json)
    (voltage : option float) : result float :=
  c <- load_calibration calib ;;
  percent_of c voltage.

Definition read_bh1750_lux (hw : hardware) : result (option float) :=
  try_except
    (_ <- call (smbus_open hw) ;;
     _ <- call (bh1750_write hw) ;;
     data <- call (bh1750_read hw) ;;
     hi <- byte_at data 0 ;;
     lo <- byte_at data 1 ;;
     count <- float_of_int (Z.lor (Z.shiftl hi 8) lo) ;;
     lux <- float_div count (lit 12 10) ;;
     Ok (Some (round lux 2)))
    (fun _ => Ok None).

(** [test_dht]: temperature, humidity. *)
Definition test_dht (hw : hardware) : result (option float * option float) :=
  try_except
    (ht <- call (dht_read_retry hw) ;;
     Ok (snd ht, fst ht))
    (fun _ => Ok (None, None)).

End WithBuiltins.

End Sensors.

(** ** logger.py *)
Module Logger.
Import Float Py World Sensors.
Local Open Scope prog_scope.

Definition WATERING_THRESHOLD : float := lit 400 10.
Definition WATERING_DURATION : Z := 10.
Definition WATERING_COOLDOWN : Z := 3600.

(** The integer constants bound in the module's namespace, by its imports
    ([from relays import ..., RELAY1], [from config import ..., DHT_PIN,
    ...]) and by its own assignments. *)
Definition namespace : gmap string Z :=
  {[ "RELAY1" := Config.RELAY1;
     "DHT_PIN" := Config.DHT_PIN;
     "WATERING_DURATION" := WATERING_DURATION;
     "WATERING_COOLDOWN" := WATERING_COOLDOWN ]}.

(** Reading a global name. *)
Definition global (ns : gmap string Z) (name : string) : M world Z :=
  match ns !! name with
  | Some v => ret v
  | None => throw (Exc (NameError name))
  end.

(** [time.sleep], interrupted or not. *)
Definition sleep (interrupt : option raised) : M world unit :=
  match interrupt with
  | Some r => throw r
  | None => ret tt
  end.

Section WithBuiltins.
Context `{Builtins}.

Definition should_water (last_watering : file string) (now : float)
    (soil_percent : option float) : result bool :=
  match soil_percent with
  | None => Ok false
  | Some soil_percent =>
      if fge soil_percent WATERING_THRESHOLD then Ok false
      else if exists_ last_watering then
        (* [Some b]: the [try] block returned [b]; [None]: it fell
           through to the final [return True] *)
        (returned <-
           try_except
             (text <- read_file last_watering ;;
              match float_of_str (strip text) with
              | Some last_ts =>
                  if flt (fsub now last_ts) (of_Z WATERING_COOLDOWN)
                  then Ok (Some false)
                  else Ok None
              | None => Raise (Exc ValueError)
              end)
             (fun _ => Ok None) ;;
         match returned with
         | Some b => Ok b
         | None => Ok true
         end)%res
      else Ok true
  end.

(** What happens around one watering: whether the hold is interrupted, and
    the clock read at the end. *)
Record watering_input : Type := {
  hold : option raised;
  clock : float;
}.

(** [perform_watering], with the namespace in which its body is run. *)
Definition perform_watering_in (ns : gmap string Z) (i : watering_input)
  : M world unit :=
  pump <- global ns "RELAY2" ;;
  Relays.set_relay_state pump true ;;
  sleep (hold i) ;;
  pump <- global ns "RELAY2" ;;
  Relays.set_relay_state pump false ;;
  modify (with_last_watering (Present (Returns (str_of_float (clock i))))).

Definition perform_watering : watering_input -> M world unit :=
  perform_watering_in namespace.

(** One pass through the body of the [while True] loop in which the row
    is stored. *)
Record tick_input : Type := {
  tick_timestamp : string;
  hw : hardware;
  (** what interrupts [time.sleep(2400)], if anything *)
  nap : option raised;
}.

Definition round_opt (x : option float) : option float :=
  match x with
  | Some v => Some (round v 3)
  | None => None
  end.

Definition run_logger_tick (cold_first : bool) (i : tick_input)
  : M world unit :=
  lux <- lift (read_bh1750_lux (hw i)) ;;
  rv <- lift (if cold_first then read_soil_raw_fresh (hw i)
              else read_soil_raw_shared (hw i)) ;;
  w <- get ;;
  soil_percent <-
    lift (read_soil_percent_from_voltage (calib_file w) (snd rv)) ;;
  ht <- lift (try_except (call (dht_read_retry (hw i)))
                         (fun _ => Ok (None, None))) ;;
  temp_ds18b20 <- lift (read_ds18b20_temp (hw i)) ;;
  Database.insert_log
    (LogRow (tick_timestamp i)
            (round_opt (snd ht))
            (round_opt (fst ht))
            (round_opt temp_ds18b20)
            (fst rv)
            (round_opt (snd rv))
            (round_opt (Some soil_percent))
            lux
            1) ;;
  (* [cleanup_old_images] only removes image files *)
  sleep (nap i).

Fixpoint run_logger_loop (cold_first : bool) (ticks : list tick_input)
  : M world unit :=
  match ticks with
  | [] => ret tt
  | i :: rest => run_logger_tick cold_first i ;; run_logger_loop cold_first rest
  end.

(** [run_logger] observed for the cycles [ticks], once the statements
    before the [try] have succeeded: the loop has no exit but an
    exception, so while none is raised the process is still in the loop
    and nothing has been cleaned up. *)
Definition run_logger (cold_first : bool) (status : string)
    (ticks : list tick_input) : M world unit :=
  modify (with_status (Present (Returns status))) ;;
  Relays.init_relays ;;
  fun w =>
    match run_logger_loop cold_first ticks w with
    | (Ok _, w') => (Ok tt, w')
    | stopped =>
        try_finally
          (try_except_interrupt (fun _ => stopped) (ret tt))
          (GPIO_cleanup ;; modify (with_status Absent)) w
    end.

End WithBuiltins.

End Logger.

(** ** webserver.py: the relay route *)
Module Webserver.
Import Float Py World.
Local Open Scope prog_scope.

Section WithBuiltins.
Context `{Builtins}.

(** [getattr(config, relay_name)] for a name [RELAY<n>]. *)
Definition getattr_config (relay_name : string) : result Z :=
  match Config.relay_attributes !! relay_name with
  | Some pin => Ok pin
  | None => Raise (Exc AttributeError)
  end.

Definition on_off (state : bool) : string := if state then "ON" else "OFF".

(** [api_relay_toggle]: [body] is what [request.get_json(force=True)]
    does, [ts] the time of the call, [store] what the insert into
    [relay_log] does; the result is the [ok] field of the response. *)
Definition api_relay_toggle (ts : string) (body : outcome json)
    (store : outcome unit) : M world bool :=
  try_exceptM
    (data <- lift (call body) ;;
     relay_num <- lift (v <- dict_get data "relay" ;; py_int v)%res ;;
     state <- lift (v <- dict_get data "state" ;; Ok (py_bool v))%res ;;
     let relay_name := "RELAY" +:+ pretty relay_num in
     relay_pin <- lift (getattr_config relay_name) ;;
     Relays.set_relay_state relay_pin state ;;
     Database.insert_relay_event store ts relay_name (on_off state)
                                 "button" ;;
     ret true)
    (fun _ => ret false).


End WithBuiltins.

(** The body of a toggle request. *)
Definition toggle_body (relay : Z) (state : bool) : outcome json :=
  Returns (JDict {[ "relay" := JInt relay; "state" := JBool state ]}).

End Webserver.

(** ** Concrete inputs for the examples *)
Module Examples.
Import Float Py World Sensors.

(** Leading decimal digits of [s]: their value, their number, the rest. *)
Fixpoint digits (s : string) (acc count : Z) : Z * Z * string :=
  match s with
  | String c s' =>
      let n := Z.of_nat (nat_of_ascii c) in
      if (48 <=? n) && (n <=? 57) then digits s' (10 * acc + (n - 48)) (count + 1)
      else (acc, count, s)
  | EmptyString => (acc, count, s)
  end.

(** Plain decimal numerals, [12] or [12.5]. *)
Definition parse_decimal (s : string) : option (Z * Z) :=
  let '(i, ni, rest) := digits s 0 0 in
  match rest with
  | EmptyString => if 0 <? ni then Some (i, 1) else None
  | String "."%char frac =>
      let '(f, nf, rest') := digits frac 0 0 in
      match rest' with
      | EmptyString =>
          if 0 <? ni + nf then Some (i * 10 ^ nf + f, 10 ^ nf) else None
      | _ => None
      end
  | _ => None
  end.

Definition parse_signed (s : string) : option (Z * Z) :=
  match s with
  | String "-"%char s' =>
      match parse_decimal s' with
      | Some (a, b) => Some (- a, b)
      | None => None
      end
  | _ => parse_decimal s
  end.

(** Plain decimal integers, [12] or [-12]. *)
Definition parse_int (s : string) : option Z :=
  let '(negative, body) :=
    match s with
    | String "-"%char s' => (true, s')
    | _ => (false, s)
    end in
  let '(i, ni, rest) := digits body 0 0 in
  match rest with
  | EmptyString =>
      if 0 <? ni then Some (if negative then - i else i) else None
  | _ => None
  end.

(** The builtins on the strings the examples use: decimal numerals
    without exponent are read, and floats with an integral value, the
    only ones the examples print, are printed as Python prints them. *)
#[export] Instance decimal_builtins : Builtins := {|
  float_of_str s :=
    match parse_signed (strip s) with
    | Some (a, b) => Some (lit a b)
    | None => None
    end;
  int_of_str s := parse_int (strip s);
  str_of_float x :=
    match x with
    | NaN => "nan"
    | Inf s => if s then "-inf" else "inf"
    | Fin k => pretty (k / 2 ^ emin) +:+ ".0"
    end;
|}.

(** A calibration file holding the two voltage bounds. *)
Definition calibration_file (dry wet : float) : file json :=
  Present (Returns (JDict {[ "dry_v" := JFloat dry; "wet_v" := JFloat wet ]})).

(** A file in the legacy raw-count format. *)
Definition legacy_file : file json :=
  Present (Returns (JDict {[ "dry" := JInt 21000; "wet" := JInt 9000 ]})).

(** The world right after [config.py] has run: both relay pins are
    outputs at HIGH, no file exists, the store is empty. *)
Definition fresh_world : world :=
  MkWorld Config.gpio_after_setup [] Absent Absent Absent [] [].

(** Hardware on which every sensor answers; the probe reads [voltage]. *)
Definition healthy (voltage : float) : hardware := {|
  shared_i2c := true;
  bus_open := Returns tt;
  adc := {| ads_open := Returns tt;
            ads_value_first := Returns 8800;
            ads_value := Returns 8880;
            ads_voltage := Returns voltage |};
  device_file := Some "/sys/bus/w1/devices/28-01/w1_slave";
  w1_slave := Returns ["72 01 4b 46 7f ff 0e 10 57 : crc=57 YES";
                       "72 01 4b 46 7f ff 0e 10 57 t=23125"];
  smbus_open := Returns tt;
  bh1750_write := Returns tt;
  bh1750_read := Returns [1; 44];
  dht_read_retry := Returns (Some (lit 55 1), Some (lit 215 10));
|}.

(** The same hardware with an ADC that does not answer on the bus. *)
Definition adc_timeout (voltage : float) : hardware := {|
  shared_i2c := true;
  bus_open := Returns tt;
  adc := {| ads_open := Returns tt;
            ads_value_first := Throws OSError;
            ads_value := Returns 8880;
            ads_voltage := Returns voltage |};
  device_file := device_file (healthy voltage);
  w1_slave := w1_slave (healthy voltage);
  smbus_open := Returns tt;
  bh1750_write := Returns tt;
  bh1750_read := Returns [1; 44];
  dht_read_retry := dht_read_retry (healthy voltage);
|}.

(** The world after an operator has switched the pump on through the
    dashboard. *)
Definition pump_on_world : world :=
  snd (Webserver.api_relay_toggle "2025-06-01 07:59:00"
         (Webserver.toggle_body 2 true) (Returns tt) fresh_world).

(** One acquisition cycle on dry soil: 1.11 V is 35 % on the default
    profile. *)
Definition dry_soil_tick : Logger.tick_input := {|
  Logger.tick_timestamp := "2025-06-01_08-00-00";
  Logger.hw := healthy (lit 111 100);
  Logger.nap := None;
|}.



End Examples.

(** ** Notions in which the properties are stated *)
Module Notions.
Import Float Py World Sensors.

(** The order on floats as a proposition. *)
Definition le (x y : float) : Prop := fle x y = true.

(** [max(0.0, min(100.0, p))] as an integer number of units; a [NaN] is
    turned into [100.0] by [min]. *)
Definition clamp_int (p : float) : Z :=
  match p with
  | NaN | Inf false => 100 * 2 ^ emin
  | Inf true => 0
  | Fin k => Z.max 0 (Z.min (100 * 2 ^ emin) k)
  end.

(** The bounds after the swap. *)
Definition normalized (c : calibration) : float * float :=
  if flt (dry_v c) (wet_v c) then (wet_v c, dry_v c) else (dry_v c, wet_v c).

Definition span (c : calibration) : float :=
  fsub (fst (normalized c)) (snd (normalized c)).

(** The percentage before clamping and rounding. *)
Definition raw_percent (c : calibration) (v : float) : float :=
  let '(dry, wet) := normalized c in
  if fge v dry then Fin 0
  else if fle v wet then of_Z 100
  else fdiv (fmul (fsub dry v) (of_Z 100)) (span c).

(** Two intermediate values of the interpolation at [v2] and [v1],
    [v1 <= v2]: both are [NaN], or the one at [v2] is non-negative and
    below the one at [v1]. *)
Definition ordered (a2 a1 : float) : Prop :=
  (a2 = NaN /\ a1 = NaN) \/ (le (Fin 0) a2 /\ le a2 a1).

(** The object read from the file carries both voltage bounds. *)
Definition has_voltage_fields (obj : json) : Prop :=
  exists d, obj = JDict d /\ is_Some (d !! "dry_v") /\ is_Some (d !! "wet_v").

(** A reader that turns every failure into an absent value. *)
Definition never_raises {A} (r : result A) : Prop := exists a, r = Ok a.

Section WithBuiltins.
Context `{Builtins}.

(** The record holds a time stamp less than the cooldown before [now]. *)
Definition in_cooldown (last_watering : file string) (now : float) : Prop :=
  exists text last_ts,
    last_watering = Present (Returns text) /\
    float_of_str (strip text) = Some last_ts /\
    flt (fsub now last_ts) (of_Z 3600) = true.

(** The record exists but gives no number. *)
Definition corrupt (last_watering : file string) : Prop :=
  (exists e, last_watering = Present (Throws e)) \/
  (exists text, last_watering = Present (Returns text) /\
                float_of_str (strip text) = None).


End WithBuiltins.



(** What a piece of the program leaves alone: the pins, the writes to
    them and the watering record. *)
Definition untouched (w w' : world) : Prop :=
  gpio w' = gpio w /\ gpio_writes w' = gpio_writes w /\
  last_watering_file w' = last_watering_file w.

(** Both relay pins are set up as outputs. *)
Definition relays_set_up (w : world) : Prop :=
  is_Some (gpio w !! Config.RELAY1) /\ is_Some (gpio w !! Config.RELAY2).



End Notions.

(** * The rest of the program *)

(** ** relays.py: the test sequence and the read-back of both relays *)
Module RelayOps.
Import Py World.
Local Open Scope prog_scope.

(** [test_relays]: the two pauses can be interrupted; the result is the
    pair of states that the last [print] shows. *)
Definition test_relays (pause1 pause2 : option raised) : M world (bool * bool) :=
  Relays.set_relay_state Config.RELAY1 true ;;
  Relays.set_relay_state Config.RELAY2 false ;;
  Logger.sleep pause1 ;;
  Relays.set_relay_state Config.RELAY1 false ;;
  Relays.set_relay_state Config.RELAY2 true ;;
  Logger.sleep pause2 ;;
  Relays.set_relay_state Config.RELAY1 false ;;
  Relays.set_relay_state Config.RELAY2 false ;;
  r1 <- Relays.get_relay_state Config.RELAY1 ;;
  r2 <- Relays.get_relay_state Config.RELAY2 ;;
  ret (r1, r2).

Definition get_all_relays : M world (gmap string bool) :=
  r1 <- Relays.get_relay_state Config.RELAY1 ;;
  r2 <- Relays.get_relay_state Config.RELAY2 ;;
  ret {[ "relay1" := r1; "relay2" := r2 ]}.

End RelayOps.

(** ** sensors.py: the percent wrapper and the calibration capture *)
Module Calibrate.
Import Float Py World Sensors.

Definition with_calib_file (f : file json) (w : world) : world :=
  MkWorld (gpio w) (gpio_writes w) f (last_watering_file w) (status_file w)
          (logs w) (relay_log w).

(** [json.dump(calib, f)]: the object a later [json.load] reads back. *)
Definition dump (c : calibration) : json :=
  JDict {[ "dry_v" := JFloat (dry_v c); "wet_v" := JFloat (wet_v c) ]}.

Section WithBuiltins.
Context `{Builtins}.

(** [read_soil_percent(voltage=...)]: without a voltage the sensor is
    read first. *)
Definition read_soil_percent (hw : hardware) (calib : file json)
    (voltage : option float) : result float :=
  (voltage <-
     match voltage with
     | None => (rv <- read_soil_raw hw ;; Ok (snd rv))
     | Some _ => Ok voltage
     end ;;
   read_soil_percent_from_voltage calib voltage)%res.

Local Open Scope prog_scope.

(** [calibrate_ads(dry, wet)]; writing the file is taken to succeed. *)
Definition calibrate_ads (hw : hardware) (dry wet : bool) : M world unit :=
  rv <- lift (read_soil_raw hw) ;;
  match snd rv with
  | None => ret tt
  | Some voltage =>
      w <- get ;;
      calib <- lift (load_calibration (calib_file w)) ;;
      let calib := if dry then Calibration voltage (wet_v calib) else calib in
      let calib := if wet then Calibration (dry_v calib) voltage else calib in
      modify (with_calib_file (Present (Returns (dump calib))))
  end.

End WithBuiltins.

End Calibrate.

(** ** sensors.py: the calibration capture with the write as an outcome *)
Module SensorsIO.
Import Float Py World Sensors Calibrate.
Local Open Scope prog_scope.

Section WithBuiltins.
Context `{Builtins}.

(** [calibrate_ads(dry, wet)]: [write] is what [open(CALIB_FILE, "w")]
    and [json.dump] do; when they raise, [left] is what is left of the
    file (the file as it was, if it could not be opened) and the
    exception leaves the function, which has no handler for it. *)
Definition calibrate_ads (write : outcome unit) (left : file json)
    (hw : hardware) (dry wet : bool) : M world unit :=
  rv <- lift (read_soil_raw hw) ;;
  match snd rv with
  | None => ret tt
  | Some voltage =>
      w <- get ;;
      calib <- lift (load_calibration (calib_file w)) ;;
      let calib := if dry then Calibration voltage (wet_v calib) else calib in
      let calib := if wet then Calibration (dry_v calib) voltage else calib in
      match write with
      | Returns _ => modify (with_calib_file (Present (Returns (dump calib))))
      | Throws e => modify (with_calib_file left) ;; throw (Exc e)
      end
  end.

End WithBuiltins.

End SensorsIO.

(** ** logger.py: the loop with the database and the start-up as
    outcomes *)
Module LoggerIO.
Import Float Py World Sensors Logger.
Local Open Scope prog_scope.

(** One pass through the body of the loop: what [Logger.tick_input]
    holds, and what the [INSERT] with its [commit] does. *)
Record cycle : Type := {
  inputs : tick_input;
  insert : outcome unit;
}.

(** What the statements before the [try] do. *)
Record startup : Type := {
  (** opening, writing and syncing [STATUS_FILE] *)
  status_written : outcome unit;
  (** what is left of the file when that raises *)
  status_left : file string;
  (** [conn = init_db()] and [conn.cursor()] *)
  db_opened : outcome unit;
  (** [os.makedirs(LOGS_DIR, exist_ok=True)] *)
  dirs_made : outcome unit;
}.

Section WithBuiltins.
Context `{Builtins}.

(** The body of the loop; an exception of the [INSERT] or the [commit]
    leaves it with no row stored. *)
Definition run_logger_tick (cold_first : bool) (c : cycle) : M world unit :=
  let i := inputs c in
  lux <- lift (read_bh1750_lux (hw i)) ;;
  rv <- lift (if cold_first then read_soil_raw_fresh (hw i)
              else read_soil_raw_shared (hw i)) ;;
  w <- get ;;
  soil_percent <-
    lift (read_soil_percent_from_voltage (calib_file w) (snd rv)) ;;
  ht <- lift (try_except (call (dht_read_retry (hw i)))
                         (fun _ => Ok (None, None))) ;;
  temp_ds18b20 <- lift (read_ds18b20_temp (hw i)) ;;
  lift (call (insert c)) ;;
  Database.insert_log
    (LogRow (tick_timestamp i)
            (round_opt (snd ht))
            (round_opt (fst ht))
            (round_opt temp_ds18b20)
            (fst rv)
            (round_opt (snd rv))
            (round_opt (Some soil_percent))
            lux
            1) ;;
  sleep (nap i).

Fixpoint run_logger_loop (cold_first : bool) (cycles : list cycle)
  : M world unit :=
  match cycles with
  | [] => ret tt
  | c :: rest => run_logger_tick cold_first c ;; run_logger_loop cold_first rest
  end.

(** [run_logger] from its first statement, observed for [cycles]: the
    status file, the relays, the database and the image folder come
    before the [try], so an exception there leaves the function without
    the cleanup of the [finally]. *)
Definition run_logger (start : startup) (cold_first : bool) (status : string)
    (cycles : list cycle) : M world unit :=
  match status_written start with
  | Returns _ => modify (with_status (Present (Returns status)))
  | Throws e => modify (with_status (status_left start)) ;; throw (Exc e)
  end ;;
  Relays.init_relays ;;
  lift (call (db_opened start)) ;;
  lift (call (dirs_made start)) ;;
  fun w =>
    match run_logger_loop cold_first cycles w with
    | (Ok _, w') => (Ok tt, w')
    | stopped =>
        try_finally
          (try_except_interrupt (fun _ => stopped) (ret tt))
          (GPIO_cleanup ;; modify (with_status Absent)) w
    end.

End WithBuiltins.

End LoggerIO.

(** ** logger.py: pruning of old images *)
Module Housekeeping.
Import Float Py.

(** A file of the folder as the pruning sees it. *)
Record entry : Type := {
  (** [os.path.getmtime], [None] when it raises [OSError] *)
  mtime : option float;
  (** [os.remove] succeeds *)
  removable : bool;
}.

(** [s.startswith(p)] *)
Fixpoint starts_with (p s : string) : bool :=
  match p, s with
  | EmptyString, _ => true
  | String a p', String b s' => if Ascii.eqb a b then starts_with p' s' else false
  | String _ _, EmptyString => false
  end.

(** The names [glob] returns for the pattern [*.jpg]: they end in [.jpg]
    and, as the pattern does not start with a dot, are not hidden. *)
Definition matches_jpg (name : string) : bool :=
  String.eqb (suffix 4 name) ".jpg" && negb (starts_with "." name).

(** The loop over the matching files, in the order of [glob]; what is
    left of the folder. *)
Fixpoint prune (cutoff : float) (folder : list (string * entry))
  : list (string * entry) :=
  match folder with
  | [] => []
  | (name, f) :: rest =>
      let gone :=
        matches_jpg name &&
        match mtime f with
        | Some t => flt t cutoff && removable f
        | None => false
        end in
      if gone then prune cutoff rest else (name, f) :: prune cutoff rest
  end.

(** [cleanup_old_images(folder, months)] at time [now]. *)
Definition cleanup_old_images (now : float) (months : Z)
    (folder : list (string * entry)) : result (list (string * entry)) :=
  bind (float_of_int (months * 30 * 24 * 3600)) (fun age =>
  Ok (prune (fsub now age) folder)).

End Housekeeping.

(** ** webserver.py: the sensor route *)
Module SensorRoute.
Import Float Py World Sensors.

(** The payload of a successful answer, by sensor. *)
Inductive reading : Type :=
  | Ads (raw : option Z) (voltage : option float) (percent : float)
  | Dht (temperature humidity : option float)
  | Ds18b20 (temperature : option float)
  | Bh1750 (lux : option float).

(** The body of the answer: a reading, the text [unknown sensor type],
    or the text of an exception. *)
Inductive body : Type :=
  | Reading (r : reading)
  | UnknownType
  | Failed (e : exception).

Section WithBuiltins.
Context `{Builtins}.

(** [api_sensor_read]: [type] is the query argument, [hw] what the
    hardware does when the route reads it, [hw_again] what it does when
    [read_soil_percent], given no voltage, reads the probe once more.
    The result is the status code and the body. *)
Definition api_sensor_read (type : option string) (hw hw_again : hardware)
    (calib : file json) : result (Z * body) :=
  let t := default "ads" type in
  try_except
    (if String.eqb t "ads" then
       rv <- read_soil_raw hw ;;
       pct <- Calibrate.read_soil_percent hw_again calib (snd rv) ;;
       Ok (200, Reading (Ads (fst rv) (snd rv) pct))
     else if String.eqb t "dht" then
       th <- test_dht hw ;;
       Ok (200, Reading (Dht (fst th) (snd th)))
     else if String.eqb t "ds18b20" then
       temp <- read_ds18b20_temp hw ;;
       Ok (200, Reading (Ds18b20 temp))
     else if String.eqb t "bh1750" then
       lux <- read_bh1750_lux hw ;;
       Ok (200, Reading (Bh1750 lux))
     else Ok (400, UnknownType))%res
    (fun e => Ok (500, Failed e)).

End WithBuiltins.

End SensorRoute.

(** ** database.py and webserver.py: deleting rows by id *)
Module Ids.
Import Py World.

(** [s.split(sep)] for a separator of one character. *)
Fixpoint split_on (sep : ascii) (s : string) : list string :=
  match s with
  | EmptyString => [EmptyString]
  | String c rest =>
      if Ascii.eqb c sep then EmptyString :: split_on sep rest
      else
        match split_on sep rest with
        | p :: ps => String c p :: ps
        | [] => [String c EmptyString]
        end
  end.

(** [s.lower()] on ASCII letters. *)
Definition lower_char (c : ascii) : ascii :=
  let n := nat_of_ascii c in
  if ((65 <=? n) && (n <=? 90))%nat then ascii_of_nat (n + 32) else c.

Fixpoint lower (s : string) : string :=
  match s with
  | EmptyString => EmptyString
  | String c rest => String (lower_char c) (lower rest)
  end.

(** [list(range(a, b + 1))] *)
Definition range_incl (a b : Z) : list Z := seqZ a (b + 1 - a).

(** The table [logs] with the ids of its rows, and the row that
    [sqlite_sequence] keeps for it. *)
Record store : Type := {
  table : list (Z * log_row);
  sequence : option Z;
}.

(** What the database does: [sqlite3.connect], the [DELETE] of all rows
    with its [commit], and the [DELETE ... WHERE id IN (...)] with its
    [commit], whose outcome depends on the ids it is given (an id that
    does not fit 64 bits, or more ids than the statement takes
    parameters, make it raise). *)
Record database : Type := {
  connects : outcome unit;
  deletes_all : outcome unit;
  deletes : list Z -> outcome unit;
}.

(** The string holds ASCII characters only; on such strings [strip] and
    [lower] are those of Python. *)
Definition is_ascii (s : string) : bool :=
  forallb (fun c => (nat_of_ascii c <? 128)%nat) (list_ascii_of_string s).

(** The rows left by [DELETE FROM logs WHERE id IN (...)]. *)
Definition delete_ids (ids : list Z) (st : store) : store :=
  {| table := filter (fun r => r.1 ∉ ids) (table st);
     sequence := sequence st |}.

(** [try: body / except ValueError: handler] *)
Definition try_except_value {S A} (body : M S A) (handler : M S A) : M S A :=
  fun s =>
    match body s with
    | (Raise (Exc ValueError), s') => handler s'
    | other => other
    end.

(** What the route answers: the count of a deletion, the text that no id
    was given, or the text of an exception. *)
Inductive deleted : Type := All | Count (n : nat).

Inductive reply : Type :=
  | Deleted (d : deleted)
  | NoIds
  | Failed (e : exception).

Section WithBuiltins.
Context `{Builtins}.

(** [int(s)] *)
Definition int_ (s : string) : result Z :=
  match int_of_str s with
  | Some z => Ok z
  | None => Raise (Exc ValueError)
  end.

(** The body of the loop of the route: with a dash,
    [start, end = part.split('-')] and the range between the two
    numbers. *)
Definition web_part (part : string) : result (list Z) :=
  let part := strip part in
  if contains "-" part then
    match split_on "-" part with
    | [start; end_] =>
        (a <- int_ start ;; b <- int_ end_ ;; Ok (range_incl a b))%res
    | _ => Raise (Exc ValueError)
    end
  else (n <- int_ part ;; Ok [n])%res.

(** [start, end = map(int, pieces)]: the pieces are converted one by one
    as the unpacking asks for them, a third one included. *)
Definition unpack_two (pieces : list string) : result (Z * Z) :=
  match pieces with
  | [] => Raise (Exc ValueError)
  | p0 :: rest =>
      (a <- int_ p0 ;;
       match rest with
       | [] => Raise (Exc ValueError)
       | p1 :: rest' =>
           b <- int_ p1 ;;
           match rest' with
           | [] => Ok (a, b)
           | p2 :: _ => _ <- int_ p2 ;; Raise (Exc ValueError)
           end
       end)%res
  end.

(** The body of the loop of [delete_sql_data]. *)
Definition cli_part (part : string) : result (list Z) :=
  let part := strip part in
  if contains "-" part then
    (ab <- unpack_two (split_on "-" part) ;; Ok (range_incl (fst ab) (snd ab)))%res
  else (n <- int_ part ;; Ok [n])%res.

(** [for part in parts: ...], the ids appended to [id_list]. *)
Fixpoint collect (body : string -> result (list Z)) (parts : list string)
    (id_list : list Z) : result (list Z) :=
  match parts with
  | [] => Ok id_list
  | part :: rest =>
      (ids <- body part ;; collect body rest (id_list ++ ids))%res
  end.

(** [isinstance(ids, str) and ids.strip().lower() == "all"] *)
Definition is_all (ids : json) : bool :=
  match ids with
  | JStr s => String.eqb (lower (strip s)) "all"
  | _ => false
  end.

Local Open Scope prog_scope.

(** [api_logs_delete]: [data] is the body of the request.  The result
    is the status code and the body of the answer. *)
Definition api_logs_delete (data : json) (db : database)
  : M store (Z * reply) :=
  ids <- lift (match data with
               | JDict d => Ok (default (JStr "") (d !! "ids"))
               | _ => Raise (Exc AttributeError)
               end) ;;
  try_exceptM
    (lift (call (connects db)) ;;
     if is_all ids then
       lift (call (deletes_all db)) ;;
       modify (fun st => {| table := []; sequence := sequence st |}) ;;
       ret (200, Deleted All)
     else
       parts <- lift (match ids with
                      | JStr s => Ok (split_on "," s)
                      | _ => Raise (Exc AttributeError)
                      end) ;;
       id_list <- lift (collect web_part parts []) ;;
       match id_list with
       | [] => ret (400, NoIds)
       | _ =>
           lift (call (deletes db id_list)) ;;
           modify (delete_ids id_list) ;;
           ret (200, Deleted (Count (length id_list)))
       end)
    (fun e => ret (500, Failed e)).

(** [delete_sql_data(ids, delete_all)]: [confirm] is what the user types
    at the prompt. *)
Definition delete_sql_data (ids : option string) (delete_all : bool)
    (confirm : string) (db : database) : M store unit :=
  lift (call (connects db)) ;;
  if delete_all then
    if String.eqb (lower confirm) "yes" then
      lift (call (deletes_all db)) ;;
      modify (fun _ => {| table := []; sequence := None |})
    else ret tt
  else
    match ids with
    | None | Some EmptyString => ret tt
    | Some s =>
        try_except_value
          (id_list <- lift (collect cli_part (split_on "," s) []) ;;
           let id_list := merge_sort Z.le (remove_dups id_list) in
           lift (call (deletes db id_list)) ;;
           modify (delete_ids id_list))
          (ret tt)
    end.

End WithBuiltins.

End Ids.

(** ** webserver.py: starting and stopping the logger, the status text *)
Module Supervisor.
Import Py World.
Local Open Scope prog_scope.

Inductive signal : Type := SIGTERM | SIGKILL.

(** The server: the global [logger_process] (the pid of its [Popen]
    object), what the server has launched and signalled so far, and the
    files. *)
Record server : Type := {
  logger_process : option Z;
  (** every [subprocess.Popen] so far: the mode and the pid *)
  launched : list (string * Z);
  (** every [terminate] and [kill] so far *)
  sent : list (Z * signal);
  disk : world;
}.

Definition with_process (p : option Z) (s : server) : server :=
  {| logger_process := p; launched := launched s; sent := sent s;
     disk := disk s |}.

Definition with_launched (l : list (string * Z)) (s : server) : server :=
  {| logger_process := logger_process s; launched := l; sent := sent s;
     disk := disk s |}.

Definition with_sent (l : list (Z * signal)) (s : server) : server :=
  {| logger_process := logger_process s; launched := launched s; sent := l;
     disk := disk s |}.

Definition with_disk (w : world) (s : server) : server :=
  {| logger_process := logger_process s; launched := launched s;
     sent := sent s; disk := w |}.

(** The texts of the second component of the results. *)
Inductive message : Type :=
  | already_running
  | not_found
  | started (pid : Z)
  | failed_to_start
  | not_running
  | stopped (pid : Z)
  | error (e : exception).

(** [is_logger_running]: [poll] is what [logger_process.poll()] answers,
    [None] for a process that is alive. *)
Definition is_logger_running (poll : option Z) : M server bool :=
  s <- get ;;
  match logger_process s with
  | None => ret false
  | Some _ =>
      match poll with
      | None => ret true
      | Some _ => modify (with_process None) ;; ret false
      end
  end.

(** What the system does during [start_logger]. *)
Record launch : Type := {
  (** [poll()] of the process recorded before *)
  old_poll : option Z;
  (** [os.path.isfile(logger_py)] *)
  logger_py : bool;
  (** [open(logger_logfile, "a")] *)
  open_logfile : outcome unit;
  (** [subprocess.Popen(...)]: the pid of the new process *)
  popen : outcome Z;
  (** [proc.poll()] after the pause of 0.2 s *)
  new_poll : option Z;
}.

Definition start_logger (mode : string) (env : launch)
  : M server (bool * message) :=
  running <- is_logger_running (old_poll env) ;;
  if running then ret (false, already_running)
  else if negb (logger_py env) then ret (false, not_found)
  else
    lift (call (open_logfile env)) ;;
    pid <- lift (call (popen env)) ;;
    modify (fun s => with_process (Some pid)
                       (with_launched (launched s ++ [(mode, pid)]) s)) ;;
    match new_poll env with
    | None => ret (true, started pid)
    | Some _ => ret (false, failed_to_start)
    end.

(** What the system does during [stop_logger]. *)
Record shutdown : Type := {
  (** [poll()] of the process recorded before *)
  first_poll : option Z;
  (** [logger_process.terminate()] *)
  terminate : outcome unit;
  (** the number of calls of [poll()] after [terminate()] that still find
      the process alive; [None] when the signal does not end it *)
  exits_after : option nat;
  exit_code : Z;
  (** [logger_process.kill()] *)
  kill : outcome unit;
  (** opening and writing [STATUS_FILE] *)
  write_status : outcome unit;
}.

(** [logger_process.poll()], call number [k] after [terminate()]; once
    the process has exited the answer stays. *)
Definition poll_at (env : shutdown) (k : nat) : option Z :=
  match exits_after env with
  | Some n => if (n <=? k)%nat then Some (exit_code env) else None
  | None => None
  end.

(** [for _ in range(rounds): if poll() is not None: break; sleep(0.2)]:
    [k] calls of [poll()] were made before; the result is the number
    made after the loop. *)
Fixpoint wait_exit (poll : nat -> option Z) (rounds k : nat) : nat :=
  match rounds with
  | O => k
  | S rounds' =>
      match poll k with
      | Some _ => S k
      | None => wait_exit poll rounds' (S k)
      end
  end.

(** [with open(STATUS_FILE, "w") as f: f.write(text)]; a failure leaves
    the file as it was. *)
Definition write_status_file (text : string) (o : outcome unit)
  : M server unit :=
  lift (call o) ;;
  modify (fun s => with_disk (with_status (Present (Returns text)) (disk s)) s).

(** [terminate()] and [kill()] *)
Definition send (pid : Z) (sig : signal) (o : outcome unit) : M server unit :=
  lift (call o) ;;
  modify (fun s => with_sent (sent s ++ [(pid, sig)]) s).

(** The text [STOPPED] and a line feed. *)
Definition stopped_line : string := "STOPPED" +:+ String "010"%char "".

Definition stop_logger (env : shutdown) : M server (bool * message) :=
  running <- is_logger_running (first_poll env) ;;
  if negb running then
    try_exceptM (write_status_file stopped_line (write_status env))
                (fun _ => ret tt) ;;
    ret (false, not_running)
  else
    try_exceptM
      (s <- get ;;
       match logger_process s with
       | None => throw (Exc AttributeError)
       | Some pid =>
           send pid SIGTERM (terminate env) ;;
           let k := wait_exit (poll_at env) 10 0 in
           match poll_at env k with
           | None => send pid SIGKILL (kill env)
           | Some _ => ret tt
           end ;;
           modify (with_process None) ;;
           write_status_file "-.-" (write_status env) ;;
           ret (true, stopped pid)
       end)
      (fun e => ret (false, error e)).

(** [api_run_stop]: the fields [ok], [msg] and [running] of the answer;
    [later_poll] is what [poll()] answers in the last call. *)
Definition api_run_stop (env : shutdown) (later_poll : option Z)
  : M server (bool * message * bool) :=
  r <- stop_logger env ;;
  running <- is_logger_running later_poll ;;
  ret (fst r, snd r, running).

(** [api_run_start_first] *)
Definition api_run_start_first (env : launch) (later_poll : option Z)
  : M server (bool * message * bool) :=
  r <- start_logger "run_first" env ;;
  running <- is_logger_running later_poll ;;
  ret (fst r, snd r, running).

(** [api_status]: the field [status] of the answer. *)
Definition api_status (w : world) : result string :=
  if exists_ (status_file w) then
    (content <- read_file (status_file w) ;; Ok (strip content))%res
  else Ok "Logger nije pokrenut".

End Supervisor.

(** ** database.py: the table [logs] and its two later columns *)
Module Schema.
Import Py.

(** The database as [init_db] sees it: the names of the columns of the
    table [logs], in their order, when the table exists. *)
Definition db : Type := option (list string).

(** What a statement does: it is carried out, or [execute] raises
    [sqlite3.OperationalError]. *)
Inductive sql (A : Type) : Type :=
  | Done (a : A)
  | OperationalError.
Arguments Done {A} a.
Arguments OperationalError {A}.

(** The columns of [CREATE TABLE IF NOT EXISTS logs (...)]. *)
Definition logs_columns : list string :=
  ["id"; "timestamp"; "dht22_air_temp"; "dht22_humidity";
   "ds18b20_soil_temp"; "soil_raw"; "soil_voltage"; "soil_percent";
   "lux"; "stable"].

Definition create_table_if_not_exists (d : db) : db :=
  match d with
  | None => Some logs_columns
  | Some _ => d
  end.

(** [PRAGMA table_info(logs)], the names. *)
Definition table_info (d : db) : list string := default [] d.

(** Column names are compared without regard to case. *)
Definition same_column (a b : string) : bool :=
  String.eqb (Ids.lower a) (Ids.lower b).

(** [ALTER TABLE logs ADD COLUMN name ...]: the table must exist and
    have no column of that name. *)
Definition add_column (name : string) (d : db) : sql db :=
  match d with
  | None => OperationalError
  | Some cols =>
      if existsb (same_column name) cols then OperationalError
      else Done (Some (cols ++ [name]))
  end.

(** [name in cols] *)
Definition in_list (name : string) (cols : list string) : bool :=
  existsb (String.eqb name) cols.

Definition init_db (d : db) : sql db :=
  let d := create_table_if_not_exists d in
  let cols := table_info d in
  match (if negb (in_list "lux" cols) then add_column "lux" d else Done d) with
  | OperationalError => OperationalError
  | Done d =>
      if negb (in_list "stable" cols) then add_column "stable" d else Done d
  end.

End Schema.

(** ** Notions for the properties of the rest of the program *)
Module MoreNotions.
Import Float Py World Sensors Notions.

(** The level that switches a relay to [state]. *)
Definition level_of (state : bool) : level := if state then LOW else HIGH.

(** The world after relay 1 was set to [s1] and then relay 2 to [s2]. *)
Definition relays_after (s1 s2 : bool) (w : world) : world :=
  with_gpio (<[Config.RELAY2 := level_of s2]>
               (<[Config.RELAY1 := level_of s1]> (gpio w)))
            ((gpio_writes w ++ [(Config.RELAY1, level_of s1)]) ++
             [(Config.RELAY2, level_of s2)]) w.

(** The profile after a capture of [v] with the flags [dry] and [wet]. *)
Definition captured (dry wet : bool) (v : float) (c : calibration)
  : calibration :=
  Calibration (if dry then v else dry_v c) (if wet then v else wet_v c).

(** The number of units of a finite float. *)
Definition units (x : float) : Z :=
  match x with
  | Fin k => k
  | _ => 0
  end.

(** An image that the pruning removes: a visible [.jpg] whose time stamp
    can be read and lies before the cutoff, and whose removal succeeds. *)
Definition pruned (cutoff : float) (name : string) (f : Housekeeping.entry)
  : Prop :=
  Housekeeping.matches_jpg name = true /\
  exists t, Housekeeping.mtime f = Some t /\ flt t cutoff = true /\
            Housekeeping.removable f = true.

(** [w'] is [w] with [n] more rows in [logs] and nothing else changed. *)
Definition grown (n : nat) (w w' : world) : Prop :=
  exists rows, length rows = n /\ w' = with_logs (logs w ++ rows) w.

Section WithBuiltins.
Context `{Builtins}.

(** The id [n] is named by [part]: the part is the number, or a range
    of two numbers that contains it. *)
Definition names (part : string) (n : Z) : Prop :=
  let p := strip part in
  if contains "-" p then
    exists a b x y,
      Ids.split_on "-" p = [a; b] /\
      int_of_str a = Some x /\ int_of_str b = Some y /\ x <= n <= y
  else int_of_str p = Some n.

(** The id [n] is named by one of the parts of [s] between commas. *)
Definition named (s : string) (n : Z) : Prop :=
  exists part, part ∈ Ids.split_on "," s /\ names part n.

(** A part that is neither a number nor a range of two numbers. *)
Definition malformed (part : string) : Prop :=
  ~ never_raises (Ids.web_part part).

End WithBuiltins.

End MoreNotions.

(** ** More notions: the schema *)
Module SchemaNotions.
Import Schema.

(** The table has no column that differs from [name] in case only,
    unless it has [name] itself. *)
Definition no_case_variant (name : string) (cols : list string) : Prop :=
  name ∈ cols \/ forall c, c ∈ cols -> same_column name c = false.

End SchemaNotions.

(** ** More concrete inputs *)
Module MoreExamples.
Import Float Py World Sensors Examples.

(** A row with nothing measured. *)
Definition empty_row (ts : string) : log_row :=
  LogRow ts None None None None None None None 1.

(** A table of seven rows with the ids 1 to 7. *)
Definition seven_rows : Ids.store :=
  {| Ids.table := (fun i => (i, empty_row ("2025-06-01_08-0" +:+ pretty i +:+ "-00")))
                    <$> seqZ 1 7;
     Ids.sequence := Some 7 |}.

(** A database that is there and takes the ids that fit 64 bits. *)
Definition sqlite : Ids.database := {|
  Ids.connects := Returns tt;
  Ids.deletes_all := Returns tt;
  Ids.deletes ids :=
    if forallb (fun n => (- 2 ^ 63 <=? n) && (n <? 2 ^ 63)) ids
    then Returns tt else Throws OverflowError
|}.

(** A cycle in which the ADC does not answer. *)
Definition adc_timeout_tick : Logger.tick_input := {|
  Logger.tick_timestamp := "2025-06-01_08-40-00";
  Logger.hw := adc_timeout (lit 111 100);
  Logger.nap := None
|}.

(** A cycle on dry soil whose row is stored. *)
Definition stored_cycle : LoggerIO.cycle := {|
  LoggerIO.inputs := dry_soil_tick;
  LoggerIO.insert := Returns tt
|}.

(** A start-up in which everything succeeds. *)
Definition good_start : LoggerIO.startup := {|
  LoggerIO.status_written := Returns tt;
  LoggerIO.status_left := Absent;
  LoggerIO.db_opened := Returns tt;
  LoggerIO.dirs_made := Returns tt
|}.

(** A start-up in which the database cannot be opened. *)
Definition no_database : LoggerIO.startup := {|
  LoggerIO.status_written := Returns tt;
  LoggerIO.status_left := Absent;
  LoggerIO.db_opened := Throws OSError;
  LoggerIO.dirs_made := Returns tt
|}.

(** A cycle whose sleep is interrupted from the keyboard. *)
Definition interrupted_tick : Logger.tick_input := {|
  Logger.tick_timestamp := "2025-06-01_08-40-00";
  Logger.hw := healthy (lit 111 100);
  Logger.nap := Some KeyboardInterrupt
|}.

(** The server before any logger was started. *)
Definition idle_server : Supervisor.server := {|
  Supervisor.logger_process := None;
  Supervisor.launched := [];
  Supervisor.sent := [];
  Supervisor.disk := fresh_world
|}.

(** The server with the logger of pid 4711 started in cold mode. *)
Definition live_server : Supervisor.server := {|
  Supervisor.logger_process := Some 4711;
  Supervisor.launched := [("run_first", 4711)];
  Supervisor.sent := [];
  Supervisor.disk := fresh_world
|}.

(** A launch that succeeds. *)
Definition first_launch : Supervisor.launch := {|
  Supervisor.old_poll := None;
  Supervisor.logger_py := true;
  Supervisor.open_logfile := Returns tt;
  Supervisor.popen := Returns 4711;
  Supervisor.new_poll := None
|}.

(** A logger that does not exit on SIGTERM. *)
Definition stubborn_logger : Supervisor.shutdown := {|
  Supervisor.first_poll := None;
  Supervisor.terminate := Returns tt;
  Supervisor.exits_after := None;
  Supervisor.exit_code := -9;
  Supervisor.kill := Returns tt;
  Supervisor.write_status := Returns tt
|}.

(** The table as a version of the program before the light sensor made
    it. *)
Definition old_table : Schema.db :=
  Some ["id"; "timestamp"; "dht22_air_temp"; "dht22_humidity";
        "ds18b20_soil_temp"; "soil_raw"; "soil_voltage"; "soil_percent"].

End MoreExamples.

(** * Properties *)

(** ** Rounding is monotone *)
Module FloatFacts.
Import Float Notions.

Lemma rne_bounds a b : 0 < b -> a / b <= rne a b <= a / b + 1.
Proof.
  intros Hb. unfold rne.
  destruct (2 * (a mod b) <? b); [lia|].
  destruct (b <? 2 * (a mod b)); [lia|].
  destruct (Z.even (a / b)); lia.
Qed.

Lemma rne_nonneg a b : 0 < b -> 0 <= a -> 0 <= rne a b.
Proof.
  intros Hb Ha. pose proof (rne_bounds a b Hb).
  pose proof (Z.div_pos a b Ha Hb). lia.
Qed.

Lemma rne_exact n b : 0 < b -> rne (n * b) b = n.
Proof.
  intros Hb. unfold rne.
  rewrite Z.div_mul, Z.mod_mul by lia.
  replace (2 * 0 <? b) with true by (symmetry; apply Z.ltb_lt; lia).
  reflexivity.
Qed.

Lemma rne_mono a1 a2 b : 0 < b -> a1 <= a2 -> rne a1 b <= rne a2 b.
Proof.
  intros Hb Hle.
  pose proof (Z.div_le_mono a1 a2 b Hb Hle) as Hq.
  destruct (Z.eq_dec (a1 / b) (a2 / b)) as [Heq|Hne].
  - pose proof (Z.div_mod a1 b ltac:(lia)) as E1.
    pose proof (Z.div_mod a2 b ltac:(lia)) as E2.
    rewrite Heq in E1.
    assert (Hr : a1 mod b <= a2 mod b) by lia.
    unfold rne. rewrite Heq.
    destruct (Z.ltb_spec (2 * (a1 mod b)) b), (Z.ltb_spec (2 * (a2 mod b)) b),
      (Z.ltb_spec b (2 * (a1 mod b))), (Z.ltb_spec b (2 * (a2 mod b)));
      destruct (Z.even (a2 / b)); lia.
  - pose proof (rne_bounds a1 b Hb). pose proof (rne_bounds a2 b Hb). lia.
Qed.

Lemma round_pos_nonneg a b : 0 < b -> 0 <= a -> 0 <= round_pos a b.
Proof.
  intros Hb Ha. unfold round_pos.
  set (s := Z.max 0 (Z.log2 (a / b) - 52)).
  assert (0 < 2 ^ s) by (apply Z.pow_pos_nonneg; lia).
  apply Z.mul_nonneg_nonneg; [apply rne_nonneg|]; lia.
Qed.

Lemma round_pos_zero b : 0 < b -> round_pos 0 b = 0.
Proof.
  intros Hb. unfold round_pos. rewrite Z.div_0_l by lia.
  change (Z.max 0 (Z.log2 0 - 52)) with 0.
  rewrite Z.pow_0_r, !Z.mul_1_r.
  pose proof (rne_exact 0 b Hb) as E. rewrite Z.mul_0_l in E. exact E.
Qed.

(** The exponent chosen by [round_pos] brackets the quotient. *)
Lemma scale_upper a b :
  0 < b -> 0 <= a ->
  a < b * 2 ^ (Z.max 0 (Z.log2 (a / b) - 52) + 53).
Proof.
  intros Hb Ha.
  set (q := a / b). set (s := Z.max 0 (Z.log2 q - 52)).
  assert (Hq : 0 <= q) by (apply Z.div_pos; lia).
  assert (Hlt : q < 2 ^ (s + 53)).
  { destruct (Z.eq_dec q 0) as [->|Hq0].
    - apply Z.pow_pos_nonneg; lia.
    - apply Z.log2_lt_pow2; lia. }
  assert (Hp : 0 < 2 ^ (s + 53)) by (apply Z.pow_pos_nonneg; lia).
  pose proof (Z.div_mod a b ltac:(lia)) as E.
  pose proof (Z.mod_pos_bound a b Hb) as Hr. fold q in E.
  nia.
Qed.

Lemma scale_lower a b :
  0 < b -> 0 <= a -> 0 < Z.log2 (a / b) - 52 ->
  b * 2 ^ (Z.log2 (a / b)) <= a.
Proof.
  intros Hb Ha Hs.
  set (q := a / b) in *.
  assert (Hq : 0 < q).
  { destruct (Z.le_gt_cases q 0) as [H0|]; [|assumption].
    rewrite (Z.log2_nonpos q H0) in Hs. lia. }
  pose proof (Z.log2_spec q Hq) as [Hlo _].
  pose proof (Z.div_mod a b ltac:(lia)) as E.
  pose proof (Z.mod_pos_bound a b Hb) as Hr. fold q in E.
  nia.
Qed.

Lemma round_pos_mono a1 a2 b :
  0 < b -> 0 <= a1 -> a1 <= a2 -> round_pos a1 b <= round_pos a2 b.
Proof.
  intros Hb Ha Hle.
  assert (Hq1 : 0 <= a1 / b) by (apply Z.div_pos; lia).
  pose proof (Z.div_le_mono a1 a2 b Hb Hle) as Hq.
  pose proof (Z.log2_le_mono _ _ Hq) as Hlog.
  pose proof (scale_upper a1 b Hb Ha) as Hup.
  unfold round_pos.
  set (s1 := Z.max 0 (Z.log2 (a1 / b) - 52)) in *.
  set (s2 := Z.max 0 (Z.log2 (a2 / b) - 52)).
  assert (Hs : s1 <= s2) by lia.
  assert (Hp1 : 0 < 2 ^ s1) by (apply Z.pow_pos_nonneg; lia).
  assert (Hp2 : 0 < 2 ^ s2) by (apply Z.pow_pos_nonneg; lia).
  destruct (Z.eq_dec s1 s2) as [Heq|Hne].
  - rewrite <- Heq. apply Z.mul_le_mono_nonneg_r; [lia|].
    apply rne_mono; [nia|lia].
  - assert (Hs2 : s2 = Z.log2 (a2 / b) - 52) by lia.
    assert (Hpos : 0 < Z.log2 (a2 / b) - 52) by lia.
    pose proof (scale_lower a2 b Hb ltac:(lia) Hpos) as Hlo.
    (* the smaller argument rounds to at most 2^(s1+53) *)
    assert (H1 : rne a1 (b * 2 ^ s1) <= 2 ^ 53).
    { pose proof (rne_bounds a1 (b * 2 ^ s1) ltac:(nia)) as [_ Hb1].
      assert (a1 / (b * 2 ^ s1) < 2 ^ 53); [|lia].
      apply Z.div_lt_upper_bound; [nia|].
      rewrite Z.pow_add_r in Hup by lia. nia. }
    (* the larger one to at least 2^(s2+52) *)
    assert (H2 : 2 ^ 52 <= rne a2 (b * 2 ^ s2)).
    { pose proof (rne_bounds a2 (b * 2 ^ s2) ltac:(nia)) as [Hb2 _].
      assert (2 ^ 52 <= a2 / (b * 2 ^ s2)); [|lia].
      apply Z.div_le_lower_bound; [nia|].
      replace (Z.log2 (a2 / b)) with (s2 + 52) in Hlo by lia.
      rewrite Z.pow_add_r in Hlo by lia. nia. }
    assert (Hpow : 2 ^ 53 * 2 ^ s1 <= 2 ^ 52 * 2 ^ s2).
    { rewrite <- !Z.pow_add_r by lia.
      apply Z.pow_le_mono_r; lia. }
    assert (0 <= rne a1 (b * 2 ^ s1)) by (apply rne_nonneg; nia).
    nia.
Qed.

Lemma rnd_nonneg_cases a b :
  0 < b -> 0 <= a ->
  rnd a b = Inf false \/ exists k, rnd a b = Fin k /\ 0 <= k.
Proof.
  intros Hb Ha. unfold rnd.
  destruct (Z.leb_spec 0 a); [|lia].
  destruct (overflow_threshold <=? round_pos a b); [now left|right].
  eexists; split; [reflexivity|]. now apply round_pos_nonneg.
Qed.

Lemma rnd_mono a1 a2 b : 0 < b -> a1 <= a2 -> le (rnd a1 b) (rnd a2 b).
Proof.
  intros Hb Hle. unfold le, rnd.
  destruct (Z.leb_spec 0 a1) as [H1|H1], (Z.leb_spec 0 a2) as [H2|H2];
    try lia.
  - pose proof (round_pos_mono a1 a2 b Hb H1 Hle).
    destruct (Z.leb_spec overflow_threshold (round_pos a1 b)),
      (Z.leb_spec overflow_threshold (round_pos a2 b));
      cbn; try reflexivity; try lia.
    destruct (Z.compare_spec (round_pos a1 b) (round_pos a2 b));
      try reflexivity; lia.
  - pose proof (round_pos_nonneg (- a1) b Hb ltac:(lia)).
    pose proof (round_pos_nonneg a2 b Hb ltac:(lia)).
    destruct (overflow_threshold <=? round_pos (- a1) b),
      (overflow_threshold <=? round_pos a2 b); cbn; try reflexivity.
    destruct (Z.compare_spec (- round_pos (- a1) b) (round_pos a2 b));
      try reflexivity; lia.
  - pose proof (round_pos_mono (- a2) (- a1) b Hb ltac:(lia) ltac:(lia)).
    destruct (Z.leb_spec overflow_threshold (round_pos (- a1) b)),
      (Z.leb_spec overflow_threshold (round_pos (- a2) b));
      cbn; try reflexivity; try lia.
    destruct (Z.compare_spec (- round_pos (- a1) b) (- round_pos (- a2) b));
      try reflexivity; lia.
Qed.

Lemma rnd_zero b : 0 < b -> rnd 0 b = Fin 0.
Proof.
  intros Hb. unfold rnd. rewrite (round_pos_zero b Hb). reflexivity.
Qed.

Lemma rnd_not_nan a b : rnd a b <> NaN.
Proof.
  unfold rnd. destruct (0 <=? a).
  - destruct (overflow_threshold <=? round_pos a b); discriminate.
  - destruct (overflow_threshold <=? round_pos (- a) b); discriminate.
Qed.

Lemma rnd_nonneg a b : 0 < b -> 0 <= a -> le (Fin 0) (rnd a b).
Proof.
  intros Hb Ha. rewrite <- (rnd_zero b Hb). now apply rnd_mono.
Qed.

Lemma rnd_nonpos a b : 0 < b -> a <= 0 -> le (rnd a b) (Fin 0).
Proof.
  intros Hb Ha. rewrite <- (rnd_zero b Hb). now apply rnd_mono.
Qed.

(** *** The order *)

Lemma fle_Fin a b : fle (Fin a) (Fin b) = (a <=? b).
Proof.
  unfold fle, fcompare, Z.leb. destruct (a ?= b); reflexivity.
Qed.

Lemma flt_Fin a b : flt (Fin a) (Fin b) = (a <? b).
Proof.
  unfold flt, fcompare, Z.ltb. destruct (a ?= b); reflexivity.
Qed.

Lemma feq_Fin a b : feq (Fin a) (Fin b) = (a =? b).
Proof.
  unfold feq, fcompare. rewrite Z.eqb_compare. reflexivity.
Qed.

Ltac float_cases :=
  repeat match goal with
         | x : float |- _ => destruct x as [|[]|?]
         end;
  rewrite ?fle_Fin, ?flt_Fin, ?feq_Fin in *;
  cbv [fle flt feq fge fgt fcompare] in *;
  try discriminate; try reflexivity.

Lemma fle_trans x y z : le x y -> le y z -> le x z.
Proof.
  unfold le. intros Hxy Hyz. float_cases.
  apply Z.leb_le in Hxy, Hyz. apply Z.leb_le. lia.
Qed.

Lemma flt_asym x y : flt x y = true -> flt y x = false.
Proof.
  intros Hxy. float_cases.
  apply Z.ltb_lt in Hxy. apply Z.ltb_ge. lia.
Qed.

Lemma flt_not_fge x y : flt x y = true -> fge x y = false.
Proof.
  unfold fge. intros Hxy. float_cases.
  apply Z.ltb_lt in Hxy. apply Z.leb_gt. lia.
Qed.

Lemma flt_fle x y : flt x y = true -> fle x y = true.
Proof.
  intros Hxy. float_cases.
  apply Z.ltb_lt in Hxy. apply Z.leb_le. lia.
Qed.

Lemma fle_refl_Fin k : fle (Fin k) (Fin k) = true.
Proof. rewrite fle_Fin. apply Z.leb_refl. Qed.

(** Ordered floats are not [NaN], so each is below itself. *)
Lemma flt_refl x y : flt x y = true -> fle x x = true /\ fle y y = true.
Proof.
  intros Hxy. float_cases; split; try reflexivity; apply Z.leb_refl.
Qed.

Lemma le_Inf x : x <> NaN -> le x (Inf false).
Proof. unfold le. intros Hx. float_cases. congruence. Qed.

(** A positive difference means the operands are strictly ordered. *)
Lemma fsub_pos d w : flt (Fin 0) (fsub d w) = true -> flt w d = true.
Proof.
  destruct d as [|[]|kd], w as [|[]|kw]; cbn [fsub Bool.eqb];
    try (intros Hpos; float_cases; fail).
  intros Hpos. rewrite flt_Fin. apply Z.ltb_lt.
  destruct (Z.lt_ge_cases kw kd) as [|Hge]; [assumption|exfalso].
  pose proof (rnd_nonpos (kd - kw) 1 ltac:(lia) ltac:(lia)) as Hle.
  unfold le in Hle. destruct (rnd (kd - kw) 1) as [|[]|k]; float_cases.
  apply Z.ltb_lt in Hpos. apply Z.leb_le in Hle. lia.
Qed.

End FloatFacts.

(** ** The float model against the Standard Library's binary64

    The operations of [Float] are compared with [SpecFloat] on the numbers
    of the conversion, on subnormals and on overflow. *)
Module Conformance.
Import Float.

Example agree_conversion :
  forallb (fun xy => agree (fst xy) (snd xy))
    [(lit 160 100, lit 90 100); (lit 160 100, lit 20 100);
     (fsub (lit 160 100) (lit 90 100), of_Z 100);
     (fmul (fsub (lit 160 100) (lit 90 100)) (of_Z 100),
      fsub (lit 160 100) (lit 20 100));
     (lit 300 1, lit 12 10); (lit 23125 1, of_Z 1000);
     (lit 1748764900 1, lit 1748764800 1)] = true.
Proof. vm_compute. reflexivity. Qed.

Example agree_extremes :
  forallb (fun xy => agree (fst xy) (snd xy))
    [(lit 1 (10 ^ 310), lit 3 1); (lit (10 ^ 300) 1, lit 1 (10 ^ 10));
     (lit (10 ^ 308) 1, lit (- 10 ^ 308) 1); (lit (-7) 3, lit 1 (10 ^ 320));
     (Inf false, lit 5 1); (lit 5 1, Inf true); (Inf false, Inf false);
     (NaN, lit 1 1); (lit 1 3, lit 2 3)] = true.
Proof. vm_compute. reflexivity. Qed.

(** The literals of the program, as significand and exponent: [1.60] is
    [0x1.999999999999ap+0], and so on. *)
Example literals_are_nearest :
  map to_spec [lit 160 100; lit 20 100; lit 90 100; lit 12 10; of_Z 100;
               lit 400 10] =
  [SpecFloat.S754_finite false 7205759403792794 (-52);
   SpecFloat.S754_finite false 7205759403792794 (-55);
   SpecFloat.S754_finite false 8106479329266893 (-53);
   SpecFloat.S754_finite false 5404319552844595 (-52);
   SpecFloat.S754_finite false 7036874417766400 (-46);
   SpecFloat.S754_finite false 5629499534213120 (-47)].
Proof. vm_compute. reflexivity. Qed.

End Conformance.

(** ** Calibration and the percent conversion *)
Module SensorsFacts.
Import Float Py World Sensors FloatFacts Notions.

(** The constants of the conversion, in units of [2^-1074]. *)
Lemma f100_eq : of_Z 100 = Fin (100 * 2 ^ emin).
Proof. vm_compute. reflexivity. Qed.

Lemma unit_pos : 0 < 2 ^ emin.
Proof. apply Z.pow_pos_nonneg; unfold emin; lia. Qed.

Lemma round3_zero : round (Fin 0) 3 = Fin 0.
Proof. vm_compute. reflexivity. Qed.

Lemma round3_hundred : round (Fin (100 * 2 ^ emin)) 3 = Fin (100 * 2 ^ emin).
Proof. vm_compute. reflexivity. Qed.

(** *** Clamping *)

Lemma clamp_eq p : py_max (Fin 0) (py_min (of_Z 100) p) = Fin (clamp_int p).
Proof.
  rewrite f100_eq. pose proof unit_pos as Hu.
  destruct p as [|[]|k]; unfold py_max, py_min, fgt, clamp_int.
  - change (flt NaN (Fin (100 * 2 ^ emin))) with false. cbv iota.
    rewrite flt_Fin. destruct (Z.ltb_spec 0 (100 * 2 ^ emin)); [reflexivity|lia].
  - change (flt (Inf true) (Fin (100 * 2 ^ emin))) with true. reflexivity.
  - change (flt (Inf false) (Fin (100 * 2 ^ emin))) with false. cbv iota.
    rewrite flt_Fin. destruct (Z.ltb_spec 0 (100 * 2 ^ emin)); [reflexivity|lia].
  - rewrite flt_Fin.
    destruct (Z.ltb_spec k (100 * 2 ^ emin)); rewrite flt_Fin.
    + destruct (Z.ltb_spec 0 k); f_equal; lia.
    + destruct (Z.ltb_spec 0 (100 * 2 ^ emin)); f_equal; lia.
Qed.

Lemma clamp_int_range p : 0 <= clamp_int p <= 100 * 2 ^ emin.
Proof. pose proof unit_pos. destruct p as [|[]|k]; cbn [clamp_int]; lia. Qed.

Lemma clamp_int_mono x y : le x y -> clamp_int x <= clamp_int y.
Proof.
  pose proof unit_pos as Hu. unfold le, clamp_int. intros Hxy.
  set (U := 2 ^ emin) in *. clearbody U.
  destruct x as [|[]|a], y as [|[]|b];
    try discriminate Hxy; try lia.
  rewrite fle_Fin in Hxy. apply Z.leb_le in Hxy. lia.
Qed.

(** *** Rounding to three decimals on the clamped range *)

Lemma round3_mono m1 m2 :
  0 <= m1 -> m1 <= m2 -> le (round (Fin m1) 3) (round (Fin m2) 3).
Proof.
  intros H1 H12. pose proof unit_pos as Hu.
  unfold round, lit, round_int.
  destruct (Z.leb_spec 0 m1); [|lia]. destruct (Z.leb_spec 0 m2); [|lia].
  apply rnd_mono; [lia|].
  apply Z.mul_le_mono_nonneg_r; [lia|].
  apply rne_mono; [assumption|]. lia.
Qed.

Lemma round3_range m :
  0 <= m <= 100 * 2 ^ emin ->
  le (Fin 0) (round (Fin m) 3) /\ le (round (Fin m) 3) (of_Z 100).
Proof.
  intros [Hlo Hhi]. split.
  - rewrite <- round3_zero at 1. apply round3_mono; lia.
  - rewrite f100_eq, <- round3_hundred. apply round3_mono; lia.
Qed.

(** *** The conversion, branch by branch *)

Lemma percent_of_absent c : percent_of c None = Ok (Fin 0).
Proof.
  unfold percent_of. destruct (flt (dry_v c) (wet_v c));
    destruct (fle _ (Fin 0)); reflexivity.
Qed.

Lemma percent_of_flat c v :
  fle (span c) (Fin 0) = true -> percent_of c v = Ok (Fin 0).
Proof.
  unfold span, normalized, percent_of.
  destruct (flt (dry_v c) (wet_v c)); cbn [fst snd]; intros ->; reflexivity.
Qed.

Lemma nonzero_of_not_le s : fle s (Fin 0) = false -> feq s (Fin 0) = false.
Proof. intros Hs. float_cases. apply Z.leb_gt in Hs. apply Z.eqb_neq. lia. Qed.

Lemma percent_of_raw c v :
  fle (span c) (Fin 0) = false ->
  percent_of c (Some v) = Ok (round (Fin (clamp_int (raw_percent c v))) 3).
Proof.
  unfold raw_percent, span, normalized, percent_of.
  destruct (flt (dry_v c) (wet_v c)); cbn [fst snd]; intros Hs; rewrite Hs;
    (destruct (fge v _); [|destruct (fle v _)]); cbn [bind];
    unfold float_div; rewrite ?(nonzero_of_not_le _ Hs); cbn [bind];
    rewrite clamp_eq; reflexivity.
Qed.

(** The conversion never raises and stays within [0, 100]. *)
Lemma percent_of_range c v :
  exists p, percent_of c v = Ok p /\ le (Fin 0) p /\ le p (of_Z 100).
Proof.
  destruct (fle (span c) (Fin 0)) eqn:Hs.
  - exists (Fin 0). rewrite (percent_of_flat c v Hs).
    rewrite f100_eq. pose proof unit_pos.
    unfold le. rewrite !fle_Fin. repeat split; apply Z.leb_le; lia.
  - destruct v as [v|].
    + eexists. split; [apply (percent_of_raw c v Hs)|].
      apply round3_range, clamp_int_range.
    + exists (Fin 0). rewrite percent_of_absent.
      rewrite f100_eq. pose proof unit_pos.
      unfold le. rewrite !fle_Fin. repeat split; apply Z.leb_le; lia.
Qed.

(** *** Monotonicity of the interpolation *)

Lemma fsub_ordered d v1 v2 :
  le v1 v2 -> fle d v2 = false -> ordered (fsub d v2) (fsub d v1).
Proof.
  unfold le, ordered. intros H12 Hd.
  destruct d as [|[]|kd]; [left; split; reflexivity| | |].
  - destruct v2 as [|[]|?]; float_cases.
  - right. destruct v1 as [|[]|k1], v2 as [|[]|k2]; float_cases;
      cbn [fsub Bool.eqb negb]; split; reflexivity.
  - right. destruct v1 as [|[]|k1], v2 as [|[]|k2]; float_cases;
      cbn [fsub Bool.eqb negb]; try (split; reflexivity).
    + apply Z.leb_gt in Hd. split.
      * apply rnd_nonneg; lia.
      * apply le_Inf, rnd_not_nan.
    + apply Z.leb_gt in Hd. apply Z.leb_le in H12. split.
      * apply rnd_nonneg; lia.
      * apply rnd_mono; lia.
Qed.

Lemma le_zero_cases a :
  le (Fin 0) a -> a = Inf false \/ exists k, a = Fin k /\ 0 <= k.
Proof.
  unfold le. intros Ha. destruct a as [|[]|k]; try discriminate Ha.
  - now left.
  - right. exists k. rewrite fle_Fin in Ha. apply Z.leb_le in Ha. now split.
Qed.

Lemma fmul_ordered a2 a1 :
  ordered a2 a1 ->
  ordered (fmul a2 (Fin (100 * 2 ^ emin))) (fmul a1 (Fin (100 * 2 ^ emin))).
Proof.
  pose proof unit_pos as Hu. unfold ordered.
  intros [[-> ->]|[H0 H21]]; [left; split; reflexivity|right].
  assert (Hk : (100 * 2 ^ emin =? 0) = false) by (apply Z.eqb_neq; lia).
  assert (Hs : (100 * 2 ^ emin <? 0) = false) by (apply Z.ltb_ge; lia).
  destruct (le_zero_cases a2 H0) as [->|(k2 & -> & Hk2)].
  - destruct a1 as [|[]|k1]; try discriminate H21.
    cbn [fmul]. rewrite Hk, Hs. split; reflexivity.
  - assert (H01 : le (Fin 0) a1) by (eapply fle_trans; eassumption).
    destruct (le_zero_cases a1 H01) as [->|(k1 & -> & Hk1)]; cbn [fmul].
    + rewrite Hk, Hs. split; [apply rnd_nonneg; nia|].
      apply le_Inf, rnd_not_nan.
    + unfold le in H21. rewrite fle_Fin in H21. apply Z.leb_le in H21.
      split; [apply rnd_nonneg; nia|apply rnd_mono; nia].
Qed.

Lemma fdiv_clamp_ordered b2 b1 s :
  ordered b2 b1 -> fle s (Fin 0) = false ->
  clamp_int (fdiv b2 s) <= clamp_int (fdiv b1 s).
Proof.
  pose proof unit_pos as Hu. unfold ordered.
  intros [[-> ->]|[H0 H21]] Hs; [lia|].
  assert (H01 : le (Fin 0) b1) by (eapply fle_trans; eassumption).
  destruct s as [|[]|ks]; try discriminate Hs.
  - destruct b2 as [|[]|?], b1 as [|[]|?]; cbn [fdiv]; lia.
  - destruct (le_zero_cases b2 H0) as [->|(k2 & -> & Hk2)];
      destruct (le_zero_cases b1 H01) as [->|(k1 & -> & Hk1)];
      try discriminate H21; cbn [fdiv clamp_int]; lia.
  - rewrite fle_Fin in Hs. apply Z.leb_gt in Hs.
    assert (Hz : (ks =? 0) = false) by (apply Z.eqb_neq; lia).
    assert (Hp : (0 <? ks) = true) by (apply Z.ltb_lt; lia).
    assert (Hn : (ks <? 0) = false) by (apply Z.ltb_ge; lia).
    destruct (le_zero_cases b2 H0) as [->|(k2 & -> & Hk2)];
      destruct (le_zero_cases b1 H01) as [->|(k1 & -> & Hk1)];
      try discriminate H21; cbn [fdiv]; rewrite ?Hz, ?Hp, ?Hn;
      cbn [xorb]; try lia.
    + apply clamp_int_mono, le_Inf, rnd_not_nan.
    + unfold le in H21. rewrite fle_Fin in H21. apply Z.leb_le in H21.
      apply clamp_int_mono, rnd_mono; nia.
Qed.

Lemma raw_percent_antitone c v1 v2 :
  fle (span c) (Fin 0) = false -> le v1 v2 ->
  clamp_int (raw_percent c v2) <= clamp_int (raw_percent c v1).
Proof.
  intros Hs H12. unfold raw_percent.
  destruct (normalized c) as [dry wet] eqn:Hn.
  pose proof (clamp_int_range (fdiv (fmul (fsub dry v1) (of_Z 100)) (span c)))
    as Hr1.
  pose proof (clamp_int_range (fdiv (fmul (fsub dry v2) (of_Z 100)) (span c)))
    as Hr2.
  rewrite f100_eq in *. pose proof unit_pos as Hu.
  assert (C0 : clamp_int (Fin 0) = 0) by (cbn [clamp_int]; lia).
  assert (C100 : clamp_int (Fin (100 * 2 ^ emin)) = 100 * 2 ^ emin)
    by (cbn [clamp_int]; lia).
  destruct (fge v2 dry) eqn:G2.
  { rewrite C0. destruct (fge v1 dry); [lia|].
    destruct (fle v1 wet); [rewrite C100|]; lia. }
  assert (G1 : fge v1 dry = false).
  { destruct (fge v1 dry) eqn:G1; [|reflexivity].
    unfold fge in *. rewrite (fle_trans dry v1 v2 G1 H12) in G2.
    discriminate. }
  rewrite G1.
  destruct (fle v2 wet) eqn:L2.
  { rewrite (fle_trans v1 v2 wet H12 L2). lia. }
  destruct (fle v1 wet); [rewrite C100; lia|].
  apply fdiv_clamp_ordered; [|assumption].
  apply fmul_ordered, fsub_ordered; assumption.
Qed.

Lemma percent_of_antitone c v1 v2 :
  le v1 v2 ->
  exists p1 p2,
    percent_of c (Some v1) = Ok p1 /\ percent_of c (Some v2) = Ok p2 /\
    le p2 p1.
Proof.
  intros H12. destruct (fle (span c) (Fin 0)) eqn:Hs.
  - exists (Fin 0), (Fin 0). rewrite !(percent_of_flat c _ Hs).
    split; [reflexivity|split; [reflexivity|]]. apply fle_refl_Fin.
  - do 2 eexists. rewrite !(percent_of_raw c _ Hs).
    split; [reflexivity|split; [reflexivity|]].
    apply round3_mono; [apply clamp_int_range|].
    now apply raw_percent_antitone.
Qed.

(** *** Loading the calibration *)

Section Calibration.
Context `{Builtins}.

Lemma py_float_exc v :
  (exists x, py_float v = Ok x) \/ (exists e, py_float v = Raise (Exc e)).
Proof.
  destruct v; cbn [py_float]; eauto.
  - unfold float_of_int. destruct (of_Z z); eauto.
  - destruct (float_of_str s); eauto.
Qed.

Lemma py_in_exc key obj :
  (exists b, py_in key obj = Ok b) \/ py_in key obj = Raise (Exc TypeError).
Proof. destruct obj; cbn [py_in]; eauto. Qed.

Lemma getitem_exc obj key :
  (exists v, getitem obj key = Ok v) \/
  (exists e, getitem obj key = Raise (Exc e)).
Proof.
  destruct obj; cbn [getitem]; eauto. destruct (d !! key); eauto.
Qed.

Lemma load_calibration_total calib : exists c, load_calibration calib = Ok c.
Proof.
  unfold load_calibration.
  destruct calib as [|[obj|e]]; cbn [exists_ negb read_file call bind try_except];
    eauto.
  destruct (py_in_exc "dry_v" obj) as [[b1 ->]| ->]; cbn [bind try_except]; eauto.
  assert (Hlegacy : exists c,
    try_except
      (bind (py_in "dry" obj) (fun has_dry =>
         bind (if has_dry then py_in "wet" obj else Ok false) (fun _ =>
           Ok default_calibration)))
      (fun _ => Ok default_calibration) = Ok c).
  { destruct (py_in_exc "dry" obj) as [[b ->]| ->]; cbn [bind try_except]; eauto.
    destruct b; cbn [bind try_except]; eauto.
    destruct (py_in_exc "wet" obj) as [[b ->]| ->]; cbn [bind try_except]; eauto. }
  destruct b1; cbn [bind]; [|exact Hlegacy].
  destruct (py_in_exc "wet_v" obj) as [[b2 ->]| ->]; cbn [bind try_except]; eauto.
  destruct b2; [|exact Hlegacy].
  destruct (getitem_exc obj "dry_v") as [[v1 ->]|[e1 ->]];
    cbn [bind try_except]; eauto.
  destruct (py_float_exc v1) as [[x1 ->]|[e1 ->]]; cbn [bind try_except]; eauto.
  destruct (getitem_exc obj "wet_v") as [[v2 ->]|[e2 ->]];
    cbn [bind try_except]; eauto.
  destruct (py_float_exc v2) as [[x2 ->]|[e2 ->]]; cbn [bind try_except]; eauto.
Qed.

Lemma load_calibration_no_fields obj :
  ~ has_voltage_fields obj ->
  load_calibration (Present (Returns obj)) = Ok default_calibration.
Proof.
  intros Hno. unfold load_calibration.
  cbn [exists_ negb read_file call bind].
  assert (Hlegacy :
    try_except
      (bind (py_in "dry" obj) (fun has_dry =>
         bind (if has_dry then py_in "wet" obj else Ok false) (fun _ =>
           Ok default_calibration)))
      (fun _ => Ok default_calibration) = Ok default_calibration).
  { destruct (py_in_exc "dry" obj) as [[b ->]| ->]; cbn [bind try_except]; eauto.
    destruct b; cbn [bind try_except]; eauto.
    destruct (py_in_exc "wet" obj) as [[b ->]| ->]; cbn [bind try_except]; eauto. }
  destruct obj as [| | | | s | l | d];
    try (cbn [py_in bind try_except]; reflexivity).
  - (* a string: both names may occur in it, but it has no items *)
    cbn [py_in bind]. destruct (contains "dry_v" s); [|exact Hlegacy].
    cbn [bind]. destruct (contains "wet_v" s); [|exact Hlegacy].
    reflexivity.
  - (* a list: likewise *)
    cbn [py_in bind]. destruct (existsb (is_str "dry_v") l); [|exact Hlegacy].
    cbn [bind]. destruct (existsb (is_str "wet_v") l); [|exact Hlegacy].
    reflexivity.
  - cbn [py_in bind].
    destruct (d !! "dry_v") as [v1|] eqn:E1.
    + destruct (d !! "wet_v") as [v2|] eqn:E2.
      * exfalso. apply Hno. exists d. rewrite E1, E2. eauto.
      * change (bool_decide (is_Some (Some v1))) with true. cbn [bind py_in].
        rewrite ?E2. change (bool_decide (is_Some (@None json))) with false.
        cbn [bind]. cbn [py_in] in Hlegacy. exact Hlegacy.
    + change (bool_decide (is_Some (@None json))) with false.
      cbn [bind]. cbn [py_in] in Hlegacy. exact Hlegacy.
Qed.

(** C9: [load_calibration] never raises; a missing file, a file that
    cannot be opened or parsed, and an object without both [dry_v] and
    [wet_v] (the legacy [dry]/[wet] format among them) all give the
    defaults 1.60 V and 0.20 V. *)
Theorem load_calibration_defaults (calib : file json) :
  (exists c, load_calibration calib = Ok c) /\
  (calib = Absent -> load_calibration calib = Ok default_calibration) /\
  (forall e, calib = Present (Throws e) ->
             load_calibration calib = Ok default_calibration) /\
  (forall obj, calib = Present (Returns obj) -> ~ has_voltage_fields obj ->
               load_calibration calib = Ok default_calibration) /\
  default_calibration = Calibration (lit 160 100) (lit 20 100).
Proof.
  split; [apply load_calibration_total|].
  split; [intros ->; reflexivity|].
  split; [intros e ->; reflexivity|].
  split; [|reflexivity].
  intros obj -> Hno. now apply load_calibration_no_fields.
Qed.

(** *** The conversion on the loaded profile *)

Lemma read_percent_of calib c v :
  load_calibration calib = Ok c ->
  read_soil_percent_from_voltage calib v = percent_of c v.
Proof. unfold read_soil_percent_from_voltage. intros ->. reflexivity. Qed.

Lemma span_pos_not_le c :
  flt (Fin 0) (span c) = true -> fle (span c) (Fin 0) = false.
Proof. intros Hs. apply (flt_not_fge _ _ Hs). Qed.

Lemma span_pos_ordered c :
  flt (Fin 0) (span c) = true ->
  flt (snd (normalized c)) (fst (normalized c)) = true.
Proof. apply fsub_pos. Qed.

Lemma raw_percent_dry c v :
  fge v (fst (normalized c)) = true -> raw_percent c v = Fin 0.
Proof.
  unfold raw_percent. destruct (normalized c) as [dry wet]. cbn [fst].
  intros ->. reflexivity.
Qed.

Lemma raw_percent_below c v :
  fge v (fst (normalized c)) = false -> fle v (snd (normalized c)) = true ->
  raw_percent c v = of_Z 100.
Proof.
  unfold raw_percent. destruct (normalized c) as [dry wet]. cbn [fst snd].
  intros -> ->. reflexivity.
Qed.

Lemma raw_percent_wet c v :
  flt (Fin 0) (span c) = true ->
  fle v (snd (normalized c)) = true -> raw_percent c v = of_Z 100.
Proof.
  intros Hs. pose proof (span_pos_ordered c Hs) as Hwd.
  unfold raw_percent. destruct (normalized c) as [dry wet]. cbn [fst snd] in *.
  intros Hv. rewrite Hv.
  assert (Hge : fge v dry = false).
  { destruct (fge v dry) eqn:G; [|reflexivity]. unfold fge in G.
    pose proof (fle_trans dry v wet G Hv) as Hdw.
    pose proof (flt_not_fge wet dry Hwd) as Hn. unfold fge in Hn.
    unfold le in Hdw. congruence. }
  rewrite Hge. reflexivity.
Qed.

Lemma raw_percent_between c v :
  fge v (fst (normalized c)) = false -> fle v (snd (normalized c)) = false ->
  raw_percent c v =
  fdiv (fmul (fsub (fst (normalized c)) v) (of_Z 100)) (span c).
Proof.
  unfold raw_percent. destruct (normalized c) as [dry wet]. cbn [fst snd].
  intros -> ->. reflexivity.
Qed.

Lemma clamp_round_zero : round (Fin (clamp_int (Fin 0))) 3 = Fin 0.
Proof.
  replace (clamp_int (Fin 0)) with 0; [apply round3_zero|].
  pose proof unit_pos. cbn [clamp_int]. lia.
Qed.

Lemma clamp_round_hundred : round (Fin (clamp_int (of_Z 100))) 3 = of_Z 100.
Proof.
  rewrite f100_eq.
  replace (clamp_int (Fin (100 * 2 ^ emin))) with (100 * 2 ^ emin);
    [apply round3_hundred|].
  pose proof unit_pos. cbn [clamp_int]. lia.
Qed.

(** C3: the conversion is 0 without a voltage or on a span at or below
    0; otherwise it is 0 at or above the dry bound, 100 at or below the
    wet bound, and the interpolation [(dry - v) * 100 / span], clamped to
    [0, 100] and rounded to three decimals, in between.  On a positive
    span the bounds themselves give exactly 0 and 100, and 0.90 V gives
    50.0 on the default profile. *)
Theorem percent_piecewise (calib : file json) (c : calibration) :
  load_calibration calib = Ok c ->
  let dry := fst (normalized c) in
  let wet := snd (normalized c) in
  let percent := read_soil_percent_from_voltage calib in
  percent None = Ok (Fin 0) /\
  (fle (span c) (Fin 0) = true -> forall v, percent v = Ok (Fin 0)) /\
  (fle (span c) (Fin 0) = false ->
   (forall v, fge v dry = true -> percent (Some v) = Ok (Fin 0)) /\
   (forall v, fge v dry = false -> fle v wet = true ->
      percent (Some v) = Ok (of_Z 100)) /\
   (forall v, fge v dry = false -> fle v wet = false ->
      percent (Some v) =
      Ok (round (py_max (Fin 0)
                   (py_min (of_Z 100)
                      (fdiv (fmul (fsub dry v) (of_Z 100)) (span c)))) 3))) /\
  (flt (Fin 0) (span c) = true ->
   (forall v, fle v wet = true -> percent (Some v) = Ok (of_Z 100)) /\
   percent (Some dry) = Ok (Fin 0) /\
   percent (Some wet) = Ok (of_Z 100)) /\
  (c = default_calibration -> percent (Some (lit 90 100)) = Ok (lit 500 10)).
Proof.
  intros Hload dry wet percent. subst percent.
  assert (Hdry : fle (span c) (Fin 0) = false -> forall v, fge v dry = true ->
            read_soil_percent_from_voltage calib (Some v) = Ok (Fin 0)).
  { intros Hn v Hv.
    rewrite (read_percent_of _ _ _ Hload), (percent_of_raw c v Hn).
    rewrite (raw_percent_dry c v Hv), clamp_round_zero. reflexivity. }
  assert (Hwet : flt (Fin 0) (span c) = true -> forall v, fle v wet = true ->
            read_soil_percent_from_voltage calib (Some v) = Ok (of_Z 100)).
  { intros Hs v Hv.
    rewrite (read_percent_of _ _ _ Hload).
    rewrite (percent_of_raw c v (span_pos_not_le c Hs)).
    rewrite (raw_percent_wet c v Hs Hv), clamp_round_hundred. reflexivity. }
  split; [rewrite (read_percent_of _ _ _ Hload); apply percent_of_absent|].
  split.
  { intros Hs v. rewrite (read_percent_of _ _ _ Hload).
    now apply percent_of_flat. }
  split; [|split].
  - intros Hn. split; [exact (Hdry Hn)|]. split.
    + intros v Hd Hw.
      rewrite (read_percent_of _ _ _ Hload), (percent_of_raw c v Hn).
      rewrite (raw_percent_below c v Hd Hw), clamp_round_hundred. reflexivity.
    + intros v Hd Hw.
      rewrite (read_percent_of _ _ _ Hload), (percent_of_raw c v Hn).
      rewrite (raw_percent_between c v Hd Hw), clamp_eq. reflexivity.
  - intros Hs. pose proof (span_pos_ordered c Hs) as Hwd. fold dry wet in Hwd.
    split; [exact (Hwet Hs)|]. split.
    + apply (Hdry (span_pos_not_le c Hs)). unfold fge.
      apply (proj2 (flt_refl _ _ Hwd)).
    + apply (Hwet Hs). apply (proj1 (flt_refl _ _ Hwd)).
  - intros ->. rewrite (read_percent_of _ _ _ Hload).
    vm_compute. reflexivity.
Qed.

(** C4: the conversion is non-increasing in the voltage and its result
    lies in [0, 100]. *)
Theorem percent_antitone_bounded (calib : file json) :
  (forall v, exists p,
      read_soil_percent_from_voltage calib v = Ok p /\
      fle (Fin 0) p = true /\ fle p (of_Z 100) = true) /\
  (forall v1 v2, fle v1 v2 = true ->
     exists p1 p2,
       read_soil_percent_from_voltage calib (Some v1) = Ok p1 /\
       read_soil_percent_from_voltage calib (Some v2) = Ok p2 /\
       fle p2 p1 = true).
Proof.
  destruct (load_calibration_total calib) as [c Hload]. split.
  - intros v. rewrite (read_percent_of _ _ _ Hload). apply percent_of_range.
  - intros v1 v2 H12. rewrite !(read_percent_of _ _ _ Hload).
    now apply percent_of_antitone.
Qed.

(** C5: a profile stored with its bounds inverted converts every voltage
    exactly as the profile with the bounds swapped. *)
Theorem percent_swapped_profile (calib calib' : file json) (d w : float)
    (v : option float) :
  load_calibration calib = Ok (Calibration d w) ->
  load_calibration calib' = Ok (Calibration w d) ->
  flt d w = true ->
  read_soil_percent_from_voltage calib v =
  read_soil_percent_from_voltage calib' v.
Proof.
  intros H1 H2 Hdw.
  rewrite (read_percent_of _ _ _ H1), (read_percent_of _ _ _ H2).
  unfold percent_of. cbn [dry_v wet_v].
  rewrite Hdw, (flt_asym d w Hdw). reflexivity.
Qed.

End Calibration.

Import Examples.

(** Every pair of bounds is the profile of some calibration file, so the
    statements above, made for all files, cover all profiles. *)
Lemma load_calibration_file (d w : float) :
  load_calibration (calibration_file d w) = Ok (Calibration d w).
Proof. reflexivity. Qed.

Lemma legacy_file_has_no_voltage_fields :
  ~ has_voltage_fields
      (JDict {[ "dry" := JInt 21000; "wet" := JInt 9000 ]}).
Proof.
  intros (d & Heq & [x Hx] & _). injection Heq as <-.
  vm_compute in Hx. discriminate Hx.
Qed.

(** The legacy file of the examples loads as the defaults. *)
Lemma load_calibration_defaults_witness :
  load_calibration legacy_file = Ok default_calibration.
Proof.
  destruct (load_calibration_defaults legacy_file) as (_ & _ & _ & Hobj & _).
  apply (Hobj _ eq_refl). exact legacy_file_has_no_voltage_fields.
Defined.

(** Without a calibration file, 0.90 V reads as 50 %. *)
Lemma percent_piecewise_witness :
  load_calibration Absent = Ok default_calibration /\
  read_soil_percent_from_voltage Absent (Some (lit 90 100)) = Ok (lit 500 10).
Proof.
  split; [reflexivity|].
  destruct (percent_piecewise Absent default_calibration eq_refl)
    as (_ & _ & _ & Hdefault).
  apply Hdefault. reflexivity.
Defined.

(** 0.90 V and 1.11 V on the default profile: 50 % and 35 %. *)
Lemma percent_antitone_bounded_witness :
  fle (lit 90 100) (lit 111 100) = true /\
  exists p1 p2,
    read_soil_percent_from_voltage Absent (Some (lit 90 100)) = Ok p1 /\
    read_soil_percent_from_voltage Absent (Some (lit 111 100)) = Ok p2 /\
    fle p2 p1 = true.
Proof.
  split; [vm_compute; reflexivity|].
  apply (proj2 (percent_antitone_bounded Absent)).
  vm_compute. reflexivity.
Defined.

(** A file with the bounds inverted, 0.20 V as dry and 1.60 V as wet. *)
Lemma percent_swapped_profile_witness :
  flt (lit 20 100) (lit 160 100) = true /\
  read_soil_percent_from_voltage
    (calibration_file (lit 20 100) (lit 160 100)) (Some (lit 90 100)) =
  read_soil_percent_from_voltage
    (calibration_file (lit 160 100) (lit 20 100)) (Some (lit 90 100)).
Proof.
  split; [vm_compute; reflexivity|].
  apply (percent_swapped_profile _ _ (lit 20 100) (lit 160 100)).
  - vm_compute. reflexivity.
  - vm_compute. reflexivity.
  - vm_compute. reflexivity.
Defined.

End SensorsFacts.

(** ** The sensor readers *)
Module ReadersFacts.
Import Float Py World Sensors Examples Notions.

Lemma call_exc {A} (o : outcome A) :
  (exists a, call o = Ok a) \/ (exists e, call o = Raise (Exc e)).
Proof. destruct o; cbn [call]; eauto. Qed.

(** A [try] whose body only calls into drivers cannot let anything out. *)
Lemma try_except_total {A} (body : result A) (fallback : A) :
  ((exists a, body = Ok a) \/ (exists e, body = Raise (Exc e))) ->
  never_raises (try_except body (fun _ => Ok fallback)).
Proof.
  unfold never_raises. intros [[a ->]|[e ->]]; cbn [try_except]; eauto.
Qed.

Lemma bind_exc {A B} (m : result A) (k : A -> result B) :
  ((exists a, m = Ok a) \/ (exists e, m = Raise (Exc e))) ->
  (forall a, (exists b, k a = Ok b) \/ (exists e, k a = Raise (Exc e))) ->
  (exists b, bind m k = Ok b) \/ (exists e, bind m k = Raise (Exc e)).
Proof.
  intros [[a ->]|[e ->]] Hk; cbn [bind]; eauto.
Qed.

Lemma read_ads_once_exc ads :
  (exists rv, _read_ads_once ads = Ok rv) \/
  (exists e, _read_ads_once ads = Raise (Exc e)).
Proof.
  unfold _read_ads_once.
  apply bind_exc; [apply call_exc|intros _].
  apply bind_exc; [apply call_exc|intros raw].
  apply bind_exc; [apply call_exc|intros voltage]. eauto.
Qed.


Lemma float_div_exc x y :
  (exists q, float_div x y = Ok q) \/ (exists e, float_div x y = Raise (Exc e)).
Proof. unfold float_div. destruct (feq y (Fin 0)); eauto. Qed.

Lemma float_of_int_exc z :
  (exists x, float_of_int z = Ok x) \/ (exists e, float_of_int z = Raise (Exc e)).
Proof. unfold float_of_int. destruct (of_Z z); eauto. Qed.

Lemma byte_at_exc data i :
  (exists b, byte_at data i = Ok b) \/ (exists e, byte_at data i = Raise (Exc e)).
Proof. unfold byte_at. destruct (data !! i); eauto. Qed.

Lemma line_exc lines i :
  (exists l, line lines i = Ok l) \/ (exists e, line lines i = Raise (Exc e)).
Proof. unfold line. destruct (lines !! i); eauto. Qed.

Section Readers.
Context `{Builtins}.

Lemma read_bh1750_lux_total hw : never_raises (read_bh1750_lux hw).
Proof.
  unfold read_bh1750_lux. apply try_except_total.
  apply bind_exc; [apply call_exc|intros _].
  apply bind_exc; [apply call_exc|intros _].
  apply bind_exc; [apply call_exc|intros data].
  apply bind_exc; [apply byte_at_exc|intros hi].
  apply bind_exc; [apply byte_at_exc|intros lo].
  apply bind_exc; [apply float_of_int_exc|intros count].
  apply bind_exc; [apply float_div_exc|intros lux]. eauto.
Qed.

Lemma read_ds18b20_temp_total hw : never_raises (read_ds18b20_temp hw).
Proof.
  unfold read_ds18b20_temp.
  destruct (device_file hw) as [[|c path]|]; try (eexists; reflexivity).
  apply try_except_total.
  apply bind_exc; [apply call_exc|intros lines].
  apply bind_exc; [apply line_exc|intros l0].
  destruct (negb _); [eauto|].
  apply bind_exc; [apply line_exc|intros l1].
  destruct (find "t=" l1); [|eauto].
  destruct (float_of_str _); [|eauto].
  apply bind_exc; [apply float_div_exc|intros t]. eauto.
Qed.

Lemma test_dht_total hw : never_raises (test_dht hw).
Proof.
  unfold test_dht. apply try_except_total.
  apply bind_exc; [apply call_exc|intros ht]. eauto.
Qed.

End Readers.

(** The shared-bus read has no handler: whatever the ADC throws leaves
    the function. *)
Lemma read_soil_raw_shared_propagates hw e :
  shared_i2c hw = true ->
  ads_open (adc hw) = Throws e \/
  (ads_open (adc hw) = Returns tt /\ ads_value_first (adc hw) = Throws e) ->
  read_soil_raw_shared hw = Raise (Exc e).
Proof.
  unfold read_soil_raw_shared, _read_ads_once.
  intros -> [-> | [-> ->]]; reflexivity.
Qed.

(** C7, the failing case: with the shared bus up and an ADC that does
    not answer, [read_soil_raw_shared] raises [OSError] where
    [read_soil_raw_fresh] on the same hardware returns [(None, None)]. *)
Theorem shared_read_raises :
  read_soil_raw_shared (adc_timeout (lit 111 100)) = Raise (Exc OSError) /\
  read_soil_raw_fresh (adc_timeout (lit 111 100)) = Ok (None, None).
Proof. split; reflexivity. Qed.

End ReadersFacts.

(** ** The watering decision *)
Module LoggerFacts.
Import Float Py World Sensors Logger Examples FloatFacts Notions.

Lemma threshold_eq : WATERING_THRESHOLD = of_Z 40.
Proof. vm_compute. reflexivity. Qed.

Section Decision.
Context `{Builtins}.

Lemma should_water_cooldown last_watering now sp :
  fge sp WATERING_THRESHOLD = false -> in_cooldown last_watering now ->
  should_water last_watering now (Some sp) = Ok false.
Proof.
  intros Hsp (text & last_ts & -> & Hparse & Hcool).
  unfold should_water. rewrite Hsp.
  cbn [exists_ read_file call bind]. rewrite Hparse.
  change (of_Z WATERING_COOLDOWN) with (of_Z 3600). rewrite Hcool.
  reflexivity.
Qed.

Lemma should_water_otherwise last_watering now sp :
  fge sp WATERING_THRESHOLD = false -> ~ in_cooldown last_watering now ->
  should_water last_watering now (Some sp) = Ok true.
Proof.
  intros Hsp Hno. unfold should_water. rewrite Hsp.
  destruct last_watering as [|[text|e]]; cbn [exists_ read_file call bind];
    try reflexivity.
  destruct (float_of_str (strip text)) as [last_ts|] eqn:Hparse;
    [|reflexivity].
  change (of_Z WATERING_COOLDOWN) with (of_Z 3600).
  destruct (flt (fsub now last_ts) (of_Z 3600)) eqn:Hcool; [|reflexivity].
  exfalso. apply Hno. exists text, last_ts. auto.
Qed.

(** C6: no watering without a reading, at or above 40 %, or within 3600 s
    of the recorded watering; watering otherwise.  At 35 % with no record
    the answer is yes, and with the record of a watering less than an
    hour old it is no. *)
Theorem should_water_decision (last_watering : file string) (now : float) :
  should_water last_watering now None = Ok false /\
  (forall sp, fge sp (of_Z 40) = true ->
     should_water last_watering now (Some sp) = Ok false) /\
  (forall sp, fge sp (of_Z 40) = false -> in_cooldown last_watering now ->
     should_water last_watering now (Some sp) = Ok false) /\
  (forall sp, fge sp (of_Z 40) = false -> ~ in_cooldown last_watering now ->
     should_water last_watering now (Some sp) = Ok true) /\
  should_water Absent now (Some (of_Z 35)) = Ok true /\
  (in_cooldown last_watering now ->
     should_water last_watering now (Some (of_Z 35)) = Ok false).
Proof.
  rewrite <- threshold_eq.
  assert (H35 : fge (of_Z 35) WATERING_THRESHOLD = false)
    by (vm_compute; reflexivity).
  split; [reflexivity|].
  split; [intros sp Hsp; unfold should_water; rewrite Hsp; reflexivity|].
  split; [intros sp; apply should_water_cooldown|].
  split; [intros sp; apply should_water_otherwise|].
  split.
  - unfold should_water. rewrite H35. reflexivity.
  - now apply should_water_cooldown.
Qed.

(** C10: a watering record that cannot be read, or that does not parse
    as a number, does not hold the pump back: below the threshold the
    answer is yes. *)
Theorem should_water_corrupt_record (last_watering : file string)
    (now sp : float) :
  corrupt last_watering ->
  flt sp WATERING_THRESHOLD = true ->
  should_water last_watering now (Some sp) = Ok true.
Proof.
  intros Hbad Hsp. apply should_water_otherwise.
  - now apply flt_not_fge.
  - intros (text & last_ts & Hfile & Hparse & _).
    destruct Hbad as [[e He]|(text' & Hfile' & Hnone)]; congruence.
Qed.

(** The record a completed watering leaves behind holds the pump back for
    the next hour, provided the time stamp reads back as it was
    written. *)
Lemma retry_after_watering ns pump t now w :
  ns !! "RELAY2" = Some pump -> is_Some (gpio w !! pump) ->
  float_of_str (strip (str_of_float t)) = Some t ->
  flt (fsub now t) (of_Z 3600) = true ->
  should_water
    (last_watering_file
       (snd (perform_watering_in ns {| hold := None; clock := t |} w)))
    now (Some (of_Z 35)) = Ok false.
Proof.
  intros Hns [lvl Hpin] Hread Hcool.
  unfold perform_watering_in, global, bindM, Relays.set_relay_state,
    GPIO_output, sleep, modify, ret.
  rewrite Hns. cbn [hold Logger.clock]. rewrite Hpin.
  cbn [gpio gpio_writes with_gpio]. rewrite lookup_insert_eq.
  cbn [snd last_watering_file with_last_watering].
  apply should_water_cooldown.
  - vm_compute. reflexivity.
  - exists (str_of_float t), t. auto.
Qed.

End Decision.

Lemma recent_record_in_cooldown :
  in_cooldown (Present (Returns "1748764800.0")) (lit 1748764900 1).
Proof.
  exists "1748764800.0", (lit 1748764800 1).
  split; [reflexivity|]. split; vm_compute; reflexivity.
Qed.

(** A watering recorded 100 s ago. *)
Lemma should_water_decision_witness :
  in_cooldown (Present (Returns "1748764800.0")) (lit 1748764900 1) /\
  should_water (Present (Returns "1748764800.0")) (lit 1748764900 1)
               (Some (of_Z 35)) = Ok false.
Proof.
  split; [exact recent_record_in_cooldown|].
  destruct (should_water_decision (Present (Returns "1748764800.0"))
              (lit 1748764900 1)) as (_ & _ & _ & _ & _ & Hretry).
  apply Hretry. exact recent_record_in_cooldown.
Defined.

Lemma garbage_record_corrupt : corrupt (Present (Returns "last watered: ?")).
Proof. right. exists "last watered: ?". split; reflexivity. Qed.

(** A record that is not a number, at 35 %. *)
Lemma should_water_corrupt_record_witness :
  corrupt (Present (Returns "last watered: ?")) /\
  flt (of_Z 35) WATERING_THRESHOLD = true /\
  should_water (Present (Returns "last watered: ?")) (lit 1748764900 1)
               (Some (of_Z 35)) = Ok true.
Proof.
  split; [exact garbage_record_corrupt|].
  split; [vm_compute; reflexivity|].
  apply should_water_corrupt_record.
  - exact garbage_record_corrupt.
  - vm_compute. reflexivity.
Defined.

(** ** The watering action *)

(** With the pump pin bound and nothing interrupting the hold, the action
    switches the pump on, then off, and records the time. *)
Lemma perform_watering_in_complete `{Builtins} ns pump clock w :
  ns !! "RELAY2" = Some pump -> is_Some (gpio w !! pump) ->
  perform_watering_in ns {| hold := None; clock := clock |} w =
  (Ok tt,
   with_last_watering (Present (Returns (str_of_float clock)))
     (with_gpio (<[pump := HIGH]> (<[pump := LOW]> (gpio w)))
                ((gpio_writes w ++ [(pump, LOW)]) ++ [(pump, HIGH)]) w)).
Proof.
  intros Hns [lvl Hpin].
  unfold perform_watering_in, global, bindM, Relays.set_relay_state,
    GPIO_output, sleep, modify, ret.
  rewrite Hns. cbn [hold Logger.clock]. rewrite Hpin.
  cbn [gpio gpio_writes with_gpio]. rewrite lookup_insert_eq.
  reflexivity.
Qed.

(** An interrupted hold leaves through the exception, past the line that
    switches the pump off. *)
Lemma perform_watering_in_interrupted `{Builtins} ns pump clock r w :
  ns !! "RELAY2" = Some pump -> is_Some (gpio w !! pump) ->
  perform_watering_in ns {| hold := Some r; clock := clock |} w =
  (Raise r,
   with_gpio (<[pump := LOW]> (gpio w)) (gpio_writes w ++ [(pump, LOW)]) w).
Proof.
  intros Hns [lvl Hpin].
  unfold perform_watering_in, global, bindM, Relays.set_relay_state,
    GPIO_output, sleep, throw, ret.
  rewrite Hns. cbn [hold]. rewrite Hpin. reflexivity.
Qed.

(** In the namespace of [logger.py] the pump pin has no name. *)
Lemma perform_watering_name_error `{Builtins} i w :
  perform_watering i w = (Raise (Exc (NameError "RELAY2")), w).
Proof. reflexivity. Qed.

(** C2, the failing cases.  As written, [perform_watering] stops at the
    unbound name [RELAY2] before any relay write, so a pump that is on
    stays on; and where the name is bound, an interrupt during the hold
    leaves the pump energized, the only write being the one that switched
    it on. *)
Theorem perform_watering_leaves_pump_on :
  let i := {| hold := None; clock := lit 1700000000 1 |} in
  let stopped := perform_watering i pump_on_world in
  let i' := {| hold := Some KeyboardInterrupt; clock := lit 1700000000 1 |} in
  let interrupted := perform_watering_in Config.relay_attributes i' fresh_world in
  (fst stopped = Raise (Exc (NameError "RELAY2")) /\
   gpio (snd stopped) !! Config.RELAY2 = Some LOW /\
   gpio_writes (snd stopped) = gpio_writes pump_on_world) /\
  (fst interrupted = Raise KeyboardInterrupt /\
   gpio (snd interrupted) !! Config.RELAY2 = Some LOW /\
   gpio_writes (snd interrupted) = [(Config.RELAY2, LOW)]).
Proof. vm_compute. repeat split. Qed.

(** ** The polling loop *)

Section Loop.
Context `{Builtins}.

Lemma untouched_refl w : untouched w w.
Proof. repeat split. Qed.

Lemma untouched_trans w1 w2 w3 :
  untouched w1 w2 -> untouched w2 w3 -> untouched w1 w3.
Proof. unfold untouched. intros (-> & -> & ->) (-> & -> & ->). auto. Qed.

(** A cycle reads, converts and stores; it never decides on watering and
    never drives a pin. *)
Lemma run_logger_tick_untouched cold_first i w :
  untouched w (snd (run_logger_tick cold_first i w)).
Proof.
  unfold run_logger_tick, bindM, lift, get, Database.insert_log, modify,
    sleep, ret, throw.
  repeat match goal with
         | |- context [match ?x with _ => _ end] => destruct x
         end; cbn [snd]; repeat split.
Qed.

Lemma run_logger_loop_untouched cold_first ticks w :
  untouched w (snd (run_logger_loop cold_first ticks w)).
Proof.
  revert w. induction ticks as [|i rest IH]; intros w.
  - apply untouched_refl.
  - cbn [run_logger_loop]. unfold bindM.
    pose proof (run_logger_tick_untouched cold_first i w) as Ht.
    destruct (run_logger_tick cold_first i w) as [[[]|r] w1]; cbn [snd] in *.
    + eapply untouched_trans; [exact Ht|apply IH].
    + exact Ht.
Qed.

(** A whole run drives the pins only while setting both relays to OFF at
    start-up: no write of a run ever energizes a relay, and no run records
    a watering. *)
Lemma run_logger_never_energizes cold_first status ticks w :
  exists writes,
    gpio_writes (snd (run_logger cold_first status ticks w)) =
    gpio_writes w ++ writes /\
    Forall (fun write => snd write = HIGH) writes /\
    last_watering_file (snd (run_logger cold_first status ticks w)) =
    last_watering_file w.
Proof.
  unfold run_logger, bindM, modify.
  set (w0 := with_status (Present (Returns status)) w).
  assert (Hinit : exists writes,
            gpio_writes (snd (Relays.init_relays w0)) = gpio_writes w ++ writes /\
            Forall (fun write => snd write = HIGH) writes /\
            last_watering_file (snd (Relays.init_relays w0)) =
            last_watering_file w).
  { unfold Relays.init_relays, Relays.set_relay_state, GPIO_output, bindM.
    cbn [gpio gpio_writes with_status w0].
    destruct (gpio w !! Config.RELAY1) as [l1|].
    - cbn [gpio gpio_writes with_gpio].
      destruct (<[Config.RELAY1:=HIGH]> (gpio w) !! Config.RELAY2) as [l2|].
      + exists [(Config.RELAY1, HIGH); (Config.RELAY2, HIGH)].
        cbn [snd gpio_writes with_gpio last_watering_file with_status].
        rewrite <- app_assoc. repeat constructor.
      + exists [(Config.RELAY1, HIGH)].
        cbn [snd gpio_writes with_gpio last_watering_file with_status].
        repeat constructor.
    - exists []. cbn [snd gpio_writes last_watering_file with_status].
      rewrite app_nil_r. repeat constructor. }
  destruct (Relays.init_relays w0) as [[[]|r0] w1]; cbn [snd] in Hinit;
    [|exact Hinit].
  destruct Hinit as (writes & Hw & Hhigh & Hlast).
  pose proof (run_logger_loop_untouched cold_first ticks w1) as (_ & Hw2 & Hl2).
  exists writes.
  destruct (run_logger_loop cold_first ticks w1) as [[[]|r] w2]; cbn [snd] in *.
  - rewrite Hw2, Hl2. auto.
  - unfold try_finally, try_except_interrupt, GPIO_cleanup, bindM, modify, ret.
    destruct r as [e| |];
      cbn [snd gpio_writes with_gpio with_status last_watering_file];
      rewrite Hw2, Hl2; auto.
Qed.

End Loop.

(** C1, the failing case.  On dry soil (35 %) and with no watering on
    record the decision is to water, yet the cycle stores its row without
    taking the decision: no pin is driven, the pump stays off and no
    watering is recorded. *)
Theorem run_logger_tick_never_waters :
  let w' := snd (run_logger_tick false dry_soil_tick fresh_world) in
  fst (run_logger_tick false dry_soil_tick fresh_world) = Ok tt /\
  map soil_percent (logs w') = [Some (of_Z 35)] /\
  should_water (last_watering_file fresh_world) (lit 1748764800 1)
               (Some (of_Z 35)) = Ok true /\
  gpio_writes w' = [] /\
  gpio w' !! Config.RELAY2 = Some HIGH /\
  last_watering_file w' = Absent.
Proof. vm_compute. repeat split. Qed.

End LoggerFacts.

(** ** The relay audit trail *)
Module WebserverFacts.
Import Float Py World Webserver Examples Notions.


Section Route.
Context `{Builtins}.

Lemma relay_pin relay :
  relay = 1 \/ relay = 2 ->
  getattr_config ("RELAY" +:+ pretty relay) =
  Ok (if relay =? 1 then Config.RELAY1 else Config.RELAY2).
Proof. intros [-> | ->]; reflexivity. Qed.




End Route.





End WebserverFacts.

(** * Properties of the rest of the program *)

(** ** Relays: read-back, start-up and the test sequence *)
Module RelayOpsFacts.
Import Float Py World Notions MoreNotions RelayOps.

Lemma set_relay_state_run pin state w :
  is_Some (gpio w !! pin) ->
  Relays.set_relay_state pin state w =
  (Ok tt, with_gpio (<[pin := level_of state]> (gpio w))
                    (gpio_writes w ++ [(pin, level_of state)]) w).
Proof.
  intros [lvl Hpin]. unfold Relays.set_relay_state, GPIO_output.
  rewrite Hpin. destruct state; reflexivity.
Qed.

Lemma get_relay_state_run pin lvl w :
  gpio w !! pin = Some lvl ->
  Relays.get_relay_state pin w = (Ok (bool_decide (lvl = LOW)), w).
Proof.
  intros Hpin. unfold Relays.get_relay_state, bindM, GPIO_input, ret.
  rewrite Hpin. reflexivity.
Qed.

Lemma level_of_low state : bool_decide (level_of state = LOW) = state.
Proof. destruct state; reflexivity. Qed.

(** X1: on a pin that is set up, what [set_relay_state] sets is what
    [get_relay_state] reads back (the inversion of the low-trigger board
    stays inside), and the other pins read as before. *)
Theorem set_then_get_relay_state (pin : Z) (state : bool) (w : world) :
  is_Some (gpio w !! pin) ->
  let w' := snd (Relays.set_relay_state pin state w) in
  fst (Relays.set_relay_state pin state w) = Ok tt /\
  Relays.get_relay_state pin w' = (Ok state, w') /\
  (forall other, other <> pin ->
     fst (Relays.get_relay_state other w') =
     fst (Relays.get_relay_state other w)).
Proof.
  intros Hpin w'. subst w'. rewrite (set_relay_state_run pin state w Hpin).
  cbn [fst snd]. split; [reflexivity|]. split.
  - erewrite get_relay_state_run
      by (cbn [gpio with_gpio]; apply lookup_insert_eq).
    rewrite level_of_low. reflexivity.
  - intros other Hne.
    unfold Relays.get_relay_state, bindM, GPIO_input, ret.
    cbn [gpio with_gpio]. rewrite lookup_insert_ne by congruence.
    destruct (gpio w !! other); reflexivity.
Qed.

Lemma set_then_get_relay_state_witness :
  is_Some (gpio Examples.fresh_world !! Config.RELAY2) /\
  let w' := snd (Relays.set_relay_state Config.RELAY2 true Examples.fresh_world) in
  Relays.get_relay_state Config.RELAY2 w' = (Ok true, w').
Proof.
  assert (Hpin : is_Some (gpio Examples.fresh_world !! Config.RELAY2))
    by (eexists; reflexivity).
  split; [exact Hpin|].
  exact (proj1 (proj2 (set_then_get_relay_state Config.RELAY2 true
                         Examples.fresh_world Hpin))).
Defined.

Lemma relays_set_up_insert pin lvl w writes :
  relays_set_up w ->
  relays_set_up (with_gpio (<[pin := lvl]> (gpio w)) writes w).
Proof.
  intros [S1 S2]. unfold relays_set_up. cbn [gpio with_gpio].
  rewrite !lookup_insert. split; case_decide; eauto.
Qed.

Lemma relays_after_levels s1 s2 w :
  gpio (relays_after s1 s2 w) !! Config.RELAY1 = Some (level_of s1) /\
  gpio (relays_after s1 s2 w) !! Config.RELAY2 = Some (level_of s2).
Proof.
  unfold relays_after. cbn [gpio with_gpio]. split.
  - rewrite lookup_insert_ne by discriminate. apply lookup_insert_eq.
  - apply lookup_insert_eq.
Qed.

Lemma relays_after_set_up s1 s2 w : relays_set_up (relays_after s1 s2 w).
Proof. split; eexists; apply relays_after_levels. Qed.

(** Setting relay 1, then relay 2. *)
Lemma set_both_run {A} s1 s2 (k : M world A) w :
  relays_set_up w ->
  bindM (Relays.set_relay_state Config.RELAY1 s1)
        (fun _ => bindM (Relays.set_relay_state Config.RELAY2 s2)
                        (fun _ => k)) w =
  k (relays_after s1 s2 w).
Proof.
  intros Hw. unfold bindM.
  rewrite (set_relay_state_run Config.RELAY1 s1 w (proj1 Hw)).
  pose proof (relays_set_up_insert Config.RELAY1 (level_of s1) w
                (gpio_writes w ++ [(Config.RELAY1, level_of s1)]) Hw) as Hw1.
  rewrite (set_relay_state_run Config.RELAY2 s2 _ (proj2 Hw1)).
  reflexivity.
Qed.

Lemma get_both_run w l1 l2 :
  gpio w !! Config.RELAY1 = Some l1 -> gpio w !! Config.RELAY2 = Some l2 ->
  bindM (Relays.get_relay_state Config.RELAY1) (fun r1 =>
  bindM (Relays.get_relay_state Config.RELAY2) (fun r2 => ret (r1, r2))) w =
  (Ok (bool_decide (l1 = LOW), bool_decide (l2 = LOW)), w).
Proof.
  intros H1 H2. unfold bindM at 1.
  rewrite (get_relay_state_run _ _ _ H1). unfold bindM.
  rewrite (get_relay_state_run _ _ _ H2). reflexivity.
Qed.

Lemma init_relays_run w :
  relays_set_up w -> Relays.init_relays w = (Ok tt, relays_after false false w).
Proof.
  intros Hw. unfold Relays.init_relays, bindM.
  rewrite (set_relay_state_run Config.RELAY1 false w (proj1 Hw)).
  pose proof (relays_set_up_insert Config.RELAY1 (level_of false) w
                (gpio_writes w ++ [(Config.RELAY1, level_of false)]) Hw) as Hw1.
  rewrite (set_relay_state_run Config.RELAY2 false _ (proj2 Hw1)).
  reflexivity.
Qed.

Lemma test_relays_run w :
  relays_set_up w ->
  test_relays None None w =
  (Ok (false, false),
   relays_after false false (relays_after false true (relays_after true false w))).
Proof.
  intros Hw. unfold test_relays, Logger.sleep.
  rewrite (set_both_run true false _ w Hw).
  unfold bindM at 1, ret at 1.
  rewrite (set_both_run false true _ _ (relays_after_set_up _ _ _)).
  unfold bindM at 1, ret at 1.
  rewrite (set_both_run false false _ _ (relays_after_set_up _ _ _)).
  destruct (relays_after_levels false false
              (relays_after false true (relays_after true false w))) as [G1 G2].
  apply (get_both_run _ _ _ G1 G2).
Qed.

(** X2: with both pins set up, [init_relays] switches both relays off
    whatever they were, and so does a [test_relays] that runs to its end:
    it reports OFF, OFF after six writes, relay 1 on first, then relay 2. *)
Theorem init_and_test_end_off (w : world) :
  relays_set_up w ->
  let started := Relays.init_relays w in
  let tested := test_relays None None w in
  (fst started = Ok tt /\
   gpio (snd started) !! Config.RELAY1 = Some HIGH /\
   gpio (snd started) !! Config.RELAY2 = Some HIGH) /\
  (fst tested = Ok (false, false) /\
   gpio (snd tested) !! Config.RELAY1 = Some HIGH /\
   gpio (snd tested) !! Config.RELAY2 = Some HIGH /\
   gpio_writes (snd tested) =
   gpio_writes w ++
   [(Config.RELAY1, LOW); (Config.RELAY2, HIGH);
    (Config.RELAY1, HIGH); (Config.RELAY2, LOW);
    (Config.RELAY1, HIGH); (Config.RELAY2, HIGH)]).
Proof.
  intros Hw started tested. subst started tested.
  rewrite (init_relays_run w Hw), (test_relays_run w Hw). cbn [fst snd].
  split.
  - split; [reflexivity|]. apply (relays_after_levels false false).
  - split; [reflexivity|].
    split; [apply (relays_after_levels false false)|].
    split; [apply (relays_after_levels false false)|].
    unfold relays_after. cbn [gpio_writes with_gpio level_of].
    rewrite <- !app_assoc. reflexivity.
Qed.

Lemma init_and_test_end_off_witness :
  relays_set_up Examples.pump_on_world /\
  gpio (snd (Relays.init_relays Examples.pump_on_world)) !! Config.RELAY2 =
  Some HIGH.
Proof.
  assert (Hw : relays_set_up Examples.pump_on_world)
    by (split; eexists; reflexivity).
  split; [exact Hw|].
  exact (proj2 (proj2 (proj1 (init_and_test_end_off Examples.pump_on_world Hw)))).
Defined.

Lemma test_relays_first_pause r pause2 w :
  relays_set_up w ->
  test_relays (Some r) pause2 w = (Raise r, relays_after true false w).
Proof.
  intros Hw. unfold test_relays, Logger.sleep.
  rewrite (set_both_run true false _ w Hw). reflexivity.
Qed.

Lemma test_relays_second_pause r w :
  relays_set_up w ->
  test_relays None (Some r) w =
  (Raise r, relays_after false true (relays_after true false w)).
Proof.
  intros Hw. unfold test_relays, Logger.sleep.
  rewrite (set_both_run true false _ w Hw).
  unfold bindM at 1, ret at 1.
  rewrite (set_both_run false true _ _ (relays_after_set_up _ _ _)).
  reflexivity.
Qed.

(** X3: a [test_relays] interrupted in its first pause leaves relay 1
    energized, and one interrupted in its second pause leaves relay 2
    energized: nothing switches them off on the way out. *)
Theorem test_relays_interrupted (r : raised) (pause2 : option raised)
    (w : world) :
  relays_set_up w ->
  let first := test_relays (Some r) pause2 w in
  let second := test_relays None (Some r) w in
  (fst first = Raise r /\
   gpio (snd first) !! Config.RELAY1 = Some LOW /\
   gpio (snd first) !! Config.RELAY2 = Some HIGH) /\
  (fst second = Raise r /\
   gpio (snd second) !! Config.RELAY1 = Some HIGH /\
   gpio (snd second) !! Config.RELAY2 = Some LOW).
Proof.
  intros Hw first second. subst first second.
  rewrite (test_relays_first_pause r pause2 w Hw).
  rewrite (test_relays_second_pause r w Hw). cbn [fst snd]. split.
  - split; [reflexivity|]. apply (relays_after_levels true false).
  - split; [reflexivity|]. apply (relays_after_levels false true).
Qed.

Lemma test_relays_interrupted_witness :
  relays_set_up Examples.fresh_world /\
  gpio (snd (test_relays (Some KeyboardInterrupt) None Examples.fresh_world))
    !! Config.RELAY1 = Some LOW.
Proof.
  assert (Hw : relays_set_up Examples.fresh_world)
    by (split; eexists; reflexivity).
  split; [exact Hw|].
  exact (proj1 (proj2 (proj1 (test_relays_interrupted KeyboardInterrupt None
                                Examples.fresh_world Hw)))).
Defined.

(** X4: after [set_all_relays(state)], [get_all_relays] reports [state]
    for both relays. *)
Theorem set_all_then_get_all (state : bool) (w : world) :
  relays_set_up w ->
  fst (Relays.set_all_relays state w) = Ok tt /\
  fst (get_all_relays (snd (Relays.set_all_relays state w))) =
  Ok {[ "relay1" := state; "relay2" := state ]}.
Proof.
  intros Hw.
  assert (E : Relays.set_all_relays state w = (Ok tt, relays_after state state w)).
  { unfold Relays.set_all_relays, bindM.
    rewrite (set_relay_state_run Config.RELAY1 state w (proj1 Hw)).
    pose proof (relays_set_up_insert Config.RELAY1 (level_of state) w
                  (gpio_writes w ++ [(Config.RELAY1, level_of state)]) Hw) as Hw1.
    rewrite (set_relay_state_run Config.RELAY2 state _ (proj2 Hw1)).
    reflexivity. }
  rewrite E. cbn [fst snd]. split; [reflexivity|].
  destruct (relays_after_levels state state w) as [G1 G2].
  unfold get_all_relays, bindM.
  rewrite (get_relay_state_run _ _ _ G1), (get_relay_state_run _ _ _ G2).
  rewrite level_of_low. reflexivity.
Qed.

Lemma set_all_then_get_all_witness :
  relays_set_up Examples.fresh_world /\
  fst (get_all_relays (snd (Relays.set_all_relays true Examples.fresh_world))) =
  Ok {[ "relay1" := true; "relay2" := true ]}.
Proof.
  assert (Hw : relays_set_up Examples.fresh_world)
    by (split; eexists; reflexivity).
  split; [exact Hw|].
  exact (proj2 (set_all_then_get_all true Examples.fresh_world Hw)).
Defined.

End RelayOpsFacts.

(** ** The percent wrapper and the calibration capture *)
Module CalibrateFacts.
Import Float Py World Sensors Notions MoreNotions Calibrate.
Import FloatFacts SensorsFacts ReadersFacts.

Lemma read_soil_raw_total hw : never_raises (read_soil_raw hw).
Proof.
  unfold read_soil_raw. apply try_except_total.
  apply bind_exc; [apply call_exc|intros _].
  apply bind_exc; [apply call_exc|intros _].
  apply bind_exc; [apply read_ads_once_exc|intros rv]. eauto.
Qed.

(** A read that fails anywhere gives the pair of absent values, one that
    succeeds gives both values. *)
Lemma read_soil_raw_cases hw :
  read_soil_raw hw = Ok (None, None) \/
  exists raw v, read_soil_raw hw = Ok (Some raw, Some v).
Proof.
  unfold read_soil_raw, _read_ads_once.
  destruct (bus_open hw) as [[]|e]; cbn [call bind try_except]; auto.
  destruct (ads_open (adc hw)) as [[]|e]; cbn [call bind try_except]; auto.
  destruct (ads_value_first (adc hw)); cbn [call bind try_except]; auto.
  destruct (ads_value (adc hw)); cbn [call bind try_except]; auto.
  destruct (ads_voltage (adc hw)); cbn [call bind try_except fst snd]; eauto.
Qed.

Lemma dump_loads `{Builtins} c :
  load_calibration (Present (Returns (dump c))) = Ok c.
Proof. destruct c. reflexivity. Qed.

Section Capture.
Context `{Builtins}.

(** The percent wrapper never raises and stays within [0, 100]. *)
Lemma read_soil_percent_bounds hw calib voltage :
  exists p, read_soil_percent hw calib voltage = Ok p /\
            fle (Fin 0) p = true /\ fle p (of_Z 100) = true.
Proof.
  destruct (load_calibration_total calib) as [c Hload].
  unfold read_soil_percent. destruct voltage as [v|]; cbn [bind].
  - rewrite (read_percent_of _ _ _ Hload). apply percent_of_range.
  - destruct (read_soil_raw_total hw) as [rv ->]. cbn [bind].
    rewrite (read_percent_of _ _ _ Hload). apply percent_of_range.
Qed.

(** X5: [read_soil_percent] never raises and stays within [0, 100]; with
    a voltage it is the conversion of that voltage, and without one a
    sensor that cannot be read counts as 0 %. *)
Theorem read_soil_percent_total (hw : hardware) (calib : file json)
    (voltage : option float) :
  (exists p, read_soil_percent hw calib voltage = Ok p /\
             fle (Fin 0) p = true /\ fle p (of_Z 100) = true) /\
  (forall v, voltage = Some v ->
     read_soil_percent hw calib voltage =
     read_soil_percent_from_voltage calib (Some v)) /\
  (voltage = None -> read_soil_raw hw = Ok (None, None) ->
     read_soil_percent hw calib voltage = Ok (Fin 0)).
Proof.
  destruct (load_calibration_total calib) as [c Hload].
  split; [|split].
  - apply read_soil_percent_bounds.
  - intros v ->. reflexivity.
  - intros -> Hraw. unfold read_soil_percent. rewrite Hraw. cbn [bind snd].
    rewrite (read_percent_of _ _ _ Hload). apply percent_of_absent.
Qed.

Lemma calibrate_ads_run hw dry wet w raw v c :
  read_soil_raw hw = Ok (raw, Some v) ->
  load_calibration (calib_file w) = Ok c ->
  calibrate_ads hw dry wet w =
  (Ok tt, with_calib_file (Present (Returns (dump (captured dry wet v c)))) w).
Proof.
  intros Hraw Hload. unfold calibrate_ads, bindM, lift, get, modify.
  rewrite Hraw. cbn [snd]. rewrite Hload.
  destruct dry, wet, c; reflexivity.
Qed.

(** With the write as an outcome: the capture of a voltage that was
    read. *)
Lemma calibrate_ads_write_run write left hw dry wet w raw v c :
  read_soil_raw hw = Ok (raw, Some v) ->
  load_calibration (calib_file w) = Ok c ->
  SensorsIO.calibrate_ads write left hw dry wet w =
  match write with
  | Returns _ =>
      (Ok tt,
       with_calib_file (Present (Returns (dump (captured dry wet v c)))) w)
  | Throws e => (Raise (Exc e), with_calib_file left w)
  end.
Proof.
  intros Hraw Hload.
  unfold SensorsIO.calibrate_ads, bindM, lift, get, modify, throw.
  rewrite Hraw. cbn [snd]. rewrite Hload.
  destruct write as [[]|e]; [destruct dry, wet, c|]; reflexivity.
Qed.

(** When the write succeeds the capture is the one of [Calibrate]. *)
Lemma calibrate_ads_written left hw dry wet w :
  SensorsIO.calibrate_ads (Returns tt) left hw dry wet w =
  calibrate_ads hw dry wet w.
Proof.
  destruct (load_calibration_total (calib_file w)) as [c Hload].
  destruct (read_soil_raw_cases hw) as [Hraw|(raw & v & Hraw)].
  - unfold SensorsIO.calibrate_ads, calibrate_ads, bindM, lift.
    rewrite Hraw. reflexivity.
  - rewrite (calibrate_ads_write_run _ left hw dry wet w _ v c Hraw Hload).
    rewrite (calibrate_ads_run hw dry wet w _ v c Hraw Hload). reflexivity.
Qed.

(** X6: [calibrate_ads] changes nothing but the calibration file.  When
    the sensor cannot be read it returns without touching the file.
    Otherwise it writes the file: if the write succeeds, the file,
    loaded again, gives the voltage read for each bound whose flag is
    set and the bound loaded before for the other; if the write raises,
    the exception leaves the function. *)
Theorem calibrate_ads_captures (write : outcome unit) (left : file json)
    (hw : hardware) (dry wet : bool) (w : world) :
  exists c,
    load_calibration (calib_file w) = Ok c /\
    let r := SensorsIO.calibrate_ads write left hw dry wet w in
    with_calib_file (calib_file (snd r)) w = snd r /\
    (read_soil_raw hw = Ok (None, None) -> r = (Ok tt, w)) /\
    (forall raw v, read_soil_raw hw = Ok (raw, Some v) ->
       match write with
       | Returns _ =>
           fst r = Ok tt /\
           load_calibration (calib_file (snd r)) = Ok (captured dry wet v c)
       | Throws e =>
           fst r = Raise (Exc e) /\ calib_file (snd r) = left
       end).
Proof.
  destruct (load_calibration_total (calib_file w)) as [c Hload].
  exists c. split; [exact Hload|].
  destruct (read_soil_raw_cases hw) as [Hraw|(raw & v & Hraw)].
  - assert (E : SensorsIO.calibrate_ads write left hw dry wet w = (Ok tt, w)).
    { unfold SensorsIO.calibrate_ads, bindM, lift. rewrite Hraw. reflexivity. }
    rewrite E. cbn [fst snd].
    split; [destruct w; reflexivity|]. split; [reflexivity|].
    intros raw v Hraw'. congruence.
  - rewrite (calibrate_ads_write_run write left hw dry wet w _ v c Hraw Hload).
    destruct write as [[]|e]; cbn [fst snd calib_file with_calib_file].
    + split; [reflexivity|]. split; [intros Hraw'; congruence|].
      intros raw' v' Hraw'. assert (v' = v) as -> by congruence.
      split; [reflexivity|apply dump_loads].
    + split; [reflexivity|]. split; [intros Hraw'; congruence|].
      intros raw' v' Hraw'. split; reflexivity.
Qed.

(** X7: a dry capture followed by a wet capture, both written, fix the
    whole profile, whatever could be loaded from the file before, be it
    missing, unreadable or in the legacy format. *)
Theorem two_captures_define_profile (hw1 hw2 : hardware)
    (left1 left2 : file json) (w : world)
    (raw1 raw2 : option Z) (v1 v2 : float) :
  read_soil_raw hw1 = Ok (raw1, Some v1) ->
  read_soil_raw hw2 = Ok (raw2, Some v2) ->
  let dry := SensorsIO.calibrate_ads (Returns tt) left1 hw1 true false w in
  let wet :=
    SensorsIO.calibrate_ads (Returns tt) left2 hw2 false true (snd dry) in
  fst dry = Ok tt /\ fst wet = Ok tt /\
  load_calibration (calib_file (snd wet)) = Ok (Calibration v1 v2).
Proof.
  intros H1 H2 dry wet. subst dry wet.
  destruct (load_calibration_total (calib_file w)) as [c Hload].
  rewrite (calibrate_ads_write_run _ left1 hw1 true false w _ v1 c H1 Hload).
  cbn [fst snd].
  erewrite (calibrate_ads_write_run _ left2 hw2 false true _ _ v2 _ H2)
    by (cbn [calib_file with_calib_file]; apply dump_loads).
  cbn [fst snd calib_file with_calib_file]. rewrite dump_loads.
  repeat split; reflexivity.
Qed.

(** X8: capturing one finite voltage as both bounds leaves an empty span:
    from then on every conversion gives 0. *)
Theorem capture_both_flattens (hw : hardware) (w : world) (raw : option Z)
    (k : Z) (voltage : option float) :
  read_soil_raw hw = Ok (raw, Some (Fin k)) ->
  read_soil_percent_from_voltage
    (calib_file (snd (calibrate_ads hw true true w))) voltage = Ok (Fin 0).
Proof.
  intros Hraw.
  destruct (load_calibration_total (calib_file w)) as [c Hload].
  rewrite (calibrate_ads_run hw true true w _ _ c Hraw Hload).
  cbn [snd calib_file with_calib_file].
  rewrite (read_percent_of _ _ _ (dump_loads _)).
  apply percent_of_flat. unfold span, normalized, captured. cbn [dry_v wet_v].
  destruct (flt (Fin k) (Fin k)); cbn [fst snd fsub];
    rewrite Z.sub_diag, (rnd_zero 1) by lia; reflexivity.
Qed.

End Capture.

Import Examples.

Lemma healthy_read_soil_raw v :
  read_soil_raw (healthy v) = Ok (Some 8880, Some v).
Proof. reflexivity. Qed.

Lemma read_soil_percent_total_witness :
  read_soil_raw (adc_timeout (lit 111 100)) = Ok (None, None) /\
  read_soil_percent (adc_timeout (lit 111 100)) Absent None = Ok (Fin 0).
Proof.
  split; [reflexivity|].
  apply (proj2 (proj2 (read_soil_percent_total (adc_timeout (lit 111 100))
                         Absent None))); reflexivity.
Defined.

(** A dry capture at 1.55 V over the legacy file, written. *)
Lemma calibrate_ads_captures_witness :
  read_soil_raw (healthy (lit 155 100)) = Ok (Some 8880, Some (lit 155 100)) /\
  load_calibration
    (calib_file (snd (SensorsIO.calibrate_ads (Returns tt) Absent
                        (healthy (lit 155 100)) true false
                        (with_calib_file legacy_file fresh_world)))) =
  Ok (Calibration (lit 155 100) (lit 20 100)).
Proof.
  split; [reflexivity|].
  destruct (calibrate_ads_captures (Returns tt) Absent
              (healthy (lit 155 100)) true false
              (with_calib_file legacy_file fresh_world))
    as (c & Hc & _ & _ & Hcap).
  destruct (Hcap _ _ (healthy_read_soil_raw (lit 155 100))) as [_ ->].
  change (load_calibration legacy_file = Ok c) in Hc.
  assert (Hd : load_calibration legacy_file = Ok default_calibration)
    by reflexivity.
  rewrite Hd in Hc. injection Hc as <-. reflexivity.
Defined.

Lemma two_captures_define_profile_witness :
  read_soil_raw (healthy (lit 155 100)) = Ok (Some 8880, Some (lit 155 100)) /\
  read_soil_raw (healthy (lit 25 100)) = Ok (Some 8880, Some (lit 25 100)) /\
  load_calibration
    (calib_file
       (snd (SensorsIO.calibrate_ads (Returns tt) Absent
               (healthy (lit 25 100)) false true
               (snd (SensorsIO.calibrate_ads (Returns tt) Absent
                       (healthy (lit 155 100)) true false fresh_world))))) =
  Ok (Calibration (lit 155 100) (lit 25 100)).
Proof.
  split; [reflexivity|]. split; [reflexivity|].
  apply (two_captures_define_profile _ _ Absent Absent fresh_world
           (Some 8880) (Some 8880)); reflexivity.
Defined.

(** Both flags at 1.0 V. *)
Lemma capture_both_flattens_witness :
  read_soil_raw (healthy (Fin (2 ^ 1074))) = Ok (Some 8880, Some (Fin (2 ^ 1074))) /\
  read_soil_percent_from_voltage
    (calib_file (snd (calibrate_ads (healthy (Fin (2 ^ 1074))) true true
                        fresh_world))) (Some (lit 90 100)) = Ok (Fin 0).
Proof.
  split; [reflexivity|].
  apply (capture_both_flattens _ _ (Some 8880) (2 ^ 1074)). reflexivity.
Defined.

End CalibrateFacts.

(** ** The readers: what a reading vouches for *)
Module ReadersMoreFacts.
Import Float Py World Sensors Notions MoreNotions.
Import FloatFacts SensorsFacts ReadersFacts.

Lemma thousand_nonzero : feq (of_Z 1000) (Fin 0) = false.
Proof. vm_compute. reflexivity. Qed.

Section Probe.
Context `{Builtins}.

(** X9: [read_ds18b20_temp] reports a temperature exactly when the probe
    is configured, the first line of its transcript ends in [YES], the
    second holds [t=] and what follows parses as a number; the
    temperature is that number divided by 1000. *)
Theorem read_ds18b20_temp_checked (hw : hardware) (t : float) :
  read_ds18b20_temp hw = Ok (Some t) <->
  (exists path, device_file hw = Some path /\ path <> EmptyString) /\
  exists lines l0 l1 pos millis,
    w1_slave hw = Returns lines /\
    lines !! 0%nat = Some l0 /\
    suffix 3 (strip l0) = "YES" /\
    lines !! 1%nat = Some l1 /\
    find "t=" l1 = Some pos /\
    float_of_str (drop (pos + 2) l1) = Some millis /\
    t = fdiv millis (of_Z 1000).
Proof.
  unfold read_ds18b20_temp, line, float_div. rewrite thousand_nonzero. split.
  - destruct (device_file hw) as [[|c path]|]; try discriminate.
    destruct (w1_slave hw) as [lines|e]; cbn [call bind try_except];
      [|discriminate].
    destruct (lines !! 0%nat) as [l0|] eqn:H0; cbn [bind try_except];
      [|discriminate].
    destruct (String.eqb (suffix 3 (strip l0)) "YES") eqn:Hyes;
      cbn [negb bind try_except]; [|discriminate].
    destruct (lines !! 1%nat) as [l1|] eqn:H1; cbn [bind try_except];
      [|discriminate].
    destruct (find "t=" l1) as [pos|] eqn:Hpos; cbn [bind try_except];
      [|discriminate].
    destruct (float_of_str (drop (pos + 2) l1)) as [millis|] eqn:Hparse;
      cbn [bind try_except]; [|discriminate].
    intros [= <-]. split; [eexists; split; [reflexivity|discriminate]|].
    exists lines, l0, l1, pos, millis.
    apply String.eqb_eq in Hyes. repeat split; assumption || reflexivity.
  - intros [(path & Hdev & Hne)
              (lines & l0 & l1 & pos & millis &
               Hw1 & H0 & Hyes & H1 & Hpos & Hparse & ->)].
    rewrite Hdev. destruct path as [|c path]; [congruence|].
    rewrite Hw1. cbn [call bind try_except]. rewrite H0. cbn [bind].
    apply String.eqb_eq in Hyes. rewrite Hyes. cbn [negb].
    rewrite H1. cbn [bind]. rewrite Hpos, Hparse. reflexivity.
Qed.

End Probe.

(** *** The illuminance *)

Lemma round_mono nd m1 m2 :
  0 <= nd -> 0 <= m1 -> m1 <= m2 ->
  le (round (Fin m1) nd) (round (Fin m2) nd).
Proof.
  intros Hnd H1 H12. pose proof unit_pos as Hu.
  assert (Hp : 0 < 10 ^ nd) by (apply Z.pow_pos_nonneg; lia).
  unfold round, lit, round_int.
  destruct (Z.leb_spec 0 m1); [|lia]. destruct (Z.leb_spec 0 m2); [|lia].
  apply rnd_mono; [lia|].
  apply Z.mul_le_mono_nonneg_r; [lia|].
  apply rne_mono; [assumption|]. nia.
Qed.

(** Below a finite float there are only finite floats and [-inf]. *)
Lemma between_finite x top :
  le (Fin 0) x -> le x (Fin top) -> exists k, x = Fin k /\ 0 <= k <= top.
Proof.
  unfold le. intros Hge Hle.
  destruct x as [|[]|k]; try discriminate Hge; try discriminate Hle.
  exists k. rewrite fle_Fin in Hle, Hge. apply Z.leb_le in Hle, Hge. auto.
Qed.

Lemma top_count : of_Z 65535 = Fin (65535 * 2 ^ emin).
Proof. vm_compute. reflexivity. Qed.

(** A count of the sensor as a float. *)
Lemma count_as_float count :
  0 <= count <= 65535 ->
  exists k, of_Z count = Fin k /\ 0 <= k <= 65535 * 2 ^ emin.
Proof.
  intros [Hlo Hhi]. pose proof unit_pos as Hu.
  apply between_finite.
  - unfold of_Z, lit. apply rnd_nonneg; [lia|].
    apply Z.mul_nonneg_nonneg; lia.
  - rewrite <- top_count. unfold of_Z, lit. apply rnd_mono; [lia|].
    apply Z.mul_le_mono_nonneg_r; lia.
Qed.

Lemma two_bytes_count hi lo :
  0 <= hi < 256 -> 0 <= lo < 256 ->
  0 <= Z.lor (Z.shiftl hi 8) lo <= 65535.
Proof.
  intros Hhi Hlo. rewrite Z.shiftl_mul_pow2 by lia.
  change (2 ^ 8) with 256.
  assert (Hnn : 0 <= Z.lor (hi * 256) lo) by (apply Z.lor_nonneg; lia).
  split; [exact Hnn|].
  destruct (Z.eq_dec (Z.lor (hi * 256) lo) 0) as [->|Hne]; [lia|].
  assert (Z.lor (hi * 256) lo < 2 ^ 16);
    [|change (2 ^ 16) with 65536 in *; lia].
  apply Z.log2_lt_pow2; [lia|].
  rewrite Z.log2_lor by lia.
  assert (Z.log2 (hi * 256) < 16).
  { destruct (Z.eq_dec hi 0) as [->|]; [reflexivity|].
    apply Z.log2_lt_pow2; [lia|]. change (2 ^ 16) with 65536. lia. }
  assert (Z.log2 lo < 16).
  { destruct (Z.eq_dec lo 0) as [->|]; [reflexivity|].
    apply Z.log2_lt_pow2; [lia|]. change (2 ^ 16) with 65536. lia. }
  lia.
Qed.

(** The divisor 1.2 and the lux value of the full count. *)
Lemma lux_scale :
  exists d top,
    lit 12 10 = Fin d /\ 0 < d /\
    rnd (65535 * 2 ^ emin * 2 ^ emin) d = Fin top /\
    round (Fin top) 2 = lit 546125 10.
Proof.
  exists (units (lit 12 10)),
         (units (rnd (65535 * 2 ^ emin * 2 ^ emin) (units (lit 12 10)))).
  split; [vm_compute; reflexivity|].
  split; [vm_compute; reflexivity|].
  split; vm_compute; reflexivity.
Qed.

Lemma lux_zero : round (Fin 0) 2 = Fin 0.
Proof. vm_compute. reflexivity. Qed.

(** The division and the rounding on a count, for any divisor. *)
Lemma lux_of_count d top bound k :
  0 < d ->
  rnd (65535 * 2 ^ emin * 2 ^ emin) d = Fin top ->
  round (Fin top) 2 = bound ->
  0 <= k <= 65535 * 2 ^ emin ->
  le (Fin 0) (round (fdiv (Fin k) (Fin d)) 2) /\
  le (round (fdiv (Fin k) (Fin d)) 2) bound.
Proof.
  intros Hd Htop <- Hk. pose proof unit_pos as Hu. cbn [fdiv].
  replace (d =? 0) with false by (symmetry; apply Z.eqb_neq; lia).
  replace (0 <? d) with true by (symmetry; apply Z.ltb_lt; lia).
  destruct (between_finite (rnd (k * 2 ^ emin) d) top) as (q & -> & Hq).
  - apply rnd_nonneg; [lia|nia].
  - rewrite <- Htop. apply rnd_mono; [lia|nia].
  - split.
    + rewrite <- lux_zero at 1. apply round_mono; lia.
    + apply round_mono; lia.
Qed.

(** What [read_bh1750_lux] computes from the two bytes. *)
Lemma read_bh1750_lux_value hw data lux div :
  bh1750_read hw = Returns data ->
  lit 12 10 = div ->
  read_bh1750_lux hw = Ok (Some lux) ->
  exists hi lo count,
    data !! 0%nat = Some hi /\ data !! 1%nat = Some lo /\
    float_of_int (Z.lor (Z.shiftl hi 8) lo) = Ok count /\
    lux = round (fdiv count div) 2.
Proof.
  intros Hdata Hdiv. unfold read_bh1750_lux, byte_at. rewrite Hdiv.
  clear Hdiv.
  destruct (smbus_open hw) as [[]|e]; cbn [call bind try_except];
    [|discriminate].
  destruct (bh1750_write hw) as [[]|e]; cbn [call bind try_except];
    [|discriminate].
  rewrite Hdata. cbn [call bind try_except].
  destruct (data !! 0%nat) as [hi|]; cbn [bind try_except]; [|discriminate].
  destruct (data !! 1%nat) as [lo|]; cbn [bind try_except]; [|discriminate].
  destruct (float_of_int _) as [count|[]] eqn:Hcount; cbn [bind try_except];
    try discriminate.
  unfold float_div. destruct (feq _ _); cbn [bind try_except];
    [discriminate|].
  intros [= <-]. exists hi, lo, count. auto.
Qed.

(** X10: when the two bytes read from the BH1750 are bytes, the lux
    value reported lies between 0 and 54612.5, the value of the full
    count 65535 divided by 1.2. *)
Theorem read_bh1750_lux_range (hw : hardware) (data : list Z)
    (lux : float) :
  bh1750_read hw = Returns data ->
  Forall (fun b => 0 <= b < 256) data ->
  read_bh1750_lux hw = Ok (Some lux) ->
  fle (Fin 0) lux = true /\ fle lux (lit 546125 10) = true.
Proof.
  intros Hdata Hbytes Hlux.
  destruct lux_scale as (d & top & Hd & Hdpos & Htop & Hbound).
  destruct (read_bh1750_lux_value hw data lux (Fin d) Hdata Hd Hlux)
    as (hi & lo & count & Hhi & Hlo & Hcount & ->).
  rewrite Forall_lookup in Hbytes.
  pose proof (two_bytes_count hi lo (Hbytes _ _ Hhi) (Hbytes _ _ Hlo)) as Hc.
  destruct (count_as_float _ Hc) as (k & Hk & Hrange).
  unfold float_of_int in Hcount. rewrite Hk in Hcount.
  injection Hcount as <-.
  exact (lux_of_count d top _ k Hdpos Htop Hbound Hrange).
Qed.

Import Examples.

Lemma read_bh1750_lux_range_witness :
  bh1750_read (Examples.healthy (lit 111 100)) = Returns [1; 44] /\
  Forall (fun b => 0 <= b < 256) [1; 44] /\
  read_bh1750_lux (Examples.healthy (lit 111 100)) = Ok (Some (lit 250 1)) /\
  fle (lit 250 1) (lit 546125 10) = true.
Proof.
  assert (Hb : Forall (fun b => 0 <= b < 256) [1; 44])
    by (repeat constructor; lia).
  assert (Hr : read_bh1750_lux (Examples.healthy (lit 111 100)) =
               Ok (Some (lit 250 1))) by (vm_compute; reflexivity).
  split; [reflexivity|]. split; [exact Hb|]. split; [exact Hr|].
  exact (proj2 (read_bh1750_lux_range (Examples.healthy (lit 111 100))
                  [1; 44] (lit 250 1) eq_refl Hb Hr)).
Defined.

Lemma read_ds18b20_temp_checked_witness :
  read_ds18b20_temp (Examples.healthy (lit 111 100)) =
  Ok (Some (fdiv (lit 23125 1) (of_Z 1000))).
Proof.
  apply (proj2 (read_ds18b20_temp_checked (Examples.healthy (lit 111 100)) _)).
  split; [eexists; split; [reflexivity|discriminate]|].
  eexists _, _, _, _, _. repeat split; reflexivity.
Defined.

End ReadersMoreFacts.

(** ** Pruning of old images *)
Module HousekeepingFacts.
Import Float Py Notions MoreNotions Housekeeping.

Lemma prune_elem_of cutoff folder name f :
  (name, f) ∈ prune cutoff folder <->
  (name, f) ∈ folder /\ ~ pruned cutoff name f.
Proof.
  induction folder as [|[n g] rest IH]; cbn [prune].
  - split; [intros Hin|intros [Hin _]]; inversion Hin.
  - assert (Hgone :
      (matches_jpg n &&
       match mtime g with
       | Some t => flt t cutoff && removable g
       | None => false
       end) = true <-> pruned cutoff n g).
    { unfold pruned. rewrite andb_true_iff. split.
      - intros [Hm Ht]. split; [exact Hm|].
        destruct (mtime g) as [t|]; [|discriminate].
        apply andb_true_iff in Ht. exists t. tauto.
      - intros [Hm (t & -> & Hold & Hrm)]. split; [exact Hm|].
        rewrite Hold, Hrm. reflexivity. }
    destruct (matches_jpg n && _) eqn:E.
    + rewrite IH, elem_of_cons. split.
      * tauto.
      * intros [[Heq|Hin] Hkeep]; [|tauto].
        injection Heq as -> ->. exfalso. apply Hkeep, Hgone. reflexivity.
    + rewrite !elem_of_cons, IH. split.
      * intros [Heq|[Hin Hkeep]]; [|tauto].
        injection Heq as -> ->. split; [now left|].
        intros Hp. apply Hgone in Hp. discriminate.
      * tauto.
Qed.

Lemma prune_sublist cutoff folder : sublist (prune cutoff folder) folder.
Proof.
  induction folder as [|[n g] rest IH]; cbn [prune]; [constructor|].
  destruct (matches_jpg n && _); constructor; exact IH.
Qed.

Lemma three_months : float_of_int (3 * 30 * 24 * 3600) = Ok (of_Z 7776000).
Proof. vm_compute. reflexivity. Qed.

(** X11: [cleanup_old_images] with its three months never raises.  What
    it removes are exactly the visible [.jpg] files with a readable time
    stamp more than 7776000 s before [now] whose removal succeeds; every
    other file stays, in its place. *)
Theorem cleanup_old_images_keeps (now : float)
    (folder : list (string * entry)) :
  exists left,
    cleanup_old_images now 3 folder = Ok left /\
    sublist left folder /\
    forall name f,
      (name, f) ∈ left <->
      (name, f) ∈ folder /\ ~ pruned (fsub now (of_Z 7776000)) name f.
Proof.
  unfold cleanup_old_images. rewrite three_months. cbn [bind].
  eexists. split; [reflexivity|]. split; [apply prune_sublist|].
  intros name f. apply prune_elem_of.
Qed.

End HousekeepingFacts.

(** ** The polling loop in both modes *)
Module RunFacts.
Import Float Py World Sensors Logger Notions MoreNotions.
Import FloatFacts SensorsFacts ReadersFacts RelayOpsFacts.

Lemma grown_zero w : grown 0 w w.
Proof.
  exists (@nil log_row). split; [reflexivity|].
  rewrite app_nil_r. now destruct w.
Qed.

Lemma grown_trans n m w1 w2 w3 :
  grown n w1 w2 -> grown m w2 w3 -> grown (n + m) w1 w3.
Proof.
  intros (r1 & <- & ->) (r2 & <- & ->). exists (r1 ++ r2). split.
  - apply length_app.
  - unfold with_logs. cbn. rewrite app_assoc. reflexivity.
Qed.

Section Loop.
Context `{Builtins}.

Lemma read_percent_total calib v :
  exists p, read_soil_percent_from_voltage calib v = Ok p.
Proof.
  destruct (load_calibration_total calib) as [c Hload].
  rewrite (read_percent_of _ _ _ Hload).
  destruct (percent_of_range c v) as (p & -> & _). eauto.
Qed.

Lemma dht_total hw :
  exists ht, try_except (call (dht_read_retry hw)) (fun _ => Ok (None, None)) =
             Ok ht.
Proof. destruct (dht_read_retry hw); cbn [call try_except]; eauto. Qed.

(** A cycle whose soil read returns. *)
Lemma run_logger_tick_run (cold_first : bool) (i : tick_input) (w : world) rv :
  (if cold_first then read_soil_raw_fresh (hw i)
   else read_soil_raw_shared (hw i)) = Ok rv ->
  exists row,
    run_logger_tick cold_first i w =
    (match nap i with Some r => Raise r | None => Ok tt end,
     with_logs (logs w ++ [row]) w) /\
    timestamp row = tick_timestamp i /\
    soil_raw row = fst rv /\
    soil_voltage row = round_opt (snd rv) /\
    (exists p, read_soil_percent_from_voltage (calib_file w) (snd rv) = Ok p /\
               soil_percent row = Some (round p 3)).
Proof.
  intros Hsoil. unfold run_logger_tick, bindM, lift, get.
  destruct (read_bh1750_lux_total (hw i)) as [lux ->].
  rewrite Hsoil.
  destruct (read_percent_total (calib_file w) (snd rv)) as [p Hp]. rewrite Hp.
  destruct (dht_total (hw i)) as [ht ->].
  destruct (read_ds18b20_temp_total (hw i)) as [temp ->].
  unfold Database.insert_log, modify, sleep.
  eexists. split.
  - destruct (nap i); reflexivity.
  - cbn [timestamp soil_raw soil_voltage soil_percent round_opt].
    split; [reflexivity|]. split; [reflexivity|]. split; [reflexivity|].
    exists p. split; reflexivity.
Qed.


(** When the insert succeeds the cycle is the one of [Logger]. *)
Lemma tick_inserted (cold_first : bool) (c : LoggerIO.cycle) (w : world) :
  LoggerIO.insert c = Returns tt ->
  LoggerIO.run_logger_tick cold_first c w =
  run_logger_tick cold_first (LoggerIO.inputs c) w.
Proof.
  intros Hins. unfold LoggerIO.run_logger_tick, run_logger_tick.
  rewrite Hins. reflexivity.
Qed.


(** X13: a soil probe that cannot be read in cold mode is stored as 0 %,
    with raw count and voltage absent; on that reading, and with no
    watering on record, the watering decision is to water. *)
Theorem failed_probe_stored_as_zero (i : tick_input) (w : world) :
  read_soil_raw_fresh (hw i) = Ok (None, None) ->
  exists row,
    logs (snd (run_logger_tick true i w)) = logs w ++ [row] /\
    soil_raw row = None /\ soil_voltage row = None /\
    soil_percent row = Some (Fin 0) /\
    forall now, should_water Absent now (soil_percent row) = Ok true.
Proof.
  intros Hrv.
  destruct (run_logger_tick_run true i w _ Hrv)
    as (row & Hrun & _ & Hraw & Hvolt & p & Hp & Hpct).
  exists row. rewrite Hrun. cbn [snd logs with_logs fst round_opt] in *.
  destruct (load_calibration_total (calib_file w)) as [c Hload].
  rewrite (read_percent_of _ _ _ Hload), percent_of_absent in Hp.
  injection Hp as <-. rewrite round3_zero in Hpct.
  repeat split; try assumption.
  intros now. rewrite Hpct. vm_compute. reflexivity.
Qed.

(** The loop while the soil read returns and no sleep is interrupted, in
    either mode. *)
Lemma loop_run (cold_first : bool) (ticks : list tick_input) (w : world) :
  Forall (fun i : tick_input =>
            (exists rv, (if cold_first then read_soil_raw_fresh (hw i)
                         else read_soil_raw_shared (hw i)) = Ok rv) /\
            nap i = None) ticks ->
  exists w', run_logger_loop cold_first ticks w = (Ok tt, w') /\
             grown (length ticks) w w'.
Proof.
  intros Hok. revert w.
  induction Hok as [|i rest [[rv Hrv] Hnap] _ IH]; intros w.
  - exists w. split; [reflexivity|apply grown_zero].
  - cbn [run_logger_loop]. unfold bindM.
    destruct (run_logger_tick_run cold_first i w rv Hrv) as (row & -> & _).
    rewrite Hnap.
    destruct (IH (with_logs (logs w ++ [row]) w)) as (w' & -> & Hg).
    exists w'. split; [reflexivity|].
    apply (grown_trans 1 _ w (with_logs (logs w ++ [row]) w) w'); [|exact Hg].
    exists [row]. split; reflexivity.
Qed.

(** The loop up to the cycle [last] that ends it. *)
Lemma loop_app (cold_first : bool) (pre rest : list tick_input) (last : tick_input)
    (w w1 : world) r w2 :
  run_logger_loop cold_first pre w = (Ok tt, w1) ->
  run_logger_tick cold_first last w1 = (Raise r, w2) ->
  run_logger_loop cold_first (pre ++ last :: rest) w = (Raise r, w2).
Proof.
  revert w. induction pre as [|i pre IH]; intros w Hpre Hlast.
  - cbn in Hpre. injection Hpre as ->.
    cbn [app run_logger_loop]. unfold bindM. rewrite Hlast. reflexivity.
  - cbn [app run_logger_loop] in *. unfold bindM in *.
    destruct (run_logger_tick cold_first i w) as [[[]|r'] w'];
      [|discriminate Hpre].
    apply IH; assumption.
Qed.

(** What start-up leaves: the status marker written, both relays off. *)
Lemma run_logger_unfold (cold_first : bool) status ticks w :
  relays_set_up w ->
  run_logger cold_first status ticks w =
  let w1 := relays_after false false
              (with_status (Present (Returns status)) w) in
  match run_logger_loop cold_first ticks w1 with
  | (Ok _, w') => (Ok tt, w')
  | (Raise KeyboardInterrupt, w') =>
      (Ok tt, with_status Absent (with_gpio ∅ (gpio_writes w') w'))
  | (Raise r, w') =>
      (Raise r, with_status Absent (with_gpio ∅ (gpio_writes w') w'))
  end.
Proof.
  intros Hw. unfold run_logger, bindM at 1 2, modify at 1.
  rewrite (init_relays_run (with_status (Present (Returns status)) w) Hw).
  cbv zeta.
  destruct (run_logger_loop _ _ _) as [[[]|[e| |]] w']; reflexivity.
Qed.

Lemma grown_fields n w w' :
  grown n w w' ->
  length (logs w') = (length (logs w) + n)%nat /\
  gpio w' = gpio w /\ gpio_writes w' = gpio_writes w /\
  status_file w' = status_file w /\
  last_watering_file w' = last_watering_file w.
Proof.
  intros (rows & <- & ->). cbn. rewrite length_app. auto.
Qed.

(** While every insert succeeds the loop is the one of [Logger]. *)
Lemma loop_inserted (cold_first : bool) (cycles : list LoggerIO.cycle)
    (w : world) :
  Forall (fun c => LoggerIO.insert c = Returns tt) cycles ->
  LoggerIO.run_logger_loop cold_first cycles w =
  run_logger_loop cold_first (map LoggerIO.inputs cycles) w.
Proof.
  intros Hall. revert w. induction Hall as [|c rest Hc _ IH]; intros w.
  - reflexivity.
  - cbn [LoggerIO.run_logger_loop run_logger_loop map]. unfold bindM.
    rewrite (tick_inserted cold_first c w Hc).
    destruct (run_logger_tick cold_first (LoggerIO.inputs c) w)
      as [[[]|r] w1]; [apply IH|reflexivity].
Qed.

(** What start-up leaves when the status file is written: the marker
    in place and both relays off; then the database and the folder. *)
Lemma run_logger_start (start : LoggerIO.startup) (cold_first : bool)
    status cycles w :
  relays_set_up w ->
  LoggerIO.status_written start = Returns tt ->
  LoggerIO.run_logger start cold_first status cycles w =
  let w1 := relays_after false false
              (with_status (Present (Returns status)) w) in
  match LoggerIO.db_opened start, LoggerIO.dirs_made start with
  | Throws e, _ => (Raise (Exc e), w1)
  | Returns _, Throws e => (Raise (Exc e), w1)
  | Returns _, Returns _ =>
      match LoggerIO.run_logger_loop cold_first cycles w1 with
      | (Ok _, w') => (Ok tt, w')
      | (Raise KeyboardInterrupt, w') =>
          (Ok tt, with_status Absent (with_gpio ∅ (gpio_writes w') w'))
      | (Raise r, w') =>
          (Raise r, with_status Absent (with_gpio ∅ (gpio_writes w') w'))
      end
  end.
Proof.
  intros Hw Hst. unfold LoggerIO.run_logger. rewrite Hst.
  unfold bindM at 1 2, modify at 1.
  rewrite (init_relays_run (with_status (Present (Returns status)) w) Hw).
  cbv zeta. unfold bindM at 1, lift at 1.
  destruct (LoggerIO.db_opened start) as [[]|e]; cbn [call]; [|reflexivity].
  unfold bindM at 1, lift at 1.
  destruct (LoggerIO.dirs_made start) as [[]|e]; cbn [call]; [|reflexivity].
  destruct (LoggerIO.run_logger_loop _ _ _) as [[[]|[e| |]] w']; reflexivity.
Qed.

(** X14: once the statements before the loop have succeeded (the status
    file, the relays, the database, the image folder), and while the
    soil read returns, every insert succeeds and nothing interrupts the
    sleeps, [run_logger] stays in its loop: every cycle has stored its
    row, the status marker written at start-up is in place and both
    relays are off. *)
Theorem run_logger_while_running (start : LoggerIO.startup)
    (cold_first : bool) (status : string) (cycles : list LoggerIO.cycle)
    (w : world) :
  relays_set_up w ->
  LoggerIO.status_written start = Returns tt ->
  LoggerIO.db_opened start = Returns tt ->
  LoggerIO.dirs_made start = Returns tt ->
  Forall (fun c : LoggerIO.cycle =>
            (exists rv,
               (if cold_first
                then read_soil_raw_fresh (hw (LoggerIO.inputs c))
                else read_soil_raw_shared (hw (LoggerIO.inputs c))) = Ok rv) /\
            nap (LoggerIO.inputs c) = None /\
            LoggerIO.insert c = Returns tt) cycles ->
  let r := LoggerIO.run_logger start cold_first status cycles w in
  fst r = Ok tt /\
  length (logs (snd r)) = (length (logs w) + length cycles)%nat /\
  status_file (snd r) = Present (Returns status) /\
  gpio (snd r) !! Config.RELAY1 = Some HIGH /\
  gpio (snd r) !! Config.RELAY2 = Some HIGH.
Proof.
  intros Hw Hst Hdb Hdirs Hok r. subst r.
  rewrite (run_logger_start start cold_first status cycles w Hw Hst).
  rewrite Hdb, Hdirs. cbv zeta.
  rewrite loop_inserted
    by (eapply Forall_impl; [exact Hok|]; intros c (_ & _ & Hc); exact Hc).
  assert (Hticks :
    Forall (fun i : tick_input =>
              (exists rv, (if cold_first then read_soil_raw_fresh (hw i)
                           else read_soil_raw_shared (hw i)) = Ok rv) /\
              nap i = None) (map LoggerIO.inputs cycles)).
  { apply Forall_fmap. eapply Forall_impl; [exact Hok|].
    intros c (Hrv & Hnap & _). split; assumption. }
  destruct (loop_run cold_first (map LoggerIO.inputs cycles)
              (relays_after false false
                 (with_status (Present (Returns status)) w)) Hticks)
    as (w' & -> & Hg).
  apply grown_fields in Hg. destruct Hg as (Hlen & Hgpio & _ & Hstat & _).
  cbn [fst snd]. split; [reflexivity|].
  split; [rewrite Hlen, length_map; reflexivity|]. split; [exact Hstat|].
  rewrite Hgpio. apply (relays_after_levels false false).
Qed.

(** X28: when opening the database or making the image folder raises,
    [run_logger] ends before its [try]: the exception leaves the
    function with no cycle run, and nothing is cleaned up, so that the
    pins stay claimed and the status file keeps the text of a running
    logger, which the status route goes on to show. *)
Theorem run_logger_startup_failure (start : LoggerIO.startup)
    (cold_first : bool) (status : string) (cycles : list LoggerIO.cycle)
    (w : world) (e : exception) :
  relays_set_up w ->
  LoggerIO.status_written start = Returns tt ->
  LoggerIO.db_opened start = Throws e \/
  (LoggerIO.db_opened start = Returns tt /\
   LoggerIO.dirs_made start = Throws e) ->
  let r := LoggerIO.run_logger start cold_first status cycles w in
  fst r = Raise (Exc e) /\
  logs (snd r) = logs w /\
  gpio (snd r) !! Config.RELAY1 = Some HIGH /\
  gpio (snd r) !! Config.RELAY2 = Some HIGH /\
  status_file (snd r) = Present (Returns status) /\
  Supervisor.api_status (snd r) = Ok (strip status).
Proof.
  intros Hw Hst Hfail r. subst r.
  rewrite (run_logger_start start cold_first status cycles w Hw Hst).
  cbv zeta.
  assert (Hout :
    match LoggerIO.db_opened start, LoggerIO.dirs_made start with
    | Throws e0, _ => (Raise (Exc e0), relays_after false false
                         (with_status (Present (Returns status)) w))
    | Returns _, Throws e0 =>
        (Raise (Exc e0), relays_after false false
           (with_status (Present (Returns status)) w))
    | Returns _, Returns _ =>
        match LoggerIO.run_logger_loop cold_first cycles
                (relays_after false false
                   (with_status (Present (Returns status)) w)) with
        | (Ok _, w') => (Ok tt, w')
        | (Raise KeyboardInterrupt, w') =>
            (Ok tt, with_status Absent (with_gpio ∅ (gpio_writes w') w'))
        | (Raise r, w') =>
            (Raise r, with_status Absent (with_gpio ∅ (gpio_writes w') w'))
        end
    end =
    (Raise (Exc e),
     relays_after false false (with_status (Present (Returns status)) w))).
  { destruct Hfail as [->|[-> ->]]; reflexivity. }
  rewrite Hout. cbn [fst snd].
  split; [reflexivity|]. split; [reflexivity|].
  pose proof (relays_after_levels false false
                (with_status (Present (Returns status)) w)) as [H1 H2].
  split; [exact H1|]. split; [exact H2|]. split; reflexivity.
Qed.

(** X15: a [KeyboardInterrupt] in the sleep of a cycle stops
    [run_logger] in good order: it returns normally, the interrupted
    cycle has stored its row like the ones before it, the pins are
    released and the status marker is removed. *)
Theorem run_logger_interrupted (cold_first : bool) (status : string)
    (pre rest : list tick_input) (last : tick_input) (w : world) :
  relays_set_up w ->
  Forall (fun i : tick_input =>
            (exists rv, (if cold_first then read_soil_raw_fresh (hw i)
                         else read_soil_raw_shared (hw i)) = Ok rv) /\
            nap i = None) pre ->
  (exists rv, (if cold_first then read_soil_raw_fresh (hw last)
               else read_soil_raw_shared (hw last)) = Ok rv) ->
  nap last = Some KeyboardInterrupt ->
  let w' := snd (run_logger cold_first status (pre ++ last :: rest) w) in
  fst (run_logger cold_first status (pre ++ last :: rest) w) = Ok tt /\
  length (logs w') = (length (logs w) + length pre + 1)%nat /\
  status_file w' = Absent /\
  gpio w' = ∅.
Proof.
  intros Hw Hok [rv Hrv] Hnap w'. subst w'.
  rewrite (run_logger_unfold cold_first status _ w Hw). cbv zeta.
  set (w1 := relays_after false false
               (with_status (Present (Returns status)) w)).
  destruct (loop_run cold_first pre w1 Hok) as (w2 & Hpre & Hg).
  destruct (run_logger_tick_run cold_first last w2 rv Hrv)
    as (row & Hlast & _).
  rewrite Hnap in Hlast.
  rewrite (loop_app cold_first pre rest last w1 w2 _ _ Hpre Hlast).
  apply grown_fields in Hg. destruct Hg as (Hlen & _).
  cbn [fst snd logs with_logs with_status with_gpio status_file gpio].
  split; [reflexivity|]. split; [|split; reflexivity].
  rewrite length_app, Hlen. cbn. lia.
Qed.

(** X16: in shared mode an error of the ADC ends [run_logger]: the
    exception leaves the function, the failing cycle stores no row, and
    on the way out the pins are released and the status marker is
    removed. *)
Theorem run_logger_shared_failure (status : string)
    (pre rest : list tick_input) (failing : tick_input) (w : world)
    (e : exception) :
  relays_set_up w ->
  Forall (fun i : tick_input =>
            (exists rv, read_soil_raw_shared (hw i) = Ok rv) /\
            nap i = None) pre ->
  read_soil_raw_shared (hw failing) = Raise (Exc e) ->
  let w' := snd (run_logger false status (pre ++ failing :: rest) w) in
  fst (run_logger false status (pre ++ failing :: rest) w) = Raise (Exc e) /\
  length (logs w') = (length (logs w) + length pre)%nat /\
  status_file w' = Absent /\
  gpio w' = ∅.
Proof.
  intros Hw Hok Hfail w'. subst w'.
  rewrite (run_logger_unfold false status _ w Hw). cbv zeta.
  set (w1 := relays_after false false
               (with_status (Present (Returns status)) w)).
  destruct (loop_run false pre w1 Hok) as (w2 & Hpre & Hg).
  assert (Htick : run_logger_tick false failing w2 = (Raise (Exc e), w2)).
  { unfold run_logger_tick, bindM, lift.
    destruct (read_bh1750_lux_total (hw failing)) as [lux ->].
    rewrite Hfail. reflexivity. }
  rewrite (loop_app false pre rest failing w1 w2 _ _ Hpre Htick).
  apply grown_fields in Hg. destruct Hg as (Hlen & _).
  cbn [fst snd logs with_logs with_status with_gpio status_file gpio].
  split; [reflexivity|]. split; [|split; reflexivity].
  rewrite Hlen. reflexivity.
Qed.

End Loop.

Import Examples MoreExamples.

Lemma fresh_set_up : relays_set_up fresh_world.
Proof. split; eexists; reflexivity. Qed.

Lemma failed_probe_stored_as_zero_witness :
  read_soil_raw_fresh
    (hw adc_timeout_tick) = Ok (None, None) /\
  exists row,
    logs (snd (run_logger_tick true
                 adc_timeout_tick
                 fresh_world)) = logs fresh_world ++ [row] /\
    soil_percent row = Some (Fin 0).
Proof.
  split; [reflexivity|].
  destruct (failed_probe_stored_as_zero
              adc_timeout_tick
              fresh_world eq_refl) as (row & Hlogs & _ & _ & Hpct & _).
  exists row. split; assumption.
Defined.

Lemma dry_soil_tick_ok :
  (exists rv, read_soil_raw_shared (hw dry_soil_tick) = Ok rv) /\
  nap dry_soil_tick = None.
Proof. split; [eexists|]; reflexivity. Qed.

Lemma run_logger_while_running_witness :
  relays_set_up fresh_world /\
  status_file
    (snd (LoggerIO.run_logger good_start false
            "01.06.2025. u 08:00:00 (PID: 4711)"
            [stored_cycle; stored_cycle] fresh_world)) =
  Present (Returns "01.06.2025. u 08:00:00 (PID: 4711)").
Proof.
  split; [exact fresh_set_up|].
  apply (run_logger_while_running good_start false _
           [stored_cycle; stored_cycle] fresh_world fresh_set_up);
    try reflexivity.
  repeat constructor; try apply dry_soil_tick_ok.
Defined.

(** The database cannot be opened. *)
Lemma run_logger_startup_failure_witness :
  relays_set_up fresh_world /\
  Supervisor.api_status
    (snd (LoggerIO.run_logger no_database true
            "01.06.2025. u 08:00:00 (PID: 4711)"
            [stored_cycle] fresh_world)) =
  Ok "01.06.2025. u 08:00:00 (PID: 4711)".
Proof.
  split; [exact fresh_set_up|].
  destruct (run_logger_startup_failure no_database true
              "01.06.2025. u 08:00:00 (PID: 4711)" [stored_cycle]
              fresh_world OSError fresh_set_up eq_refl (or_introl eq_refl))
    as (_ & _ & _ & _ & _ & Hshown).
  rewrite Hshown. reflexivity.
Defined.

(** The second cycle is interrupted in its sleep. *)
Lemma run_logger_interrupted_witness :
  relays_set_up fresh_world /\
  status_file
    (snd (run_logger false "01.06.2025. u 08:00:00 (PID: 4711)"
            ([dry_soil_tick] ++
             interrupted_tick :: [])
            fresh_world)) = Absent.
Proof.
  split; [exact fresh_set_up|].
  apply (run_logger_interrupted false _ [dry_soil_tick] [] _ fresh_world
           fresh_set_up).
  - repeat constructor; apply dry_soil_tick_ok.
  - eexists; reflexivity.
  - reflexivity.
Defined.

(** The ADC stops answering in the second cycle. *)
Lemma run_logger_shared_failure_witness :
  relays_set_up fresh_world /\
  fst (run_logger false "01.06.2025. u 08:00:00 (PID: 4711)"
         ([dry_soil_tick] ++
          adc_timeout_tick :: [])
         fresh_world) = Raise (Exc OSError).
Proof.
  split; [exact fresh_set_up|].
  apply (run_logger_shared_failure _ [dry_soil_tick] [] _ fresh_world OSError
           fresh_set_up).
  - repeat constructor; apply dry_soil_tick_ok.
  - reflexivity.
Defined.

End RunFacts.

(** ** The sensor route and the relay route on requests they refuse *)
Module RoutesFacts.
Import Float Py World Sensors Webserver SensorRoute Notions MoreNotions.
Import FloatFacts SensorsFacts ReadersFacts CalibrateFacts.

Section Routes.
Context `{Builtins}.

Lemma known_type (t : string) :
  t ∈ ["ads"; "dht"; "ds18b20"; "bh1750"] <->
  (t =? "ads")%string || (t =? "dht")%string || (t =? "ds18b20")%string ||
  (t =? "bh1750")%string = true.
Proof.
  rewrite !orb_true_iff, !String.eqb_eq, !elem_of_cons, elem_of_nil. tauto.
Qed.

(** X17: the sensor route never answers 500 and never raises: the four
    sensor types are answered with 200, whatever the hardware does, any
    other type with 400; the moisture of an [ads] answer lies between 0
    and 100. *)
Theorem api_sensor_read_answers (type : option string)
    (hw hw_again : hardware) (calib : file json) :
  exists code b,
    api_sensor_read type hw hw_again calib = Ok (code, b) /\
    (code = 200 \/ code = 400) /\
    (code = 200 <->
     default "ads" type ∈ ["ads"; "dht"; "ds18b20"; "bh1750"]) /\
    (code = 200 -> exists r, b = Reading r) /\
    (forall raw v p, b = Reading (Ads raw v p) ->
       fle (Fin 0) p = true /\ fle p (of_Z 100) = true).
Proof.
  unfold api_sensor_read.
  set (t := default "ads" type). clearbody t.
  pose proof (known_type t) as Hk.
  destruct (t =? "ads")%string eqn:Hads.
  { destruct (read_soil_raw_total hw) as [rv ->]. cbn [bind].
    destruct (read_soil_percent_bounds hw_again calib (snd rv))
      as (p & -> & Hlo & Hhi).
    cbn [bind try_except]. exists 200, (Reading (Ads (fst rv) (snd rv) p)).
    split; [reflexivity|]. split; [now left|]. split; [tauto|].
    split; [eauto|]. intros raw v p' Heq. injection Heq as _ _ <-. auto. }
  destruct (t =? "dht")%string eqn:Hdht.
  { destruct (test_dht_total hw) as [th ->]. cbn [bind try_except].
    eexists 200, _. split; [reflexivity|]. split; [now left|].
    split; [tauto|]. split; [eauto|]. discriminate. }
  destruct (t =? "ds18b20")%string eqn:Hds.
  { destruct (read_ds18b20_temp_total hw) as [temp ->]. cbn [bind try_except].
    eexists 200, _. split; [reflexivity|]. split; [now left|].
    split; [tauto|]. split; [eauto|]. discriminate. }
  destruct (t =? "bh1750")%string eqn:Hbh.
  { destruct (read_bh1750_lux_total hw) as [lux ->]. cbn [bind try_except].
    eexists 200, _. split; [reflexivity|]. split; [now left|].
    split; [tauto|]. split; [eauto|]. discriminate. }
  cbn [try_except orb] in *. exists 400, UnknownType.
  split; [reflexivity|]. split; [now right|].
  split; [split; [discriminate|intros Hin; apply Hk in Hin; discriminate]|].
  split; discriminate.
Qed.

Lemma relay_name_unknown (n : Z) :
  n <> 1 -> n <> 2 -> Config.relay_attributes !! ("RELAY" +:+ pretty n) = None.
Proof.
  intros H1 H2. unfold Config.relay_attributes.
  rewrite lookup_insert_ne.
  - apply lookup_singleton_ne.
    change "RELAY2" with ("RELAY" +:+ pretty 2). intros Heq.
    apply (inj (String.append "RELAY")) in Heq.
    apply (inj pretty) in Heq. congruence.
  - change "RELAY1" with ("RELAY" +:+ pretty 1). intros Heq.
    apply (inj (String.append "RELAY")) in Heq.
    apply (inj pretty) in Heq. congruence.
Qed.

(** X18: a toggle request that names a relay other than 1 and 2 is
    refused: the answer has [ok] false, no pin is written and no row is
    stored. *)
Theorem api_relay_toggle_unknown_relay (ts : string) (data : json)
    (store : outcome unit) (relay_num : Z) (w : world) :
  (v <- dict_get data "relay" ;; py_int v)%res = Ok relay_num ->
  relay_num <> 1 -> relay_num <> 2 ->
  api_relay_toggle ts (Returns data) store w = (Ok false, w).
Proof.
  intros Hnum H1 H2.
  unfold api_relay_toggle, try_exceptM, bindM, lift. cbn [call].
  rewrite Hnum.
  destruct data as [| | | | | |d]; try discriminate Hnum.
  cbn [dict_get bind]. unfold getattr_config.
  rewrite (relay_name_unknown relay_num H1 H2). reflexivity.
Qed.

End Routes.

Import Examples.

Lemma api_relay_toggle_unknown_relay_witness :
  api_relay_toggle "2025-06-01 08:00:00" (toggle_body 3 true) (Returns tt)
    fresh_world =
  (Ok false, fresh_world).
Proof.
  apply (api_relay_toggle_unknown_relay _ _ _ 3); [reflexivity|lia|lia].
Defined.

End RoutesFacts.

(** ** Deleting rows by id: the route and the command line *)
Module IdsFacts.
Import Py World Ids Notions MoreNotions.

Lemma delete_ids_same l1 l2 st :
  (forall n, n ∈ l1 <-> n ∈ l2) -> delete_ids l1 st = delete_ids l2 st.
Proof.
  intros Hsame. unfold delete_ids. f_equal.
  apply list_filter_iff. intros [id row]. cbn. rewrite Hsame. reflexivity.
Qed.

Lemma delete_ids_nil st : delete_ids [] st = st.
Proof.
  destruct st as [t q]. unfold delete_ids. cbn. f_equal.
  induction t as [|r t IH]; [reflexivity|].
  rewrite filter_cons_True by apply not_elem_of_nil. now rewrite IH.
Qed.

Lemma elem_of_sorted_set (l : list Z) n :
  n ∈ merge_sort Z.le (remove_dups l) <-> n ∈ l.
Proof. rewrite merge_sort_Permutation. apply elem_of_remove_dups. Qed.

Lemma elem_of_range_incl a b n : n ∈ range_incl a b <-> a <= n <= b.
Proof. unfold range_incl. rewrite elem_of_seqZ. lia. Qed.

Section Parsers.
Context `{Builtins}.

Lemma int_exc s r : int_ s = Raise r -> r = Exc ValueError.
Proof. unfold int_. destruct (int_of_str s); congruence. Qed.

Lemma int_ok s z : int_ s = Ok z <-> int_of_str s = Some z.
Proof. unfold int_. destruct (int_of_str s); split; congruence. Qed.

(** The two loop bodies differ in how they unpack the two ends of a
    range, not in what they return or raise. *)
Lemma cli_part_web_part part : cli_part part = web_part part.
Proof.
  unfold cli_part, web_part, unpack_two, int_.
  destruct (contains "-" (strip part)); [|reflexivity].
  destruct (split_on "-" (strip part)) as [|p0 [|p1 [|p2 rest]]];
    cbn [bind]; try reflexivity.
  - destruct (int_of_str p0); reflexivity.
  - destruct (int_of_str p0); [|reflexivity]. cbn [bind].
    destruct (int_of_str p1); reflexivity.
  - destruct (int_of_str p0); [|reflexivity]. cbn [bind].
    destruct (int_of_str p1); [|reflexivity]. cbn [bind].
    destruct (int_of_str p2); reflexivity.
Qed.

Lemma web_part_exc part r : web_part part = Raise r -> r = Exc ValueError.
Proof.
  unfold web_part, int_.
  destruct (contains "-" (strip part)).
  - destruct (split_on "-" (strip part)) as [|p0 [|p1 [|p2 rest]]];
      try congruence.
    destruct (int_of_str p0); [|cbn; congruence]. cbn [bind].
    destruct (int_of_str p1); cbn; congruence.
  - destruct (int_of_str (strip part)); cbn; congruence.
Qed.

Lemma web_part_names part ids :
  web_part part = Ok ids -> forall n, n ∈ ids <-> names part n.
Proof.
  unfold web_part, names, int_. cbv zeta.
  destruct (contains "-" (strip part)).
  - destruct (split_on "-" (strip part)) as [|p0 [|p1 [|p2 rest]]];
      try discriminate.
    destruct (int_of_str p0) as [x|] eqn:Hx; [|discriminate]. cbn [bind].
    destruct (int_of_str p1) as [y|] eqn:Hy; [|discriminate]. cbn [bind].
    intros [= <-] n. rewrite elem_of_range_incl. split.
    + intros Hn. exists p0, p1, x, y. auto.
    + intros (a & b & x' & y' & [= <- <-] & Hx' & Hy' & Hn).
      rewrite Hx in Hx'. rewrite Hy in Hy'.
      injection Hx' as <-. injection Hy' as <-. exact Hn.
  - destruct (int_of_str (strip part)) as [z|]; [|discriminate]. cbn [bind].
    intros [= <-] n. rewrite list_elem_of_singleton.
    split; [intros ->; reflexivity|intros [= ->]; reflexivity].
Qed.

Lemma names_web_part part n : names part n -> never_raises (web_part part).
Proof.
  unfold web_part, names, never_raises, int_. cbv zeta.
  destruct (contains "-" (strip part)).
  - intros (a & b & x & y & -> & -> & -> & _). cbn. eauto.
  - intros ->. cbn. eauto.
Qed.

Lemma collect_ext f g parts acc :
  (forall p, f p = g p) -> collect f parts acc = collect g parts acc.
Proof.
  intros Hfg. revert acc. induction parts as [|p parts IH]; intros acc.
  - reflexivity.
  - cbn. rewrite Hfg. destruct (g p); cbn; [apply IH|reflexivity].
Qed.

Lemma collect_total f parts acc :
  Forall (fun p => never_raises (f p)) parts ->
  never_raises (collect f parts acc).
Proof.
  intros Hall. revert acc.
  induction Hall as [|p parts [ids Hp] _ IH]; intros acc.
  - exists acc. reflexivity.
  - cbn. rewrite Hp. cbn. apply IH.
Qed.

Lemma collect_elem_of f parts acc l :
  collect f parts acc = Ok l ->
  forall n, n ∈ l <->
            n ∈ acc \/ exists p ids, p ∈ parts /\ f p = Ok ids /\ n ∈ ids.
Proof.
  revert acc. induction parts as [|p parts IH]; intros acc Hl n.
  - cbn in Hl. injection Hl as <-. split; [auto|].
    intros [Hn|(p & ids & Hp & _)]; [exact Hn|].
    now apply elem_of_nil in Hp.
  - cbn in Hl. destruct (f p) as [ids|r] eqn:Hp; [|discriminate].
    cbn in Hl. rewrite (IH _ Hl n), elem_of_app. split.
    + intros [[Hn|Hn]|(q & ids' & Hq & Hfq & Hn)].
      * now left.
      * right. exists p, ids. split; [apply list_elem_of_here|auto].
      * right. exists q, ids'. split; [now apply list_elem_of_further|auto].
    + intros [Hn|(q & ids' & Hq & Hfq & Hn)]; [auto|].
      apply elem_of_cons in Hq. destruct Hq as [->|Hq].
      * rewrite Hp in Hfq. injection Hfq as <-. auto.
      * right. exists q, ids'. auto.
Qed.

Lemma collect_fails f parts acc p :
  p ∈ parts -> ~ never_raises (f p) ->
  (forall q r, f q = Raise r -> r = Exc ValueError) ->
  collect f parts acc = Raise (Exc ValueError).
Proof.
  intros Hp Hbad Hexc. revert acc.
  induction parts as [|q parts IH]; intros acc.
  - now apply elem_of_nil in Hp.
  - cbn. destruct (f q) as [ids|r] eqn:Hq; cbn.
    + apply elem_of_cons in Hp. destruct Hp as [->|Hp].
      * exfalso. apply Hbad. exists ids. exact Hq.
      * apply IH. exact Hp.
    + now rewrite (Hexc q r Hq).
Qed.

(** The ids collected from a string are the ids it names. *)
Lemma collect_named s l :
  collect web_part (split_on "," s) [] = Ok l ->
  forall n, n ∈ l <-> named s n.
Proof.
  intros Hl n. rewrite (collect_elem_of _ _ _ _ Hl n). unfold named. split.
  - intros [Hn|(p & ids & Hp & Hfp & Hn)]; [now apply elem_of_nil in Hn|].
    exists p. split; [exact Hp|]. now apply (web_part_names p ids Hfp).
  - intros (p & Hp & Hn). right.
    destruct (names_web_part p n Hn) as [ids Hfp].
    exists p, ids. split; [exact Hp|]. split; [exact Hfp|].
    now apply (web_part_names p ids Hfp).
Qed.

(** The route on a string of ids that is not the word [all]. *)
Lemma api_logs_delete_run d s db st :
  d !! "ids" = Some (JStr s) ->
  lower (strip s) <> "all" ->
  api_logs_delete (JDict d) db st =
  match connects db with
  | Throws e => (Ok (500, Failed e), st)
  | Returns _ =>
      match collect web_part (split_on "," s) [] with
      | Raise (Exc e) => (Ok (500, Failed e), st)
      | Raise r => (Raise r, st)
      | Ok [] => (Ok (400, NoIds), st)
      | Ok l =>
          match deletes db l with
          | Throws e => (Ok (500, Failed e), st)
          | Returns _ => (Ok (200, Deleted (Count (length l))),
                          delete_ids l st)
          end
      end
  end.
Proof.
  intros Hd Hall.
  unfold api_logs_delete, bindM at 1, lift at 1. rewrite Hd.
  cbn [default from_option id].
  unfold is_all. apply String.eqb_neq in Hall. rewrite Hall.
  unfold try_exceptM, bindM, lift, modify, ret.
  destruct (connects db) as [[]|e]; cbn [call]; [|reflexivity].
  destruct (collect web_part (split_on "," s) []) as [[|i l]|[e| |]];
    try reflexivity.
  destruct (deletes db (i :: l)) as [[]|e]; reflexivity.
Qed.

(** The command line on a string of ids. *)
Lemma delete_sql_data_run s confirm db st :
  s <> "" ->
  delete_sql_data (Some s) false confirm db st =
  match connects db with
  | Throws e => (Raise (Exc e), st)
  | Returns _ =>
      match collect web_part (split_on "," s) [] with
      | Raise (Exc ValueError) => (Ok tt, st)
      | Raise r => (Raise r, st)
      | Ok l =>
          match deletes db (merge_sort Z.le (remove_dups l)) with
          | Throws ValueError => (Ok tt, st)
          | Throws e => (Raise (Exc e), st)
          | Returns _ =>
              (Ok tt, delete_ids (merge_sort Z.le (remove_dups l)) st)
          end
      end
  end.
Proof.
  intros Hs. unfold delete_sql_data, bindM at 1, lift at 1.
  destruct (connects db) as [[]|e]; cbn [call]; [|reflexivity].
  destruct s as [|c s]; [congruence|].
  rewrite (collect_ext cli_part web_part _ _ cli_part_web_part).
  unfold try_except_value, bindM, lift, modify, ret.
  destruct (collect web_part _ []) as [l|[[]| |]]; try reflexivity.
  destruct (deletes db _) as [[]|[]]; reflexivity.
Qed.

(** Whatever the database does, a run of either leaves the table or the
    table without the ids collected. *)
Lemma collect_exc s r :
  collect web_part (split_on "," s) [] = Raise r -> r = Exc ValueError.
Proof.
  destruct (split_on "," s) as [|p parts]; [discriminate|].
  generalize (@nil Z). revert p.
  induction parts as [|q parts IH]; intros p acc; cbn.
  - destruct (web_part p) as [ids|r'] eqn:Hp; cbn; [discriminate|].
    intros [= <-]. exact (web_part_exc p r' Hp).
  - destruct (web_part p) as [ids|r'] eqn:Hp; cbn.
    + apply IH.
    + intros [= <-]. exact (web_part_exc p r' Hp).
Qed.

(** X19: for an ASCII string of ids other than [all] whose parts are
    numbers or ranges, and with the [DELETE] of the ids collected
    carried out, the route deletes the rows whose id is named by the
    string and no other: the rows left are those of the table, in their
    order, whose id no part names; the answer is 400, with no statement
    run, when the parts name no id at all, and 200 otherwise. *)
Theorem api_logs_delete_removes_named (d : gmap string json) (s : string)
    (db : database) (st : store) :
  is_ascii s = true ->
  d !! "ids" = Some (JStr s) ->
  lower (strip s) <> "all" ->
  Forall (fun part => never_raises (web_part part)) (split_on "," s) ->
  connects db = Returns tt ->
  (forall id_list, collect web_part (split_on "," s) [] = Ok id_list ->
     deletes db id_list = Returns tt) ->
  let r := api_logs_delete (JDict d) db st in
  (exists code body, fst r = Ok (code, body) /\
     (code = 200 \/ code = 400) /\
     (code = 400 <-> forall n, ~ named s n)) /\
  (forall id row, (id, row) ∈ table (snd r) <->
                  (id, row) ∈ table st /\ ~ named s id) /\
  sublist (table (snd r)) (table st) /\
  sequence (snd r) = sequence st.
Proof.
  intros _ Hd Hall Hparts Hconn Hdel r. subst r.
  rewrite (api_logs_delete_run d s _ st Hd Hall), Hconn.
  destruct (collect_total web_part (split_on "," s) [] Hparts) as [l Hl].
  rewrite Hl. pose proof (collect_named s l Hl) as Hnamed.
  specialize (Hdel l Hl).
  destruct l as [|i l].
  - cbn [fst snd]. split; [|split; [|split]].
    + exists 400, NoIds. split; [reflexivity|]. split; [now right|].
      split; [|reflexivity]. intros _ n Hn. apply Hnamed in Hn.
      now apply elem_of_nil in Hn.
    + intros id row. split; [|tauto]. intros Hin. split; [exact Hin|].
      intros Hn. apply Hnamed in Hn. now apply elem_of_nil in Hn.
    + reflexivity.
    + reflexivity.
  - rewrite Hdel. cbn [fst snd]. split; [|split; [|split]].
    + eexists 200, _. split; [reflexivity|]. split; [now left|].
      split; [discriminate|]. intros Hnone. exfalso.
      apply (Hnone i), Hnamed, list_elem_of_here.
    + intros id row. unfold delete_ids. cbn [table].
      rewrite list_elem_of_filter. cbn. rewrite Hnamed. tauto.
    + apply sublist_filter.
    + reflexivity.
Qed.

(** X20: for the same ASCII string of ids, not empty and not [all], the
    command line leaves the table that the route leaves whenever the
    [DELETE] of each is carried out, the route's with the ids as
    collected and the command line's with the ids sorted and without
    duplicates: sorting and dropping duplicates changes nothing of what
    is deleted, and a string that has a part that is neither a number
    nor a range deletes nothing in either. *)
Theorem delete_sql_data_as_route (d : gmap string json) (s confirm : string)
    (db : database) (st : store) :
  is_ascii s = true ->
  d !! "ids" = Some (JStr s) ->
  s <> "" ->
  lower (strip s) <> "all" ->
  connects db = Returns tt ->
  (forall id_list, collect web_part (split_on "," s) [] = Ok id_list ->
     deletes db id_list = Returns tt /\
     deletes db (merge_sort Z.le (remove_dups id_list)) = Returns tt) ->
  snd (delete_sql_data (Some s) false confirm db st) =
  snd (api_logs_delete (JDict d) db st).
Proof.
  intros _ Hd Hs Hall Hconn Hdel.
  rewrite (api_logs_delete_run d s _ st Hd Hall).
  rewrite (delete_sql_data_run s confirm _ st Hs). rewrite Hconn.
  destruct (collect web_part (split_on "," s) []) as [l|r] eqn:Hl.
  - destruct (Hdel l eq_refl) as [Hweb Hcli]. rewrite Hcli.
    destruct l as [|i l]; cbn [snd].
    + apply delete_ids_nil.
    + rewrite Hweb. cbn [snd].
      apply delete_ids_same. intros n. apply elem_of_sorted_set.
  - rewrite (collect_exc s r Hl). reflexivity.
Qed.

(** X21: in an ASCII string of ids other than [all], one part that is
    neither a number nor a range and nothing is deleted, whatever the
    other parts name and whatever the statements would do: the route
    answers 500 and the command line leaves the table as it was. *)
Theorem malformed_ids_delete_nothing (d : gmap string json)
    (s confirm part : string) (db : database) (st : store) :
  is_ascii s = true ->
  d !! "ids" = Some (JStr s) ->
  lower (strip s) <> "all" ->
  part ∈ split_on "," s ->
  malformed part ->
  (exists e, api_logs_delete (JDict d) db st = (Ok (500, Failed e), st)) /\
  snd (delete_sql_data (Some s) false confirm db st) = st.
Proof.
  intros _ Hd Hall Hpart Hbad.
  rewrite (api_logs_delete_run d s _ st Hd Hall).
  rewrite (collect_fails web_part _ [] part Hpart Hbad web_part_exc).
  split; [destruct (connects db) as [[]|e]; eauto|].
  destruct (decide (s = "")) as [->|Hs].
  - unfold delete_sql_data, bindM, lift.
    destruct (connects db) as [[]|e]; reflexivity.
  - rewrite (delete_sql_data_run s confirm _ st Hs).
    rewrite (collect_fails web_part _ [] part Hpart Hbad web_part_exc).
    destruct (connects db) as [[]|e]; reflexivity.
Qed.

End Parsers.

Import Examples MoreExamples.

(** Of seven rows, the string [2, 4-6] leaves the third. *)
Lemma api_logs_delete_removes_named_witness :
  (3, empty_row "2025-06-01_08-03-00") ∈
    table (snd (api_logs_delete (JDict {[ "ids" := JStr "2, 4-6" ]})
                  sqlite seven_rows)) <->
  (3, empty_row "2025-06-01_08-03-00") ∈ table seven_rows /\
  ~ named "2, 4-6" 3.
Proof.
  destruct (api_logs_delete_removes_named {[ "ids" := JStr "2, 4-6" ]}
              "2, 4-6" sqlite seven_rows) as (_ & Hrows & _).
  - reflexivity.
  - reflexivity.
  - discriminate.
  - repeat constructor; eexists; vm_compute; reflexivity.
  - reflexivity.
  - intros id_list Hids. vm_compute in Hids. injection Hids as <-.
    reflexivity.
  - apply Hrows.
Defined.

Lemma delete_sql_data_as_route_witness :
  snd (delete_sql_data (Some "6-4, 2,5 ,2") false "" sqlite seven_rows) =
  snd (api_logs_delete (JDict {[ "ids" := JStr "6-4, 2,5 ,2" ]}) sqlite
         seven_rows).
Proof.
  apply (delete_sql_data_as_route {[ "ids" := JStr "6-4, 2,5 ,2" ]});
    [reflexivity|reflexivity|discriminate|discriminate|reflexivity|].
  intros id_list Hids. vm_compute in Hids. injection Hids as <-.
  split; reflexivity.
Defined.

Lemma malformed_ids_delete_nothing_witness :
  (exists e, api_logs_delete (JDict {[ "ids" := JStr "2,4-6,-7" ]}) sqlite
               seven_rows = (Ok (500, Failed e), seven_rows)) /\
  snd (delete_sql_data (Some "2,4-6,-7") false "" sqlite seven_rows) =
  seven_rows.
Proof.
  apply (malformed_ids_delete_nothing {[ "ids" := JStr "2,4-6,-7" ]}
           "2,4-6,-7" "" "-7").
  - reflexivity.
  - reflexivity.
  - discriminate.
  - vm_compute. repeat constructor.
  - intros [ids Hids]. vm_compute in Hids. discriminate Hids.
Defined.

End IdsFacts.

(** ** Starting and stopping the logger from the server *)
Module SupervisorFacts.
Import Float Py World Sensors Logger Supervisor Notions MoreNotions.
Import RelayOpsFacts RunFacts.

(** A live logger is recorded: the handle is set and its process has
    not exited. *)
Lemma is_logger_running_live pid s :
  logger_process s = Some pid -> is_logger_running None s = (Ok true, s).
Proof.
  intros Hp. unfold is_logger_running, bindM, get. rewrite Hp. reflexivity.
Qed.

Lemma is_logger_running_gone poll s :
  logger_process s = None \/ poll <> None ->
  is_logger_running poll s = (Ok false, with_process None s).
Proof.
  unfold is_logger_running, bindM, get, modify, ret.
  destruct (logger_process s) as [pid|] eqn:Hp.
  - intros [?|Hpoll]; [discriminate|].
    destruct poll; [reflexivity|congruence].
  - intros _. destruct s. cbn in Hp. subst. reflexivity.
Qed.

(** The polls after [terminate()]: the process is found alive at the
    eleventh exactly when it takes more than ten polls to exit. *)
Lemma alive_after_wait env :
  poll_at env (wait_exit (poll_at env) 10 0) = None <->
  match exits_after env with Some n => (10 < n)%nat | None => True end.
Proof.
  unfold poll_at. destruct (exits_after env) as [n|]; [|cbn; tauto].
  do 11 (destruct n as [|n]; [cbn; split; [discriminate|lia]|]).
  cbn. split; [lia|reflexivity].
Qed.

(** X22: while a live logger is recorded, [start_logger] launches
    nothing: it answers [already_running] and leaves the server as it
    is. *)
Theorem start_logger_refuses_second (mode : string) (env : launch)
    (pid : Z) (s : server) :
  logger_process s = Some pid ->
  old_poll env = None ->
  start_logger mode env s = (Ok (false, already_running), s).
Proof.
  intros Hp Hpoll. unfold start_logger, bindM at 1.
  rewrite Hpoll, (is_logger_running_live pid s Hp). reflexivity.
Qed.

(** X23: [start_logger] reports success only for a process it has just
    launched and recorded: the answer [ok] implies that no live logger
    was recorded before, that exactly one process was launched, in the
    mode asked for, and that the handle names it. *)
Theorem start_logger_started (mode : string) (env : launch) (msg : message)
    (s s' : server) :
  start_logger mode env s = (Ok (true, msg), s') ->
  (logger_process s = None \/ old_poll env <> None) /\
  exists pid,
    msg = started pid /\
    popen env = Returns pid /\ new_poll env = None /\
    logger_process s' = Some pid /\
    launched s' = launched s ++ [(mode, pid)] /\
    sent s' = sent s /\ disk s' = disk s.
Proof.
  unfold start_logger, bindM at 1. intros Hrun.
  assert (Hgone : logger_process s = None \/ old_poll env <> None).
  { destruct (logger_process s) as [p|] eqn:Hp; [|now left].
    destruct (old_poll env) eqn:Hpoll; [now right|].
    rewrite (is_logger_running_live p s Hp) in Hrun. discriminate Hrun. }
  split; [exact Hgone|].
  rewrite (is_logger_running_gone _ s Hgone) in Hrun.
  destruct (logger_py env); [|discriminate Hrun]. cbn [negb] in Hrun.
  unfold bindM, lift, modify, ret in Hrun.
  destruct (open_logfile env) as [[]|e]; [|discriminate Hrun].
  destruct (popen env) as [pid|e]; [|discriminate Hrun]. cbn [call] in Hrun.
  destruct (new_poll env); [discriminate Hrun|].
  injection Hrun as <- <-. exists pid. repeat split; reflexivity.
Qed.

(** The signals a live logger gets. *)
Lemma signals_cases (env : shutdown) (pid : Z) :
  match poll_at env (wait_exit (poll_at env) 10 0) with
  | None => [(pid, SIGTERM); (pid, SIGKILL)]
  | Some _ => [(pid, SIGTERM)]
  end =
  (pid, SIGTERM) ::
  match exits_after env with
  | Some n => if (n <=? 10)%nat then [] else [(pid, SIGKILL)]
  | None => [(pid, SIGKILL)]
  end.
Proof.
  pose proof (alive_after_wait env) as Halive.
  destruct (poll_at env (wait_exit (poll_at env) 10 0)) as [c|].
  - destruct (exits_after env) as [n|].
    + destruct (n <=? 10)%nat eqn:Hn; [reflexivity|].
      apply Nat.leb_gt in Hn. apply Halive in Hn. discriminate Hn.
    + destruct Halive as [_ Hnone]. discriminate (Hnone I).
  - destruct Halive as [Hgt _]. specialize (Hgt eq_refl).
    destruct (exits_after env) as [n|]; [|reflexivity].
    apply Nat.leb_gt in Hgt. rewrite Hgt. reflexivity.
Qed.

Lemma stop_logger_live env pid s :
  logger_process s = Some pid ->
  first_poll env = None ->
  terminate env = Returns tt -> kill env = Returns tt ->
  write_status env = Returns tt ->
  stop_logger env s =
  (Ok (true, stopped pid),
   with_disk (with_status (Present (Returns "-.-")) (disk s))
     (with_process None
        (with_sent
           (sent s ++
            match poll_at env (wait_exit (poll_at env) 10 0) with
            | None => [(pid, SIGTERM); (pid, SIGKILL)]
            | Some _ => [(pid, SIGTERM)]
            end) s))).
Proof.
  intros Hp Hpoll Hterm Hkill Hwrite.
  unfold stop_logger, bindM at 1.
  rewrite Hpoll, (is_logger_running_live pid s Hp). cbn [negb].
  unfold try_exceptM, bindM at 1, get. rewrite Hp.
  unfold send, write_status_file. rewrite Hterm, Hkill, Hwrite.
  destruct (poll_at env (wait_exit (poll_at env) 10 0)) as [c|]; cbn.
  - reflexivity.
  - rewrite <- app_assoc. reflexivity.
Qed.

(** X24: stopping a live logger when the system calls succeed: the
    process gets SIGTERM, and SIGKILL exactly when it is still alive at
    the eleventh poll; the handle is cleared, the status file holds the
    text that marks a stop, and the route reports that nothing runs. *)
Theorem stop_logger_signals (env : shutdown) (later_poll : option Z)
    (pid : Z) (s : server) :
  logger_process s = Some pid ->
  first_poll env = None ->
  terminate env = Returns tt -> kill env = Returns tt ->
  write_status env = Returns tt ->
  let r := api_run_stop env later_poll s in
  fst r = Ok (true, stopped pid, false) /\
  logger_process (snd r) = None /\
  sent (snd r) =
    sent s ++ (pid, SIGTERM) ::
    match exits_after env with
    | Some n => if (n <=? 10)%nat then [] else [(pid, SIGKILL)]
    | None => [(pid, SIGKILL)]
    end /\
  launched (snd r) = launched s /\
  api_status (disk (snd r)) = Ok "-.-".
Proof.
  intros Hp Hpoll Hterm Hkill Hwrite r.
  assert (Hr : r =
    (Ok (true, stopped pid, false),
     with_disk (with_status (Present (Returns "-.-")) (disk s))
       (with_process None
          (with_sent
             (sent s ++
              match poll_at env (wait_exit (poll_at env) 10 0) with
              | None => [(pid, SIGTERM); (pid, SIGKILL)]
              | Some _ => [(pid, SIGTERM)]
              end) s)))).
  { subst r. unfold api_run_stop, bindM at 1.
    rewrite (stop_logger_live env pid s Hp Hpoll Hterm Hkill Hwrite).
    unfold bindM. rewrite is_logger_running_gone by (now left).
    reflexivity. }
  rewrite Hr. cbn [fst snd logger_process sent launched disk with_disk
                   with_process with_sent].
  rewrite signals_cases. repeat split; reflexivity.
Qed.

Lemma stop_logger_idle env s :
  logger_process s = None \/ first_poll env <> None ->
  stop_logger env s =
  (Ok (false, not_running),
   match write_status env with
   | Returns _ =>
       with_disk (with_status (Present (Returns stopped_line)) (disk s))
                 (with_process None s)
   | Throws _ => with_process None s
   end).
Proof.
  intros Hgone. unfold stop_logger, bindM at 1.
  rewrite (is_logger_running_gone _ s Hgone). cbn [negb].
  unfold try_exceptM, bindM, write_status_file, lift, modify, ret.
  destruct (write_status env) as [[]|e]; reflexivity.
Qed.

(** X25: [stop_logger] never raises, and without a live logger it sends
    no signal: it answers [not_running], leaves the handle cleared and,
    when the status file can be written, leaves the text that the status
    route then shows as [STOPPED]. *)
Theorem stop_logger_not_running (env : shutdown) (s : server) :
  (exists ok msg s', stop_logger env s = (Ok (ok, msg), s')) /\
  (logger_process s = None \/ first_poll env <> None ->
   let r := stop_logger env s in
   fst r = Ok (false, not_running) /\
   logger_process (snd r) = None /\
   sent (snd r) = sent s /\ launched (snd r) = launched s /\
   match write_status env with
   | Returns _ => api_status (disk (snd r)) = Ok "STOPPED"
   | Throws _ => disk (snd r) = disk s
   end).
Proof.
  split.
  - unfold stop_logger, bindM at 1.
    destruct (logger_process s) as [pid|] eqn:Hp.
    + destruct (first_poll env) as [c|] eqn:Hpoll.
      * rewrite (is_logger_running_gone (Some c) s) by (now right).
        cbn [negb]. unfold try_exceptM, bindM, write_status_file, lift,
          modify, ret.
        destruct (write_status env) as [[]|e]; cbn; eauto.
      * rewrite (is_logger_running_live pid s Hp). cbn [negb].
        unfold try_exceptM, bindM at 1, get. rewrite Hp.
        unfold send, write_status_file, bindM, lift, modify, ret.
        destruct (terminate env) as [[]|e1]; cbn [call]; [|eauto].
        destruct (poll_at env _).
        -- destruct (write_status env) as [[]|e3]; cbn [call]; eauto.
        -- destruct (kill env) as [[]|e2]; cbn [call]; [|eauto].
           destruct (write_status env) as [[]|e3]; cbn [call]; eauto.
    + rewrite (is_logger_running_gone _ s) by (now left).
      cbn [negb]. unfold try_exceptM, bindM, write_status_file, lift,
        modify, ret.
      destruct (write_status env) as [[]|e]; cbn; eauto.
  - intros Hgone r. subst r. rewrite (stop_logger_idle env s Hgone).
    destruct (write_status env) as [[]|e]; repeat split; reflexivity.
Qed.

Section Status.
Context `{Builtins}.

(** X26: the status route follows the logger: while [run_logger] is in
    its loop the route shows the text written at start-up, stripped,
    and once the loop was interrupted from the keyboard it shows that
    the logger is not running. *)
Theorem api_status_follows_run_logger (cold_first : bool) (status : string)
    (pre rest : list tick_input) (last : tick_input) (w : world) :
  relays_set_up w ->
  Forall (fun i : tick_input =>
            (exists rv, (if cold_first then read_soil_raw_fresh (hw i)
                         else read_soil_raw_shared (hw i)) = Ok rv) /\
            nap i = None) pre ->
  (exists rv, (if cold_first then read_soil_raw_fresh (hw last)
               else read_soil_raw_shared (hw last)) = Ok rv) ->
  nap last = Some KeyboardInterrupt ->
  api_status (snd (run_logger cold_first status pre w)) =
    Ok (strip status) /\
  api_status (snd (run_logger cold_first status (pre ++ last :: rest) w)) =
    Ok "Logger nije pokrenut".
Proof.
  intros Hw Hok [rv Hrv] Hnap.
  rewrite !(run_logger_unfold cold_first status _ w Hw). cbv zeta.
  set (w1 := relays_after false false
               (with_status (Present (Returns status)) w)).
  destruct (loop_run cold_first pre w1 Hok) as (w2 & Hpre & Hg).
  destruct (run_logger_tick_run cold_first last w2 rv Hrv)
    as (row & Hlast & _).
  rewrite Hnap in Hlast.
  rewrite (loop_app cold_first pre rest last w1 w2 _ _ Hpre Hlast).
  rewrite Hpre. cbn [snd].
  apply grown_fields in Hg. destruct Hg as (_ & _ & _ & Hst & _).
  split; [|reflexivity].
  unfold api_status. rewrite Hst. reflexivity.
Qed.

End Status.

Import Examples MoreExamples.

Lemma start_logger_refuses_second_witness :
  start_logger "run_first" first_launch live_server =
  (Ok (false, already_running), live_server).
Proof.
  apply (start_logger_refuses_second _ _ 4711); reflexivity.
Defined.

Lemma start_logger_started_witness :
  start_logger "run_first" first_launch idle_server =
    (Ok (true, started 4711), live_server) /\
  logger_process live_server = Some 4711.
Proof.
  split; [reflexivity|].
  destruct (start_logger_started "run_first" first_launch (started 4711)
              idle_server live_server eq_refl)
    as (_ & pid & Hmsg & _ & _ & Hproc & _).
  injection Hmsg as <-. exact Hproc.
Defined.

Lemma stop_logger_signals_witness :
  sent (snd (api_run_stop stubborn_logger None live_server)) =
  [(4711, SIGTERM); (4711, SIGKILL)].
Proof.
  apply (stop_logger_signals stubborn_logger None 4711 live_server);
    reflexivity.
Defined.

Lemma stop_logger_not_running_witness :
  fst (stop_logger stubborn_logger idle_server) = Ok (false, not_running).
Proof.
  apply (stop_logger_not_running stubborn_logger idle_server).
  left. reflexivity.
Defined.

Lemma api_status_follows_run_logger_witness :
  api_status
    (snd (run_logger false "01.06.2025. u 08:00:00 (PID: 4711)"
            ([dry_soil_tick] ++ interrupted_tick :: []) fresh_world)) =
  Ok "Logger nije pokrenut".
Proof.
  apply (api_status_follows_run_logger false _ [dry_soil_tick] []
           interrupted_tick fresh_world).
  - split; eexists; reflexivity.
  - repeat constructor. eexists; reflexivity.
  - eexists; reflexivity.
  - reflexivity.
Defined.

End SupervisorFacts.

(** ** The migration of the table [logs] *)
Module SchemaFacts.
Import Schema SchemaNotions.

Lemma in_list_elem_of name cols : in_list name cols = true <-> name ∈ cols.
Proof.
  unfold in_list. rewrite existsb_exists. split.
  - intros (c & Hc & Heq). apply String.eqb_eq in Heq. subst c.
    now apply list_elem_of_In.
  - intros Hin. exists name. split; [now apply list_elem_of_In|].
    apply String.eqb_refl.
Qed.

Lemma same_column_refl name : same_column name name = true.
Proof. apply String.eqb_refl. Qed.

Lemma existsb_same_column name cols :
  existsb (same_column name) cols = false <->
  forall c, c ∈ cols -> same_column name c = false.
Proof.
  split.
  - intros Hnone c Hc. apply list_elem_of_In in Hc.
    destruct (same_column name c) eqn:Hsame; [|reflexivity].
    rewrite <- Hnone. symmetry. apply existsb_exists. eauto.
  - intros Hall. destruct (existsb _ cols) eqn:Hex; [|reflexivity].
    apply existsb_exists in Hex. destruct Hex as (c & Hc & Hsame).
    apply list_elem_of_In in Hc. rewrite (Hall c Hc) in Hsame.
    discriminate Hsame.
Qed.

(** [ALTER TABLE] behind its guard. *)
Lemma guarded_add name cols :
  (if negb (in_list name cols) then add_column name (Some cols)
   else Done (Some cols)) =
  if in_list name cols then Done (Some cols)
  else if existsb (same_column name) cols then OperationalError
  else Done (Some (cols ++ [name])).
Proof. destruct (in_list name cols); reflexivity. Qed.

Lemma in_list_app name cols extra :
  in_list name (cols ++ extra) = in_list name cols || in_list name extra.
Proof. apply existsb_app. Qed.

(** X27: [init_db] succeeds exactly when the table it finds has no
    column that differs from [lux] or from [stable] in case only; it
    then keeps the columns it found, in their order, in front, has both
    columns afterwards, and a second run changes nothing. *)
Theorem init_db_migrates (d : db) :
  (init_db d <> OperationalError <->
   no_case_variant "lux" (table_info d) /\
   no_case_variant "stable" (table_info d)) /\
  (forall cols', init_db d = Done cols' ->
     exists cols, cols' = Some cols /\
       table_info d `prefix_of` cols /\
       "lux" ∈ cols /\ "stable" ∈ cols /\
       init_db (Some cols) = Done (Some cols)).
Proof.
  assert (Hfresh : init_db None = Done (Some logs_columns)) by reflexivity.
  assert (Hagain : init_db (Some logs_columns) = Done (Some logs_columns))
    by reflexivity.
  destruct d as [cols|].
  2:{ split.
      - split; [intros _|intros _; rewrite Hfresh; discriminate].
        split; right; intros c Hc; now apply elem_of_nil in Hc.
      - rewrite Hfresh. intros cols' [= <-]. exists logs_columns.
        split; [reflexivity|]. split; [apply prefix_nil|].
        split; [|split; [|exact Hagain]];
          apply in_list_elem_of; reflexivity. }
  unfold init_db, no_case_variant.
  cbn [create_table_if_not_exists table_info default from_option id].
  rewrite guarded_add.
  rewrite <- !(in_list_elem_of _ cols), <- !existsb_same_column.
  destruct (in_list "lux" cols) eqn:Hlux.
  - rewrite guarded_add.
    destruct (in_list "stable" cols) eqn:Hst.
    + split; [split; [auto|discriminate]|].
      intros cols' [= <-]. exists cols. split; [reflexivity|].
      split; [reflexivity|].
      split; [now apply in_list_elem_of|].
      split; [now apply in_list_elem_of|].
      unfold init_db.
      cbn [create_table_if_not_exists table_info default from_option id].
      rewrite Hlux, Hst. reflexivity.
    + destruct (existsb (same_column "stable") cols) eqn:Hvar.
      * split; [|discriminate].
        split; [congruence|]. intros [_ [Hin|Hnone]]; discriminate.
      * split; [split; [auto|discriminate]|].
        intros cols' [= <-]. exists (cols ++ ["stable"]).
        split; [reflexivity|]. split; [now apply prefix_app_r|].
        assert (H1 : in_list "lux" (cols ++ ["stable"]) = true)
          by (rewrite in_list_app, Hlux; reflexivity).
        assert (H2 : in_list "stable" (cols ++ ["stable"]) = true)
          by (rewrite in_list_app, orb_comm; reflexivity).
        split; [now apply in_list_elem_of|].
        split; [now apply in_list_elem_of|].
        unfold init_db.
        cbn [create_table_if_not_exists table_info default from_option id].
        rewrite H1, H2. reflexivity.
  - destruct (existsb (same_column "lux") cols) eqn:Hvar.
    + split; [|discriminate].
      split; [congruence|]. intros [[Hin|Hnone] _]; discriminate.
    + destruct (in_list "stable" cols) eqn:Hst; cbn [negb].
      * split; [split; [auto|discriminate]|].
        intros cols' [= <-]. exists (cols ++ ["lux"]).
        split; [reflexivity|]. split; [now apply prefix_app_r|].
        assert (H1 : in_list "lux" (cols ++ ["lux"]) = true)
          by (rewrite in_list_app, orb_comm; reflexivity).
        assert (H2 : in_list "stable" (cols ++ ["lux"]) = true)
          by (rewrite in_list_app, Hst; reflexivity).
        split; [now apply in_list_elem_of|].
        split; [now apply in_list_elem_of|].
        unfold init_db.
        cbn [create_table_if_not_exists table_info default from_option id].
        rewrite H1, H2. reflexivity.
      * unfold add_column. rewrite existsb_app. cbn [existsb orb].
        change (same_column "stable" "lux") with false. rewrite orb_false_r.
        destruct (existsb (same_column "stable") cols) eqn:Hvar2.
        -- split; [|discriminate].
           split; [congruence|]. intros [_ [Hin|Hnone]]; discriminate.
        -- split; [split; [auto|discriminate]|].
           intros cols' [= <-]. exists ((cols ++ ["lux"]) ++ ["stable"]).
           split; [reflexivity|].
           split; [rewrite <- app_assoc; now apply prefix_app_r|].
           assert (H1 : in_list "lux" ((cols ++ ["lux"]) ++ ["stable"]) = true).
           { rewrite !in_list_app. cbn. now rewrite orb_true_r. }
           assert (H2 : in_list "stable" ((cols ++ ["lux"]) ++ ["stable"])
                        = true).
           { rewrite !in_list_app. cbn. now rewrite !orb_true_r. }
           split; [now apply in_list_elem_of|].
           split; [now apply in_list_elem_of|].
           unfold init_db.
           cbn [create_table_if_not_exists table_info default from_option id].
           rewrite H1, H2. reflexivity.
Qed.

Import MoreExamples.

Lemma init_db_migrates_witness :
  init_db old_table <> OperationalError /\
  init_db old_table = Done (Some (table_info old_table ++ ["lux"; "stable"])).
Proof.
  split; [|reflexivity].
  apply (init_db_migrates old_table).
  split; right; intros c Hc;
    repeat (apply elem_of_cons in Hc; destruct Hc as [->|Hc]; [reflexivity|]);
    now apply elem_of_nil in Hc.
Defined.

End SchemaFacts.
